(** * The Physics module of Interstellar Armada (js/armada/graphics.js)

    A shallow embedding of [Force], [Torque], [Body] and [PhysicalObject]:
    objects are records, a method that writes to [this] returns the new
    object next to its result, numbers are IEEE 754 binary64 values (the
    JavaScript Number type) and arrays of numbers are lists.

    The module depends on matrices.js ([Vec] and [Mat]), which is not among
    the sources: its functions are the fields of the class [MatricesJs], and
    every general theorem holds for any implementation of them.  The module
    [Matrices] gives one implementation, used to run the code on concrete
    inputs. *)

From Stdlib Require Import Floats List Bool String Arith ZArith PArith Lia.
Import ListNotations.

Set Warnings "-inexact-float".
Local Open Scope float_scope.

(** ** JavaScript numbers *)

Module Js.

(** [a[i]] for an array of numbers.  Reading past the end gives [undefined];
    every use of such a read in this module is an arithmetic operation or a
    comparison, which converts [undefined] to NaN. *)
Definition item (a : list float) (i : nat) : float := nth i a nan.

Definition is_nan (x : float) : bool := negb (x =? x).

Definition is_negzero (x : float) : bool :=
  match classify x with NZero => true | _ => false end.

Definition is_poszero (x : float) : bool :=
  match classify x with PZero => true | _ => false end.

(** [a > b] and [a >= b]. *)
Definition gt (a b : float) : bool := b <? a.
Definition ge (a b : float) : bool := b <=? a.

Definition Math_abs (x : float) : float := abs x.

Definition Math_sqrt (x : float) : float := sqrt x.

(** [Math.min(a, b)]: NaN when an argument is NaN, and -0 is below +0. *)
Definition Math_min (a b : float) : float :=
  if is_nan a || is_nan b then nan
  else if b <? a then b
  else if a <? b then a
  else if is_negzero a then a else b.

(** [Math.max(a, b)]: NaN when an argument is NaN, and +0 is above -0. *)
Definition Math_max (a b : float) : float :=
  if is_nan a || is_nan b then nan
  else if a <? b then b
  else if b <? a then a
  else if is_poszero a then a else b.

End Js.

(** ** matrices.js *)

(** The functions of [Vec] and [Mat] that the Physics module calls; the file
    that defines them is not among the sources, so they are parameters.  A
    vector is an array of numbers; a matrix is a [Float32Array], kept
    abstract. *)
Class MatricesJs : Type := {
  mat4 : Type;
  mat3 : Type;
  Vec_normal3 : list float -> list float;
  Vec_scaled3 : list float -> float -> list float;
  Vec_add3 : list float -> list float -> list float;
  Vec_length3 : list float -> float;
  Vec_mulVec3Mat3 : list float -> mat3 -> list float;
  Vec_mulVec4Mat4 : list float -> mat4 -> list float;
  Mat_identity4 : mat4;
  Mat_mul4 : mat4 -> mat4 -> mat4;
  Mat_translation4v : list float -> mat4;
  Mat_translationVector3 : mat4 -> list float;
  Mat_rotation4 : list float -> float -> mat4;
  Mat_matrix3from4 : mat4 -> mat3;
  Mat_inverseOfTranslation4 : mat4 -> mat4;
  Mat_inverseOfRotation4 : mat4 -> mat4;
  Mat_inverseOfScaling4 : mat4 -> mat4;
  Mat_straightened : mat4 -> float -> mat4;
  Mat_correctedOrthogonal4 : mat4 -> mat4
}.

(** ** Force *)

Module Force.

Record t : Type := {
  _id : string;
  _strength : float;
  _direction : list float;
  _duration : float
}.

Section WithMatrices.
Context {M : MatricesJs}.

(** [new Force(id, strength, direction, duration)] *)
Definition new (id : string) (strength : float) (direction : list float)
  (duration : float) : t :=
  {| _id := id;
     _strength := strength;
     _direction := Vec_normal3 direction;
     _duration := duration |}.

Definition getID (f : t) : string := _id f.

Definition renew (f : t) (strength : float) (direction : list float)
  (duration : float) : t :=
  {| _id := _id f;
     _strength := strength;
     _direction := Vec_normal3 direction;
     _duration := duration |}.

(** The returned pair is the method's result and the force after the call. *)
Definition getExertionDuration (f : t) (dt : float) : float * t :=
  if Js.gt (_duration f) 0.1 then
    let t := Js.Math_min (_duration f) dt in
    (t, {| _id := _id f;
           _strength := _strength f;
           _direction := _direction f;
           _duration := _duration f - dt |})
  else (0, f).

Definition getAccelerationVector (f : t) (mass : float) : list float :=
  Vec_scaled3 (_direction f) (_strength f / mass).

End WithMatrices.
End Force.

(** ** Torque *)

Module Torque.

Record t : Type := {
  _id : string;
  _strength : float;
  _axis : list float;
  _duration : float
}.

Section WithMatrices.
Context {M : MatricesJs}.

(** [new Torque(id, strength, axis, duration)] *)
Definition new (id : string) (strength : float) (axis : list float)
  (duration : float) : t :=
  {| _id := id;
     _strength := strength;
     _axis := Vec_normal3 axis;
     _duration := duration |}.

Definition getID (q : t) : string := _id q.

Definition renew (q : t) (strength : float) (axis : list float)
  (duration : float) : t :=
  {| _id := _id q;
     _strength := strength;
     _axis := axis;
     _duration := duration |}.

Definition getExertionDuration (q : t) (dt : float) : float * t :=
  if Js.gt (_duration q) 0.1 then
    let t := Js.Math_min (_duration q) dt in
    (t, {| _id := _id q;
           _strength := _strength q;
           _axis := _axis q;
           _duration := _duration q - dt |})
  else (0, q).

Definition getAngularAccelerationMatrixOverTime (q : t) (mass : float)
  (t : float) : mat4 :=
  Mat_rotation4 (_axis q) (_strength q / mass * t).

End WithMatrices.
End Torque.

(** ** Body *)

Module Body.
Section WithMatrices.
Context {M : MatricesJs}.

(** [_modelMatrixInverse] is the cache: [None] stands for [null]. *)
Record t : Type := {
  _positionMatrix : mat4;
  _orientationMatrix : mat4;
  _modelMatrixInverse : option mat4;
  _width : float;
  _height : float;
  _depth : float
}.

(** [new Body(positionMatrix, orientationMatrix, dimensions)] *)
Definition new (positionMatrix orientationMatrix : mat4)
  (dimensions : list float) : t :=
  {| _positionMatrix := positionMatrix;
     _orientationMatrix := orientationMatrix;
     _modelMatrixInverse := None;
     _width := Js.item dimensions 0;
     _height := Js.item dimensions 1;
     _depth := Js.item dimensions 2 |}.

Definition getPositionMatrix (b : t) : mat4 := _positionMatrix b.
Definition getOrientationMatrix (b : t) : mat4 := _orientationMatrix b.
Definition getWidth (b : t) : float := _width b.
Definition getHeight (b : t) : float := _height b.
Definition getDepth (b : t) : float := _depth b.

(** [this._modelMatrixInverse || Mat.mul4(...)]: an array object is truthy,
    so the cached matrix is kept whenever there is one. *)
Definition getModelMatrixInverse (b : t) : mat4 * t :=
  let m :=
    match _modelMatrixInverse b with
    | Some cached => cached
    | None => Mat_mul4 (Mat_inverseOfTranslation4 (_positionMatrix b))
                       (Mat_inverseOfRotation4 (_orientationMatrix b))
    end in
  (m, {| _positionMatrix := _positionMatrix b;
         _orientationMatrix := _orientationMatrix b;
         _modelMatrixInverse := Some m;
         _width := _width b;
         _height := _height b;
         _depth := _depth b |}).

Definition getHalfDimensions (b : t) : list float :=
  [_width b * 0.5; _height b * 0.5; _depth b * 0.5].

(** The test of [checkHit] on the point already taken to the body's space. *)
Definition insideBox (b : t) (r : list float) : bool :=
  Js.ge (Js.item r 0) (- _width b * 0.5) && (Js.item r 0 <=? _width b * 0.5) &&
  Js.ge (Js.item r 1) (- _height b * 0.5) && (Js.item r 1 <=? _height b * 0.5) &&
  Js.ge (Js.item r 2) (- _depth b * 0.5) && (Js.item r 2 <=? _depth b * 0.5).

Definition checkHit (b : t) (relativePositionVector : list float) : bool * t :=
  let (inverse, b') := getModelMatrixInverse b in
  let relativePositionVector := Vec_mulVec4Mat4 relativePositionVector inverse in
  (insideBox b' relativePositionVector, b').

End WithMatrices.
End Body.

(** ** PhysicalObject *)

Module PhysicalObject.
Section WithMatrices.
Context {M : MatricesJs}.

(** The two caches hold [None] for [null]. *)
Record t : Type := {
  _mass : float;
  _positionMatrix : mat4;
  _orientationMatrix : mat4;
  _scalingMatrix : mat4;
  _rotationMatrixInverse : option mat4;
  _modelMatrixInverse : option mat4;
  _velocityMatrix : mat4;
  _angularVelocityMatrix : mat4;
  _forces : list Force.t;
  _torques : list Torque.t;
  _bodies : list Body.t;
  _bodySize : float
}.

(** Assignments to a single field of [this]. *)

Definition assign_positionMatrix (o : t) (v : mat4) : t :=
  {| _mass := _mass o; _positionMatrix := v;
     _orientationMatrix := _orientationMatrix o;
     _scalingMatrix := _scalingMatrix o;
     _rotationMatrixInverse := _rotationMatrixInverse o;
     _modelMatrixInverse := _modelMatrixInverse o;
     _velocityMatrix := _velocityMatrix o;
     _angularVelocityMatrix := _angularVelocityMatrix o;
     _forces := _forces o; _torques := _torques o; _bodies := _bodies o;
     _bodySize := _bodySize o |}.

Definition assign_orientationMatrix (o : t) (v : mat4) : t :=
  {| _mass := _mass o; _positionMatrix := _positionMatrix o;
     _orientationMatrix := v;
     _scalingMatrix := _scalingMatrix o;
     _rotationMatrixInverse := _rotationMatrixInverse o;
     _modelMatrixInverse := _modelMatrixInverse o;
     _velocityMatrix := _velocityMatrix o;
     _angularVelocityMatrix := _angularVelocityMatrix o;
     _forces := _forces o; _torques := _torques o; _bodies := _bodies o;
     _bodySize := _bodySize o |}.

Definition assign_rotationMatrixInverse (o : t) (v : option mat4) : t :=
  {| _mass := _mass o; _positionMatrix := _positionMatrix o;
     _orientationMatrix := _orientationMatrix o;
     _scalingMatrix := _scalingMatrix o;
     _rotationMatrixInverse := v;
     _modelMatrixInverse := _modelMatrixInverse o;
     _velocityMatrix := _velocityMatrix o;
     _angularVelocityMatrix := _angularVelocityMatrix o;
     _forces := _forces o; _torques := _torques o; _bodies := _bodies o;
     _bodySize := _bodySize o |}.

Definition assign_modelMatrixInverse (o : t) (v : option mat4) : t :=
  {| _mass := _mass o; _positionMatrix := _positionMatrix o;
     _orientationMatrix := _orientationMatrix o;
     _scalingMatrix := _scalingMatrix o;
     _rotationMatrixInverse := _rotationMatrixInverse o;
     _modelMatrixInverse := v;
     _velocityMatrix := _velocityMatrix o;
     _angularVelocityMatrix := _angularVelocityMatrix o;
     _forces := _forces o; _torques := _torques o; _bodies := _bodies o;
     _bodySize := _bodySize o |}.

Definition assign_velocityMatrix (o : t) (v : mat4) : t :=
  {| _mass := _mass o; _positionMatrix := _positionMatrix o;
     _orientationMatrix := _orientationMatrix o;
     _scalingMatrix := _scalingMatrix o;
     _rotationMatrixInverse := _rotationMatrixInverse o;
     _modelMatrixInverse := _modelMatrixInverse o;
     _velocityMatrix := v;
     _angularVelocityMatrix := _angularVelocityMatrix o;
     _forces := _forces o; _torques := _torques o; _bodies := _bodies o;
     _bodySize := _bodySize o |}.

Definition assign_angularVelocityMatrix (o : t) (v : mat4) : t :=
  {| _mass := _mass o; _positionMatrix := _positionMatrix o;
     _orientationMatrix := _orientationMatrix o;
     _scalingMatrix := _scalingMatrix o;
     _rotationMatrixInverse := _rotationMatrixInverse o;
     _modelMatrixInverse := _modelMatrixInverse o;
     _velocityMatrix := _velocityMatrix o;
     _angularVelocityMatrix := v;
     _forces := _forces o; _torques := _torques o; _bodies := _bodies o;
     _bodySize := _bodySize o |}.

Definition assign_forces (o : t) (v : list Force.t) : t :=
  {| _mass := _mass o; _positionMatrix := _positionMatrix o;
     _orientationMatrix := _orientationMatrix o;
     _scalingMatrix := _scalingMatrix o;
     _rotationMatrixInverse := _rotationMatrixInverse o;
     _modelMatrixInverse := _modelMatrixInverse o;
     _velocityMatrix := _velocityMatrix o;
     _angularVelocityMatrix := _angularVelocityMatrix o;
     _forces := v; _torques := _torques o; _bodies := _bodies o;
     _bodySize := _bodySize o |}.

Definition assign_torques (o : t) (v : list Torque.t) : t :=
  {| _mass := _mass o; _positionMatrix := _positionMatrix o;
     _orientationMatrix := _orientationMatrix o;
     _scalingMatrix := _scalingMatrix o;
     _rotationMatrixInverse := _rotationMatrixInverse o;
     _modelMatrixInverse := _modelMatrixInverse o;
     _velocityMatrix := _velocityMatrix o;
     _angularVelocityMatrix := _angularVelocityMatrix o;
     _forces := _forces o; _torques := v; _bodies := _bodies o;
     _bodySize := _bodySize o |}.

Definition assign_bodies (o : t) (v : list Body.t) : t :=
  {| _mass := _mass o; _positionMatrix := _positionMatrix o;
     _orientationMatrix := _orientationMatrix o;
     _scalingMatrix := _scalingMatrix o;
     _rotationMatrixInverse := _rotationMatrixInverse o;
     _modelMatrixInverse := _modelMatrixInverse o;
     _velocityMatrix := _velocityMatrix o;
     _angularVelocityMatrix := _angularVelocityMatrix o;
     _forces := _forces o; _torques := _torques o; _bodies := v;
     _bodySize := _bodySize o |}.

Definition assign_bodySize (o : t) (v : float) : t :=
  {| _mass := _mass o; _positionMatrix := _positionMatrix o;
     _orientationMatrix := _orientationMatrix o;
     _scalingMatrix := _scalingMatrix o;
     _rotationMatrixInverse := _rotationMatrixInverse o;
     _modelMatrixInverse := _modelMatrixInverse o;
     _velocityMatrix := _velocityMatrix o;
     _angularVelocityMatrix := _angularVelocityMatrix o;
     _forces := _forces o; _torques := _torques o; _bodies := _bodies o;
     _bodySize := v |}.

(** *** Direct getters and setters *)

Definition getMass (o : t) : float := _mass o.
Definition getPositionMatrix (o : t) : mat4 := _positionMatrix o.
Definition getOrientationMatrix (o : t) : mat4 := _orientationMatrix o.
Definition getScalingMatrix (o : t) : mat4 := _scalingMatrix o.
Definition getVelocityMatrix (o : t) : mat4 := _velocityMatrix o.
Definition getAngularVelocityMatrix (o : t) : mat4 := _angularVelocityMatrix o.

(** [this._forces.push(force)].  Here and below [_forces] is the array as
    the list of the Force values that its entries read, every entry taken to
    hold a Force object of its own.  The array holds references, and one
    Force object can be pushed twice: the module [Shared] has the array as a
    list of references, and the lemma [simulate_view] relates the two. *)
Definition addForce (o : t) (force : Force.t) : t :=
  assign_forces o (_forces o ++ [force]).

Definition addTorque (o : t) (torque : Torque.t) : t :=
  assign_torques o (_torques o ++ [torque]).

(** *** Indirect getters and setters *)

Definition setPositionMatrix (o : t) (value : mat4) : t :=
  assign_modelMatrixInverse (assign_positionMatrix o value) None.

Definition setOrientationMatrix (o : t) (value : mat4) : t :=
  assign_modelMatrixInverse
    (assign_rotationMatrixInverse (assign_orientationMatrix o value) None) None.

Definition getRotationMatrixInverse (o : t) : mat4 * t :=
  let m :=
    match _rotationMatrixInverse o with
    | Some cached => cached
    | None => Mat_inverseOfRotation4 (_orientationMatrix o)
    end in
  (m, assign_rotationMatrixInverse o (Some m)).

(** The right operand of [||] runs, and with it [getRotationMatrixInverse],
    only when the cache holds [null]. *)
Definition getModelMatrixInverse (o : t) : mat4 * t :=
  match _modelMatrixInverse o with
  | Some cached => (cached, assign_modelMatrixInverse o (Some cached))
  | None =>
      let translationInverse := Mat_inverseOfTranslation4 (_positionMatrix o) in
      let (rotationInverse, o1) := getRotationMatrixInverse o in
      let m := Mat_mul4 (Mat_mul4 translationInverse rotationInverse)
                        (Mat_inverseOfScaling4 (_scalingMatrix o1)) in
      (m, assign_modelMatrixInverse o1 (Some m))
  end.

(** *** Methods *)

(** The scan of [addOrRenewForce]: [Some] of the updated array when a force
    with the ID was found (and the loop left by [break]), [None] when [found]
    is still false at the end.  Every entry is a Force object of its own
    here; [Shared.renewFirstForce] is the scan over references. *)
Fixpoint renewFirstForce (forceID : string) (strength : float)
  (direction : list float) (duration : float) (forces : list Force.t)
  : option (list Force.t) :=
  match forces with
  | [] => None
  | f :: rest =>
      if String.eqb (Force.getID f) forceID
      then Some (Force.renew f strength direction duration :: rest)
      else option_map (cons f)
             (renewFirstForce forceID strength direction duration rest)
  end.

Definition addOrRenewForce (o : t) (forceID : string) (strength : float)
  (direction : list float) (duration : float) : t :=
  match renewFirstForce forceID strength direction duration (_forces o) with
  | Some forces => assign_forces o forces
  | None => addForce o (Force.new forceID strength direction duration)
  end.

Fixpoint renewFirstTorque (torqueID : string) (strength : float)
  (axis : list float) (duration : float) (torques : list Torque.t)
  : option (list Torque.t) :=
  match torques with
  | [] => None
  | q :: rest =>
      if String.eqb (Torque.getID q) torqueID
      then Some (Torque.renew q strength axis duration :: rest)
      else option_map (cons q)
             (renewFirstTorque torqueID strength axis duration rest)
  end.

Definition addOrRenewTorque (o : t) (torqueID : string) (strength : float)
  (axis : list float) (duration : float) : t :=
  match renewFirstTorque torqueID strength axis duration (_torques o) with
  | Some torques => assign_torques o torques
  | None => addTorque o (Torque.new torqueID strength axis duration)
  end.

(** One round of the loop of [_calculateBodySize]. *)
Definition bodySizeStep (orientationMatrix : mat4) (bodySize : float)
  (body : Body.t) : float :=
  let bodyPos := Mat_translationVector3 (Body.getPositionMatrix body) in
  let halfDim :=
    Vec_mulVec3Mat3 (Body.getHalfDimensions body)
      (Mat_matrix3from4
         (Mat_mul4 orientationMatrix (Body.getOrientationMatrix body))) in
  let h0 := Js.item halfDim 0 in
  let h1 := Js.item halfDim 1 in
  let h2 := Js.item halfDim 2 in
  let bodySize := Js.Math_max bodySize (Vec_length3 (Vec_add3 bodyPos halfDim)) in
  let bodySize := Js.Math_max bodySize (Vec_length3 (Vec_add3 bodyPos [h0; h1; - h2])) in
  let bodySize := Js.Math_max bodySize (Vec_length3 (Vec_add3 bodyPos [h0; - h1; h2])) in
  let bodySize := Js.Math_max bodySize (Vec_length3 (Vec_add3 bodyPos [h0; - h1; - h2])) in
  let bodySize := Js.Math_max bodySize (Vec_length3 (Vec_add3 bodyPos [- h0; h1; h2])) in
  let bodySize := Js.Math_max bodySize (Vec_length3 (Vec_add3 bodyPos [- h0; h1; - h2])) in
  let bodySize := Js.Math_max bodySize (Vec_length3 (Vec_add3 bodyPos [- h0; - h1; h2])) in
  Js.Math_max bodySize (Vec_length3 (Vec_add3 bodyPos [- h0; - h1; - h2])).

Definition _calculateBodySize (o : t) : t :=
  assign_bodySize o
    (fold_left (bodySizeStep (_orientationMatrix o)) (_bodies o) 0).

(** [new PhysicalObject(mass, positionMatrix, orientationMatrix,
    scalingMatrix, initialVelocityMatrix, bodies)]; [bodies] is optional. *)
Definition new (mass : float)
  (positionMatrix orientationMatrix scalingMatrix initialVelocityMatrix : mat4)
  (bodies : option (list Body.t)) : t :=
  _calculateBodySize
    {| _mass := mass;
       _positionMatrix := positionMatrix;
       _orientationMatrix := orientationMatrix;
       _scalingMatrix := scalingMatrix;
       _rotationMatrixInverse := None;
       _modelMatrixInverse := None;
       _velocityMatrix := initialVelocityMatrix;
       _angularVelocityMatrix := Mat_identity4;
       _forces := [];
       _torques := [];
       _bodies := match bodies with Some l => l | None => [] end;
       _bodySize := -1 |}.

(** The loop of [checkHit] over the bodies, left as soon as [result] is true:
    the result, the bodies after the calls (a call fills the body's cache)
    and, as a record of the run, the bodies whose [checkHit] was called. *)
Fixpoint checkBodies (bodies : list Body.t) (relativePos : list float)
  : bool * list Body.t * list Body.t :=
  match bodies with
  | [] => (false, [], [])
  | b :: rest =>
      let (result, b') := Body.checkHit b relativePos in
      if result then (true, b' :: rest, [b])
      else
        let '(result, rest', called) := checkBodies rest relativePos in
        (result, b' :: rest', b :: called)
  end.

(** The preliminary check of [checkHit] against the cached size. *)
Definition closeEnough (o : t) (relativePos : list float) : bool :=
  (Js.Math_abs (Js.item relativePos 0) <? _bodySize o) &&
  (Js.Math_abs (Js.item relativePos 1) <? _bodySize o) &&
  (Js.Math_abs (Js.item relativePos 2) <? _bodySize o).

(** What a call of [checkHit] leaves behind: the returned value, the array
    that was passed (the method pushes onto it), the object, and the bodies
    whose [checkHit] ran. *)
Record HitCheck : Type := {
  result : bool;
  positionVector : list float;
  this : t;
  called : list Body.t
}.

Definition checkHit (o : t) (positionVector : list float) : HitCheck :=
  let positionVector := positionVector ++ [1] in
  let (inverse, o1) := getModelMatrixInverse o in
  let relativePos := Vec_mulVec4Mat4 positionVector inverse in
  if closeEnough o1 relativePos then
    let '(result, bodies, called) := checkBodies (_bodies o1) relativePos in
    {| result := result; positionVector := positionVector;
       this := assign_bodies o1 bodies; called := called |}
  else
    {| result := false; positionVector := positionVector;
       this := o1; called := [] |}.

Definition _correctMatrices (o : t) : t :=
  let o1 := setOrientationMatrix o
              (Mat_correctedOrthogonal4 (_orientationMatrix o)) in
  assign_angularVelocityMatrix o1
    (Mat_correctedOrthogonal4 (_angularVelocityMatrix o1)).

(** *** simulate, block by block *)

(** The movement caused by the velocity sampled in the previous step. *)
Definition linearDrift (o : t) (dt : float) : t :=
  setPositionMatrix o
    (Mat_mul4 (_positionMatrix o)
       (Mat_translation4v
          (Vec_scaled3 (Mat_translationVector3 (_velocityMatrix o))
             (dt / 1000)))).

(** The body of the loop over the forces, for one force: the state is the
    object and [accelerationMatrix]. *)
Definition forceBody (dt : float) (st : t * mat4) (force : Force.t)
  : Force.t * (t * mat4) :=
  let (o, accelerationMatrix) := st in
  let (ms, force) := Force.getExertionDuration force dt in
  let t := ms / 1000 in
  if Js.gt t 0 then
    let a := Force.getAccelerationVector force (_mass o) in
    (force,
     (setPositionMatrix o
        (Mat_mul4 (_positionMatrix o)
           (Mat_translation4v (Vec_scaled3 a (1 / 2 * t * t)))),
      Mat_mul4 accelerationMatrix (Mat_translation4v (Vec_scaled3 a t))))
  else (force, (o, accelerationMatrix)).

(** The loop, over entries that each hold a Force object of their own;
    [Shared.forcesLoop] is the loop over references. *)
Fixpoint forcesLoop (dt : float) (forces : list Force.t) (st : t * mat4)
  : list Force.t * (t * mat4) :=
  match forces with
  | [] => ([], st)
  | force :: rest =>
      let (force', st1) := forceBody dt st force in
      let (rest', st2) := forcesLoop dt rest st1 in
      (force' :: rest', st2)
  end.

(** The loop over the forces and the update of the velocity matrix. *)
Definition integrateForces (o : t) (dt : float) : t :=
  let '(forces, (o1, accelerationMatrix)) :=
    forcesLoop dt (_forces o) (o, Mat_identity4) in
  let o2 := assign_forces o1 forces in
  assign_velocityMatrix o2 (Mat_mul4 (_velocityMatrix o2) accelerationMatrix).

(** One round of [for (i = 0; i + 2 < dt; i += 5)]. *)
Definition angularStep (o : t) : t :=
  setOrientationMatrix o
    (Mat_mul4 (_orientationMatrix o) (_angularVelocityMatrix o)).

(** The loop from counter [i] on.  Its number of rounds is not bounded by
    the size of any data, so the embedding carries a bound [fuel] on them:
    [None] means the loop was still running after [fuel] rounds. *)
Fixpoint angularLoop (fuel : nat) (i dt : float) (o : t) : option t :=
  if i + 2 <? dt then
    match fuel with
    | O => None
    | S fuel' => angularLoop fuel' (i + 5) dt (angularStep o)
    end
  else Some o.

Definition angularDrift (fuel : nat) (o : t) (dt : float) : option t :=
  angularLoop fuel 0 dt o.

Definition torqueBody (dt : float) (st : t * mat4) (torque : Torque.t)
  : Torque.t * (t * mat4) :=
  let (o, angularAccMatrix) := st in
  let (ms, torque) := Torque.getExertionDuration torque dt in
  let t := ms / 1000 in
  if Js.gt t 0 then
    (torque,
     (setOrientationMatrix o
        (Mat_mul4 (_orientationMatrix o)
           (Torque.getAngularAccelerationMatrixOverTime torque (_mass o)
              (1 / 2 * t * t))),
      Mat_mul4 angularAccMatrix
        (Torque.getAngularAccelerationMatrixOverTime torque (_mass o)
           (t / 200))))
  else (torque, (o, angularAccMatrix)).

Fixpoint torquesLoop (dt : float) (torques : list Torque.t) (st : t * mat4)
  : list Torque.t * (t * mat4) :=
  match torques with
  | [] => ([], st)
  | torque :: rest =>
      let (torque', st1) := torqueBody dt st torque in
      let (rest', st2) := torquesLoop dt rest st1 in
      (torque' :: rest', st2)
  end.

(** The loop over the torques and the update of the angular velocity. *)
Definition integrateTorques (o : t) (dt : float) : t :=
  let '(torques, (o1, angularAccMatrix)) :=
    torquesLoop dt (_torques o) (o, Mat_identity4) in
  let o2 := assign_torques o1 torques in
  assign_angularVelocityMatrix o2
    (Mat_mul4 (_angularVelocityMatrix o2) angularAccMatrix).

(** The two calls of [Mat.straightened] and [_correctMatrices]. *)
Definition correctInaccuracies (o : t) : t :=
  let o1 := assign_velocityMatrix o
              (Mat_straightened (_velocityMatrix o) 0.0001) in
  let o2 := assign_angularVelocityMatrix o1
              (Mat_straightened (_angularVelocityMatrix o1) 0.00002) in
  _correctMatrices o2.

(** [simulate(dt)]: [Some] of the object after the call, [None] when the
    5 ms loop needs more than [fuel] rounds. *)
Definition simulate (fuel : nat) (o : t) (dt : float) : option t :=
  if Js.gt dt 0 then
    let o1 := linearDrift o dt in
    let o2 := integrateForces o1 dt in
    match angularDrift fuel o2 dt with
    | None => None
    | Some o3 => Some (correctInaccuracies (integrateTorques o3 dt))
    end
  else Some o.

(** The rounds the 5 ms loop makes from counter [i] on, counted by the same
    loop without the object. *)
Fixpoint angularRounds (fuel : nat) (i dt : float) : option nat :=
  if i + 2 <? dt then
    match fuel with
    | O => None
    | S fuel' => option_map S (angularRounds fuel' (i + 5) dt)
    end
  else Some O.

End WithMatrices.
End PhysicalObject.

(** ** Callers *)

Module Caller.
Section WithMatrices.
Context {M : MatricesJs}.

(** The calls by which a caller moves an object and reads its cached
    inverses. *)
Inductive call : Type :=
| setPositionMatrix (value : mat4)
| setOrientationMatrix (value : mat4)
| getRotationMatrixInverse
| getModelMatrixInverse.

Definition perform (o : PhysicalObject.t) (c : call) : PhysicalObject.t :=
  match c with
  | setPositionMatrix value => PhysicalObject.setPositionMatrix o value
  | setOrientationMatrix value => PhysicalObject.setOrientationMatrix o value
  | getRotationMatrixInverse => snd (PhysicalObject.getRotationMatrixInverse o)
  | getModelMatrixInverse => snd (PhysicalObject.getModelMatrixInverse o)
  end.

Definition performAll (o : PhysicalObject.t) (calls : list call)
  : PhysicalObject.t :=
  fold_left perform calls o.

(** The argument of the last call of [setPositionMatrix] among [calls], and
    of the last call of [setOrientationMatrix]; [initial] when there is
    none. *)
Definition lastPosition (calls : list call) (initial : mat4) : mat4 :=
  fold_left
    (fun current c =>
       match c with
       | setPositionMatrix value => value
       | _ => current
       end)
    calls initial.

Definition lastOrientation (calls : list call) (initial : mat4) : mat4 :=
  fold_left
    (fun current c =>
       match c with
       | setOrientationMatrix value => value
       | _ => current
       end)
    calls initial.

(** [n] calls of [checkHit], one after the other, with one and the same
    array: the object and the array after the last call. *)
Fixpoint checkHitAgain (n : nat) (o : PhysicalObject.t)
  (positionVector : list float) : PhysicalObject.t * list float :=
  match n with
  | O => (o, positionVector)
  | S n' =>
      let run := PhysicalObject.checkHit o positionVector in
      checkHitAgain n' (PhysicalObject.this run)
        (PhysicalObject.positionVector run)
  end.

(** The matrices that the two cached inverses stand for. *)
Definition rotationInverse (o : PhysicalObject.t) : mat4 :=
  Mat_inverseOfRotation4 (PhysicalObject._orientationMatrix o).

Definition modelInverse (o : PhysicalObject.t) : mat4 :=
  Mat_mul4
    (Mat_mul4 (Mat_inverseOfTranslation4 (PhysicalObject._positionMatrix o))
       (Mat_inverseOfRotation4 (PhysicalObject._orientationMatrix o)))
    (Mat_inverseOfScaling4 (PhysicalObject._scalingMatrix o)).

(** A cache is fresh when it is empty or holds the matrix it stands for. *)
Definition freshCaches (o : PhysicalObject.t) : Prop :=
  (PhysicalObject._rotationMatrixInverse o = None \/
   PhysicalObject._rotationMatrixInverse o = Some (rotationInverse o)) /\
  (PhysicalObject._modelMatrixInverse o = None \/
   PhysicalObject._modelMatrixInverse o = Some (modelInverse o)).

(** The point that [checkHit] compares with the cached size and hands to
    the bodies. *)
Definition relativePosition (o : PhysicalObject.t)
  (positionVector : list float) : list float :=
  Vec_mulVec4Mat4 (positionVector ++ [1])
    (fst (PhysicalObject.getModelMatrixInverse o)).

(** Whether a body's [checkHit] answers true for a point. *)
Definition hits (relativePos : list float) (b : Body.t) : bool :=
  fst (Body.checkHit b relativePos).

End WithMatrices.

(** The front of a list up to and including the first element that
    satisfies [p]; the whole list when none does. *)
Fixpoint upToFirst {A : Type} (p : A -> bool) (l : list A) : list A :=
  match l with
  | [] => []
  | x :: rest => if p x then [x] else x :: upToFirst p rest
  end.

End Caller.

(** ** The array of forces as an array of references

    [this._forces] holds references to Force objects, and [Force] and
    [addForce] are public: a caller can push one Force object twice, and
    then [renew] and [getExertionDuration] through one entry change what the
    other entry reads.  Torques are made by [addOrRenewTorque] only, one
    object per entry. *)

Module Shared.
Section WithMatrices.
Context {M : MatricesJs}.

(** A reference to a Force object. *)
Definition ref : Type := nat.

(** The Force objects that exist: [force h r] is the object behind the
    reference [r], and [next h] the first reference that no object has
    yet. *)
Record heap : Type := {
  force : ref -> Force.t;
  next : ref
}.

(** A write to the object behind [r]. *)
Definition write (h : heap) (r : ref) (f : Force.t) : heap :=
  {| force := fun r' => if Nat.eqb r' r then f else force h r';
     next := next h |}.

(** [new Force(id, strength, direction, duration)]: the reference to the
    new object, and the heap with it. *)
Definition newForce (h : heap) (id : string) (strength : float)
  (direction : list float) (duration : float) : ref * heap :=
  (next h,
   {| force := fun r' =>
                 if Nat.eqb r' (next h)
                 then Force.new id strength direction duration
                 else force h r';
      next := S (next h) |}).

(** A PhysicalObject: [_forces] is the array of references, and [this] has
    the other fields; no definition of this module reads
    [PhysicalObject._forces (this s)]. *)
Record t : Type := {
  this : PhysicalObject.t;
  _forces : list ref
}.

(** The Force values that the entries of the array read. *)
Definition entries (h : heap) (s : t) : list Force.t :=
  map (force h) (_forces s).

(** The object with the values of [entries] for its array. *)
Definition view (h : heap) (s : t) : PhysicalObject.t :=
  PhysicalObject.assign_forces (this s) (entries h s).

(** Every reference in the array has an object. *)
Definition allocated (h : heap) (s : t) : Prop :=
  Forall (fun r => r < next h) (_forces s).

(** [this._forces.push(force)] *)
Definition addForce (s : t) (force : ref) : t :=
  {| this := this s; _forces := _forces s ++ [force] |}.

(** The scan of [addOrRenewForce]: [renew] is called on the object behind
    the first entry whose force has the ID, and the loop is left; [None]
    when [found] is still false at the end. *)
Fixpoint renewFirstForce (forceID : string) (strength : float)
  (direction : list float) (duration : float) (h : heap) (forces : list ref)
  : option heap :=
  match forces with
  | [] => None
  | r :: rest =>
      if String.eqb (Force.getID (force h r)) forceID
      then Some (write h r (Force.renew (force h r) strength direction duration))
      else renewFirstForce forceID strength direction duration h rest
  end.

Definition addOrRenewForce (h : heap) (s : t) (forceID : string)
  (strength : float) (direction : list float) (duration : float)
  : heap * t :=
  match renewFirstForce forceID strength direction duration h (_forces s) with
  | Some h' => (h', s)
  | None =>
      let (r, h') := newForce h forceID strength direction duration in
      (h', addForce s r)
  end.

(** The loop over the forces of [simulate]: the body is
    [PhysicalObject.forceBody], run on the object behind each entry in turn,
    and what [getExertionDuration] writes goes to that object. *)
Fixpoint forcesLoop (dt : float) (forces : list ref) (h : heap)
  (st : PhysicalObject.t * mat4) : heap * (PhysicalObject.t * mat4) :=
  match forces with
  | [] => (h, st)
  | r :: rest =>
      let (force', st1) := PhysicalObject.forceBody dt st (force h r) in
      forcesLoop dt rest (write h r force') st1
  end.

(** The loop over the forces and the update of the velocity matrix. *)
Definition integrateForces (h : heap) (s : t) (dt : float) : heap * t :=
  let '(h', (o1, accelerationMatrix)) :=
    forcesLoop dt (_forces s) h (this s, Mat_identity4) in
  (h',
   {| this :=
        PhysicalObject.assign_velocityMatrix o1
          (Mat_mul4 (PhysicalObject._velocityMatrix o1) accelerationMatrix);
      _forces := _forces s |}).

(** [simulate(dt)]: the blocks of [PhysicalObject.simulate], with the loop
    over the forces run on the references. *)
Definition simulate (fuel : nat) (h : heap) (s : t) (dt : float)
  : option (heap * t) :=
  if Js.gt dt 0 then
    let o1 := PhysicalObject.linearDrift (this s) dt in
    let (h', s2) := integrateForces h {| this := o1; _forces := _forces s |} dt in
    match PhysicalObject.angularDrift fuel (this s2) dt with
    | None => None
    | Some o3 =>
        Some (h',
              {| this :=
                   PhysicalObject.correctInaccuracies
                     (PhysicalObject.integrateTorques o3 dt);
                 _forces := _forces s2 |})
    end
  else Some (h, s).

(** The Force values that the loop over the forces finds, entry by entry:
    each as its object is when its turn comes, after the calls of
    [getExertionDuration(dt)] made through the entries before it. *)
Fixpoint asked (dt : float) (h : heap) (forces : list ref) : list Force.t :=
  match forces with
  | [] => []
  | r :: rest =>
      force h r
      :: asked dt (write h r (snd (Force.getExertionDuration (force h r) dt)))
           rest
  end.

(** What one call of [getExertionDuration(dt)] leaves of a remaining
    duration. *)
Definition aged (dt duration : float) : float :=
  if Js.gt duration 0.1 then duration - dt else duration.

(** How many entries of the array hold the reference [r]. *)
Definition timesHeld (s : t) (r : ref) : nat :=
  count_occ Nat.eq_dec (_forces s) r.

End WithMatrices.
End Shared.

(** ** An implementation of matrices.js *)

(** matrices.js, which defines [Vec] and [Mat], is not among the sources.
    The spec names its content as "3D vectors, 4x4 homogeneous
    transformation matrices (translation, rotation, scaling), and 3x3
    rotation sub-matrices, with standard operations (multiply, inverse,
    normalize) and a straighten operation that snaps near-zero or
    near-orthogonal components to clean values".  The Physics module
    multiplies a vector from the left ([Vec.mulVec4Mat4(v, m)]) and composes
    the inverse model matrix as inverse translation, inverse rotation,
    inverse scaling: vectors are rows, a matrix is stored row by row and a
    translation sits in entries 12 to 14.  All arithmetic below is in
    binary64; the rounding of stored entries to binary32 that a
    [Float32Array] adds is left out. *)

Module Matrices.

(** Modelled from the spec: the matrices of the absent matrices.js, 4x4
    or 3x3, as the array of their entries row by row. *)
Definition matrix : Type := list float.

(** Modelled from the spec: [Math.cos] and [Math.sin] are
    implementation-approximated in ECMAScript.  [Math_series] sums the first
    terms of the power series they share: from [first], each term is the
    one before times [- x2 / ((k + 1) * (k + 2))], [k] growing by 2. *)
Definition Math_series (rounds : nat) (x2 first k0 : float) : float :=
  (fix go (n : nat) (term k sum : float) : float :=
     match n with
     | O => sum
     | S n' =>
         let term' := term * (- x2) / ((k + 1) * (k + 2)) in
         go n' term' (k + 2) (sum + term')
     end) rounds first k0 first.

(** Modelled from the spec: [Math.cos], as its Taylor polynomial of
    degree 40. *)
Definition Math_cos (x : float) : float := Math_series 20 (x * x) 1 0.

(** Modelled from the spec: [Math.sin], as its Taylor polynomial of
    degree 41. *)
Definition Math_sin (x : float) : float := Math_series 20 (x * x) x 1.

(** Modelled from the spec: [Vec.length3] of the absent matrices.js, the
    Euclidean length. *)
Definition length3 (v : list float) : float :=
  Js.Math_sqrt (Js.item v 0 * Js.item v 0 + Js.item v 1 * Js.item v 1
                + Js.item v 2 * Js.item v 2).

(** Modelled from the spec: [Vec.normal3] of the absent matrices.js
    ("normalize"): the vector divided by its length; a zero vector gives
    NaN components, as the spec's error handling section says. *)
Definition normal3 (v : list float) : list float :=
  let divisor := length3 v in
  [Js.item v 0 / divisor; Js.item v 1 / divisor; Js.item v 2 / divisor].

(** Modelled from the spec: [Vec.scaled3] of the absent matrices.js. *)
Definition scaled3 (v : list float) (s : float) : list float :=
  [Js.item v 0 * s; Js.item v 1 * s; Js.item v 2 * s].

(** Modelled from the spec: [Vec.add3] of the absent matrices.js. *)
Definition add3 (v w : list float) : list float :=
  [Js.item v 0 + Js.item w 0; Js.item v 1 + Js.item w 1;
   Js.item v 2 + Js.item w 2].

(** Modelled from the spec: the cross product, which the absent
    matrices.js needs to make a matrix orthogonal again. *)
Definition cross3 (v w : list float) : list float :=
  [Js.item v 1 * Js.item w 2 - Js.item v 2 * Js.item w 1;
   Js.item v 2 * Js.item w 0 - Js.item v 0 * Js.item w 2;
   Js.item v 0 * Js.item w 1 - Js.item v 1 * Js.item w 0].

(** Modelled from the spec: [Vec.mulVec3Mat3] of the absent matrices.js,
    a row vector times a 3x3 matrix. *)
Definition mulVec3Mat3 (v : list float) (m : matrix) : list float :=
  map (fun j => Js.item v 0 * Js.item m j + Js.item v 1 * Js.item m (3 + j)
                + Js.item v 2 * Js.item m (6 + j)) (seq 0 3).

(** Modelled from the spec: [Vec.mulVec4Mat4] of the absent matrices.js,
    a row vector times a 4x4 matrix. *)
Definition mulVec4Mat4 (v : list float) (m : matrix) : list float :=
  map (fun j => Js.item v 0 * Js.item m j + Js.item v 1 * Js.item m (4 + j)
                + Js.item v 2 * Js.item m (8 + j)
                + Js.item v 3 * Js.item m (12 + j)) (seq 0 4).

(** Modelled from the spec: [Mat.identity4] of the absent matrices.js. *)
Definition identity4 : matrix :=
  [1; 0; 0; 0;
   0; 1; 0; 0;
   0; 0; 1; 0;
   0; 0; 0; 1].

(** Modelled from the spec: [Mat.mul4] of the absent matrices.js
    ("multiply"), the product of two 4x4 matrices. *)
Definition mul4 (a b : matrix) : matrix :=
  map (fun n =>
         let i := (4 * (n / 4))%nat in
         let j := (n mod 4)%nat in
         Js.item a i * Js.item b j + Js.item a (i + 1) * Js.item b (4 + j)
         + Js.item a (i + 2) * Js.item b (8 + j)
         + Js.item a (i + 3) * Js.item b (12 + j)) (seq 0 16).

(** Modelled from the spec: [Mat.translation4v] of the absent matrices.js,
    the translation by a vector. *)
Definition translation4v (v : list float) : matrix :=
  [1; 0; 0; 0;
   0; 1; 0; 0;
   0; 0; 1; 0;
   Js.item v 0; Js.item v 1; Js.item v 2; 1].

(** Modelled from the spec: [Mat.translationVector3] of the absent
    matrices.js, the vector a translation matrix moves by. *)
Definition translationVector3 (m : matrix) : list float :=
  [Js.item m 12; Js.item m 13; Js.item m 14].

(** Modelled from the spec: [Mat.rotation4] of the absent matrices.js, the
    rotation by [angle] around the unit vector [axis]. *)
Definition rotation4 (axis : list float) (angle : float) : matrix :=
  let c := Math_cos angle in
  let s := Math_sin angle in
  let x := Js.item axis 0 in
  let y := Js.item axis 1 in
  let z := Js.item axis 2 in
  [c + (1 - c) * x * x; (1 - c) * x * y - s * z; (1 - c) * x * z + s * y; 0;
   (1 - c) * x * y + s * z; c + (1 - c) * y * y; (1 - c) * y * z - s * x; 0;
   (1 - c) * x * z - s * y; (1 - c) * y * z + s * x; c + (1 - c) * z * z; 0;
   0; 0; 0; 1].

(** Modelled from the spec: [Mat.matrix3from4] of the absent matrices.js,
    the upper left 3x3 part ("3x3 rotation sub-matrices"). *)
Definition matrix3from4 (m : matrix) : matrix :=
  [Js.item m 0; Js.item m 1; Js.item m 2;
   Js.item m 4; Js.item m 5; Js.item m 6;
   Js.item m 8; Js.item m 9; Js.item m 10].

(** Modelled from the spec: [Mat.inverseOfTranslation4] of the absent
    matrices.js ("inverse"): the translation by the opposite vector. *)
Definition inverseOfTranslation4 (m : matrix) : matrix :=
  [1; 0; 0; 0;
   0; 1; 0; 0;
   0; 0; 1; 0;
   - Js.item m 12; - Js.item m 13; - Js.item m 14; 1].

(** Modelled from the spec: [Mat.inverseOfRotation4] of the absent
    matrices.js ("inverse"): the transpose of the rotation part. *)
Definition inverseOfRotation4 (m : matrix) : matrix :=
  [Js.item m 0; Js.item m 4; Js.item m 8; 0;
   Js.item m 1; Js.item m 5; Js.item m 9; 0;
   Js.item m 2; Js.item m 6; Js.item m 10; 0;
   0; 0; 0; 1].

(** Modelled from the spec: [Mat.inverseOfScaling4] of the absent
    matrices.js ("inverse"): the reciprocal scaling factors. *)
Definition inverseOfScaling4 (m : matrix) : matrix :=
  [1 / Js.item m 0; 0; 0; 0;
   0; 1 / Js.item m 5; 0; 0;
   0; 0; 1 / Js.item m 10; 0;
   0; 0; 0; 1].

(** Modelled from the spec: [Mat.straightened] of the absent matrices.js
    ("snaps near-zero or near-orthogonal components to clean values"):
    entries closer than [epsilon] to 0, 1 or -1 become 0, 1 or -1. *)
Definition straightened (m : matrix) (epsilon : float) : matrix :=
  map (fun x =>
         if Js.Math_abs x <? epsilon then 0
         else if Js.Math_abs (1 - x) <? epsilon then 1
         else if Js.Math_abs (-1 - x) <? epsilon then -1
         else x) m.

(** Modelled from the spec: [Mat.correctedOrthogonal4] of the absent
    matrices.js ("re-orthogonalize"): the first two rows normalized, the
    third replaced by their cross product and the second by the cross
    product of the third and the first. *)
Definition correctedOrthogonal4 (m : matrix) : matrix :=
  let vx := normal3 [Js.item m 0; Js.item m 1; Js.item m 2] in
  let vy := normal3 [Js.item m 4; Js.item m 5; Js.item m 6] in
  let vz := cross3 vx vy in
  let vy := cross3 vz vx in
  [Js.item vx 0; Js.item vx 1; Js.item vx 2; 0;
   Js.item vy 0; Js.item vy 1; Js.item vy 2; 0;
   Js.item vz 0; Js.item vz 1; Js.item vz 2; 0;
   0; 0; 0; 1].

(** Modelled from the spec: the functions above as an implementation of
    the absent matrices.js. *)
Definition implementation : MatricesJs :=
  {| mat4 := matrix;
     mat3 := matrix;
     Vec_normal3 := normal3;
     Vec_scaled3 := scaled3;
     Vec_add3 := add3;
     Vec_length3 := length3;
     Vec_mulVec3Mat3 := mulVec3Mat3;
     Vec_mulVec4Mat4 := mulVec4Mat4;
     Mat_identity4 := identity4;
     Mat_mul4 := mul4;
     Mat_translation4v := translation4v;
     Mat_translationVector3 := translationVector3;
     Mat_rotation4 := rotation4;
     Mat_matrix3from4 := matrix3from4;
     Mat_inverseOfTranslation4 := inverseOfTranslation4;
     Mat_inverseOfRotation4 := inverseOfRotation4;
     Mat_inverseOfScaling4 := inverseOfScaling4;
     Mat_straightened := straightened;
     Mat_correctedOrthogonal4 := correctedOrthogonal4 |}.

End Matrices.

(** ** Concrete objects *)

Module Scenario.

#[local] Existing Instance Matrices.implementation.

Local Open Scope string_scope.

(** A force whose remaining duration, 0.05 ms, is under the 0.1 ms limit. *)
Definition spentForce : Force.t :=
  {| Force._id := "thrust"; Force._strength := 1;
     Force._direction := [1; 0; 0]; Force._duration := 0.05 |}.

(** A force whose remaining duration is the limit itself. *)
Definition borderForce : Force.t :=
  {| Force._id := "thrust"; Force._strength := 1;
     Force._direction := [1; 0; 0]; Force._duration := 0.1 |}.

Definition spentTorque : Torque.t :=
  {| Torque._id := "spin"; Torque._strength := 1;
     Torque._axis := [0; 0; 1]; Torque._duration := 0.05 |}.

Definition borderTorque : Torque.t :=
  {| Torque._id := "spin"; Torque._strength := 1;
     Torque._axis := [0; 0; 1]; Torque._duration := 0.1 |}.

(** [new Torque("spin", 1, [0, 0, 2], 100)] and the same torque after
    [renew(1, [0, 0, 2], 100)]. *)
Definition spin : Torque.t := Torque.new "spin" 1 [0; 0; 2] 100.
Definition spinRenewed : Torque.t := Torque.renew spin 1 [0; 0; 2] 100.

(** [new Force("thrust", 1, [0, 0, 2], 100)] after [renew(1, [0, 0, 2], 100)]. *)
Definition thrustRenewed : Force.t :=
  Force.renew (Force.new "thrust" 1 [0; 0; 2] 100) 1 [0; 0; 2] 100.

(** A box of size 2 x 2 x 2 at the origin, not rotated. *)
Definition cube : Body.t :=
  Body.new Matrices.identity4 Matrices.identity4 [2; 2; 2].

(** An object of mass 1 at the origin, at rest, made of [cube]. *)
Definition cubeObject : PhysicalObject.t :=
  PhysicalObject.new 1 Matrices.identity4 Matrices.identity4
    Matrices.identity4 Matrices.identity4 (Some [cube]).

(** The half turn around the bisector of the X and Y axes' quarter angle: it
    swaps the X axis with the diagonal of the XY plane.  The matrix is
    symmetric, so it is the same rotation whether vectors are rows or columns,
    and it is its own inverse. *)
Definition halfTurn : Matrices.matrix :=
  let c := Js.Math_sqrt 0.5 in
  [c; c; 0; 0;
   c; - c; 0; 0;
   0; 0; -1; 0;
   0; 0; 0; 1].

(** A box of size 2 x 2 x 2 centred at (0, 1, 0) and turned by [halfTurn]. *)
Definition turnedBox : Body.t :=
  Body.new (Matrices.translation4v [0; 1; 0]) halfTurn [2; 2; 2].

(** The corner (+1, -1, +1) of [turnedBox] in the space of its parent:
    turned by the orientation matrix, then moved by the position matrix. *)
Definition turnedBoxCorner : list float :=
  Matrices.mulVec4Mat4 [1; -1; 1; 1]
    (Matrices.mul4 halfTurn (Matrices.translation4v [0; 1; 0])).

Definition turnedObject : PhysicalObject.t :=
  PhysicalObject.new 1 Matrices.identity4 Matrices.identity4
    Matrices.identity4 Matrices.identity4 (Some [turnedBox]).

(** An object of mass 2 moving at (3, 0, 0) m/s, with no body. *)
Definition drifter : PhysicalObject.t :=
  PhysicalObject.new 2 (Matrices.translation4v [10; 20; 30])
    Matrices.identity4 Matrices.identity4 (Matrices.translation4v [3; 0; 0])
    None.

(** [drifter] pushed along X with 4 N for 100 ms. *)
Definition pushed : PhysicalObject.t :=
  PhysicalObject.addOrRenewForce drifter "thrust" 4 [1; 0; 0] 100.

(** No Force object exists yet; what a reference without an object reads is
    never looked at. *)
Definition noForces : Shared.heap :=
  {| Shared.force := fun _ =>
       {| Force._id := ""; Force._strength := 0;
          Force._direction := []; Force._duration := 0 |};
     Shared.next := 0%nat |}.

(** [f = new Force("thrust", 1, [1, 0, 0], 20)]: the reference and the
    heap. *)
Definition thrust : Shared.ref :=
  fst (Shared.newForce noForces "thrust" 1 [1; 0; 0] 20).

Definition oneThrust : Shared.heap :=
  snd (Shared.newForce noForces "thrust" 1 [1; 0; 0] 20).

(** [drifter] after [addForce(f); addForce(f)]: both entries hold [f]. *)
Definition heldTwice : Shared.t :=
  Shared.addForce
    (Shared.addForce {| Shared.this := drifter; Shared._forces := [] |} thrust)
    thrust.

End Scenario.

(** ** What a step does with each force and torque *)

Module Effect.
Section WithMatrices.
Context {M : MatricesJs}.

(** The seconds for which [simulate(dt)] finds a force exerted, and the
    force as the call of [getExertionDuration] leaves it. *)
Definition forceSeconds (dt : float) (f : Force.t) : float :=
  fst (Force.getExertionDuration f dt) / 1000.

Definition agedForce (dt : float) (f : Force.t) : Force.t :=
  snd (Force.getExertionDuration f dt).

(** What one round of the loop over the forces does to the position matrix
    and to [accelerationMatrix]. *)
Definition displace (dt mass : float) (positionMatrix : mat4) (f : Force.t)
  : mat4 :=
  let t := forceSeconds dt f in
  if Js.gt t 0 then
    Mat_mul4 positionMatrix
      (Mat_translation4v
         (Vec_scaled3 (Force.getAccelerationVector f mass) (1 / 2 * t * t)))
  else positionMatrix.

Definition accelerate (dt mass : float) (accelerationMatrix : mat4)
  (f : Force.t) : mat4 :=
  let t := forceSeconds dt f in
  if Js.gt t 0 then
    Mat_mul4 accelerationMatrix
      (Mat_translation4v (Vec_scaled3 (Force.getAccelerationVector f mass) t))
  else accelerationMatrix.

Definition torqueSeconds (dt : float) (q : Torque.t) : float :=
  fst (Torque.getExertionDuration q dt) / 1000.

Definition agedTorque (dt : float) (q : Torque.t) : Torque.t :=
  snd (Torque.getExertionDuration q dt).

(** What one round of the loop over the torques does to the orientation
    matrix and to [angularAccMatrix]. *)
Definition turn (dt mass : float) (orientationMatrix : mat4) (q : Torque.t)
  : mat4 :=
  let t := torqueSeconds dt q in
  if Js.gt t 0 then
    Mat_mul4 orientationMatrix
      (Torque.getAngularAccelerationMatrixOverTime q mass (1 / 2 * t * t))
  else orientationMatrix.

Definition spinUp (dt mass : float) (angularAccMatrix : mat4) (q : Torque.t)
  : mat4 :=
  let t := torqueSeconds dt q in
  if Js.gt t 0 then
    Mat_mul4 angularAccMatrix
      (Torque.getAngularAccelerationMatrixOverTime q mass (t / 200))
  else angularAccMatrix.

(** Two objects that differ at most in the position matrix and the caches,
    and two that differ at most in the orientation matrix and the caches. *)
Definition sameButPosition (o o' : PhysicalObject.t) : Prop :=
  PhysicalObject._mass o' = PhysicalObject._mass o /\
  PhysicalObject._orientationMatrix o' = PhysicalObject._orientationMatrix o /\
  PhysicalObject._scalingMatrix o' = PhysicalObject._scalingMatrix o /\
  PhysicalObject._velocityMatrix o' = PhysicalObject._velocityMatrix o /\
  PhysicalObject._angularVelocityMatrix o'
  = PhysicalObject._angularVelocityMatrix o /\
  PhysicalObject._forces o' = PhysicalObject._forces o /\
  PhysicalObject._torques o' = PhysicalObject._torques o /\
  PhysicalObject._bodies o' = PhysicalObject._bodies o /\
  PhysicalObject._bodySize o' = PhysicalObject._bodySize o.

Definition sameButOrientation (o o' : PhysicalObject.t) : Prop :=
  PhysicalObject._mass o' = PhysicalObject._mass o /\
  PhysicalObject._positionMatrix o' = PhysicalObject._positionMatrix o /\
  PhysicalObject._scalingMatrix o' = PhysicalObject._scalingMatrix o /\
  PhysicalObject._velocityMatrix o' = PhysicalObject._velocityMatrix o /\
  PhysicalObject._angularVelocityMatrix o'
  = PhysicalObject._angularVelocityMatrix o /\
  PhysicalObject._forces o' = PhysicalObject._forces o /\
  PhysicalObject._torques o' = PhysicalObject._torques o /\
  PhysicalObject._bodies o' = PhysicalObject._bodies o /\
  PhysicalObject._bodySize o' = PhysicalObject._bodySize o.

(** The object that [simulate(dt)] leaves when [dt > 0] and the 5 ms loop
    makes [rounds] rounds, field by field. *)
Definition stepped (rounds : nat) (o : PhysicalObject.t) (dt : float)
  : PhysicalObject.t :=
  let mass := PhysicalObject._mass o in
  let forces := PhysicalObject._forces o in
  let torques := PhysicalObject._torques o in
  {| PhysicalObject._mass := mass;
     PhysicalObject._positionMatrix :=
       fold_left (displace dt mass) forces
         (Mat_mul4 (PhysicalObject._positionMatrix o)
            (Mat_translation4v
               (Vec_scaled3
                  (Mat_translationVector3 (PhysicalObject._velocityMatrix o))
                  (dt / 1000))));
     PhysicalObject._orientationMatrix :=
       Mat_correctedOrthogonal4
         (fold_left (turn dt mass) torques
            (Nat.iter rounds
               (fun m => Mat_mul4 m (PhysicalObject._angularVelocityMatrix o))
               (PhysicalObject._orientationMatrix o)));
     PhysicalObject._scalingMatrix := PhysicalObject._scalingMatrix o;
     PhysicalObject._rotationMatrixInverse := None;
     PhysicalObject._modelMatrixInverse := None;
     PhysicalObject._velocityMatrix :=
       Mat_straightened
         (Mat_mul4 (PhysicalObject._velocityMatrix o)
            (fold_left (accelerate dt mass) forces Mat_identity4))
         0.0001;
     PhysicalObject._angularVelocityMatrix :=
       Mat_correctedOrthogonal4
         (Mat_straightened
            (Mat_mul4 (PhysicalObject._angularVelocityMatrix o)
               (fold_left (spinUp dt mass) torques Mat_identity4))
            0.00002);
     PhysicalObject._forces := map (agedForce dt) forces;
     PhysicalObject._torques := map (agedTorque dt) torques;
     PhysicalObject._bodies := PhysicalObject._bodies o;
     PhysicalObject._bodySize := PhysicalObject._bodySize o |}.

End WithMatrices.
End Effect.

(** ** Every method, called in any order *)

Module Use.
Section WithMatrices.
Context {M : MatricesJs}.

(** A call of one of the methods of [PhysicalObject] that write to the
    object, with its arguments; [simulate] comes with the bound on its 5 ms
    loop. *)
Inductive call : Type :=
| setPositionMatrix (value : mat4)
| setOrientationMatrix (value : mat4)
| getRotationMatrixInverse
| getModelMatrixInverse
| addForce (force : Force.t)
| addTorque (torque : Torque.t)
| addOrRenewForce (forceID : string) (strength : float)
    (direction : list float) (duration : float)
| addOrRenewTorque (torqueID : string) (strength : float)
    (axis : list float) (duration : float)
| checkHit (positionVector : list float)
| simulate (fuel : nat) (dt : float).

(** The object after the call; [None] when [simulate] does not return
    within its bound. *)
Definition perform (o : PhysicalObject.t) (c : call)
  : option PhysicalObject.t :=
  match c with
  | setPositionMatrix value => Some (PhysicalObject.setPositionMatrix o value)
  | setOrientationMatrix value =>
      Some (PhysicalObject.setOrientationMatrix o value)
  | getRotationMatrixInverse =>
      Some (snd (PhysicalObject.getRotationMatrixInverse o))
  | getModelMatrixInverse => Some (snd (PhysicalObject.getModelMatrixInverse o))
  | addForce force => Some (PhysicalObject.addForce o force)
  | addTorque torque => Some (PhysicalObject.addTorque o torque)
  | addOrRenewForce forceID strength direction duration =>
      Some (PhysicalObject.addOrRenewForce o forceID strength direction duration)
  | addOrRenewTorque torqueID strength axis duration =>
      Some (PhysicalObject.addOrRenewTorque o torqueID strength axis duration)
  | checkHit positionVector =>
      Some (PhysicalObject.this (PhysicalObject.checkHit o positionVector))
  | simulate fuel dt => PhysicalObject.simulate fuel o dt
  end.

Fixpoint performAll (o : PhysicalObject.t) (calls : list call)
  : option PhysicalObject.t :=
  match calls with
  | [] => Some o
  | c :: rest =>
      match perform o c with
      | Some o1 => performAll o1 rest
      | None => None
      end
  end.

(** The matrix that the cache of a body stands for, and a body whose cache
    is empty or holds it. *)
Definition bodyInverse (b : Body.t) : mat4 :=
  Mat_mul4 (Mat_inverseOfTranslation4 (Body._positionMatrix b))
    (Mat_inverseOfRotation4 (Body._orientationMatrix b)).

Definition freshBody (b : Body.t) : Prop :=
  Body._modelMatrixInverse b = None \/
  Body._modelMatrixInverse b = Some (bodyInverse b).

(** A body without its cache: position, orientation and the three sizes. *)
Definition box (b : Body.t) : mat4 * mat4 * (float * float * float) :=
  (Body._positionMatrix b, Body._orientationMatrix b,
   (Body._width b, Body._height b, Body._depth b)).

(** Whether a point, given in the space of the parent, is inside a body:
    the test of [Body.checkHit] with the inverse computed afresh. *)
Definition within (relativePos : list float) (b : Body.t) : bool :=
  Body.insideBox b (Vec_mulVec4Mat4 relativePos (bodyInverse b)).

(** The answer of [PhysicalObject.checkHit] as a function of the position,
    orientation and scaling matrices, the cached size and the boxes. *)
Definition isHit (o : PhysicalObject.t) (positionVector : list float) : bool :=
  let relativePos :=
    Vec_mulVec4Mat4 (positionVector ++ [1]) (Caller.modelInverse o) in
  PhysicalObject.closeEnough o relativePos &&
  existsb (within relativePos) (PhysicalObject._bodies o).

(** An object whose caches and whose bodies' caches are all fresh. *)
Definition wellCached (o : PhysicalObject.t) : Prop :=
  Caller.freshCaches o /\ Forall freshBody (PhysicalObject._bodies o).

End WithMatrices.
End Use.

(** ** More concrete objects *)

Module Cases.

#[local] Existing Instance Matrices.implementation.

Local Open Scope string_scope.

(** A force with 50 ms left, and a torque with 50 ms left. *)
Definition fading : Force.t :=
  {| Force._id := "burst"; Force._strength := 4;
     Force._direction := [1; 0; 0]; Force._duration := 50 |}.

Definition fadingTorque : Torque.t :=
  {| Torque._id := "twist"; Torque._strength := 2;
     Torque._axis := [0; 0; 1]; Torque._duration := 50 |}.

(** [Scenario.drifter] with a force in effect, an expired force, a torque in
    effect and an expired torque. *)
Definition busy : PhysicalObject.t :=
  PhysicalObject.addTorque
    (PhysicalObject.addTorque
       (PhysicalObject.addForce
          (PhysicalObject.addForce Scenario.drifter fading)
          Scenario.spentForce)
       fadingTorque)
    Scenario.spentTorque.

(** [Scenario.drifter] with nothing but an expired force and an expired
    torque. *)
Definition coasting : PhysicalObject.t :=
  PhysicalObject.addTorque
    (PhysicalObject.addForce Scenario.drifter Scenario.spentForce)
    Scenario.spentTorque.

(** [Scenario.drifter] with two Force objects, one entry each: the thrust
    of [Scenario.oneThrust] and [new Force("burst", 4, [0, 1, 0], 50)]. *)
Definition twoForces : Shared.heap :=
  snd (Shared.newForce Scenario.oneThrust "burst" 4 [0; 1; 0] 50).

Definition pulled : Shared.t :=
  Shared.addForce
    (Shared.addForce
       {| Shared.this := Scenario.drifter; Shared._forces := [] |}
       Scenario.thrust)
    (fst (Shared.newForce Scenario.oneThrust "burst" 4 [0; 1; 0] 50)).

(** A session with [Scenario.cubeObject]: a hit check, a move, a step of
    16 ms under a new force, and a read of the inverse model matrix. *)
Definition session : list Use.call :=
  [Use.checkHit [0; 0; 0];
   Use.setPositionMatrix (Matrices.translation4v [5; 0; 0]);
   Use.addOrRenewForce "thrust" 4 [1; 0; 0] 100;
   Use.simulate 3 16;
   Use.getModelMatrixInverse;
   Use.checkHit [5; 0; 0]].

(** [Scenario.cubeObject] after [session]. *)
Definition afterSession : PhysicalObject.t :=
  match Use.performAll Scenario.cubeObject session with
  | Some o => o
  | None => Scenario.cubeObject
  end.

(** [Scenario.drifter] turned by a torque of 2 around Z for 100 ms. *)
Definition twisted : PhysicalObject.t :=
  PhysicalObject.addOrRenewTorque Scenario.drifter "twist" 2 [0; 0; 1] 100.

End Cases.


(** ** The graphics context (the first module of js/armada/graphics.js)

    [GraphicsContext] keeps the graphics settings and mirrors them in the
    browser's [localStorage].  A null field is [None].  The state a method
    works on is the object itself, the local storage and the calls the
    object makes to the modules it is given (application, async-resource and
    resource-manager), recorded in order. *)

From Stdlib Require DecimalString Uint63.

(** [parseInt(s, 10)] and the conversion of a number to a string that
    assigning it to a key of [localStorage] performs. *)
Class JsBuiltins := {
  parseInt10 : string -> float;
  Number_toString : float -> string
}.

(** The value of a field or an argument documented as a Number. *)
Inductive numeric : Type :=
| null
| undefined
| number (x : float).

Module Storage.

Local Open Scope string_scope.

(** The keys and values of [localStorage]; both are strings. *)
Definition t : Type := list (string * string).

(** [localStorage.key], [None] being [undefined]. *)
Fixpoint getItem (key : string) (s : t) : option string :=
  match s with
  | [] => None
  | (k, v) :: rest => if String.eqb k key then Some v else getItem key rest
  end.

(** [localStorage.key = value], for a value that is a string already. *)
Fixpoint setItem (key value : string) (s : t) : t :=
  match s with
  | [] => [(key, value)]
  | (k, v) :: rest =>
      if String.eqb k key then (k, value) :: rest
      else (k, v) :: setItem key value rest
  end.

(** The string a boolean is stored as. *)
Definition Boolean_toString (b : bool) : string :=
  if b then "true" else "false".

(** The string a numeric value is stored as. *)
Definition numeric_toString {B : JsBuiltins} (v : numeric) : string :=
  match v with
  | null => "null"
  | undefined => "undefined"
  | number x => Number_toString x
  end.

End Storage.

Module GraphicsContext.

Local Open Scope string_scope.

(** The only field of the LOD context that this module writes. *)
Record LODContext : Type := {
  maxEnabledLOD : numeric
}.

Record t : Type := {
  _antialiasing : option bool;
  _filtering : option string;
  _maxLoadedLOD : numeric;
  _lodContext : option LODContext;
  _shaderComplexity : option string;
  _shadowMapping : option bool;
  _shadowQuality : numeric;
  _shadowRanges : option (list float);
  _shadowDistance : numeric;
  _shadowDepthRatio : numeric
}.

(** The constructor: every setting is null. *)
Definition new : t :=
  {| _antialiasing := None; _filtering := None; _maxLoadedLOD := null;
     _lodContext := None; _shaderComplexity := None; _shadowMapping := None;
     _shadowQuality := null; _shadowRanges := None; _shadowDistance := null;
     _shadowDepthRatio := null |}.

(** The calls to other modules. *)
Inductive call : Type :=
| showError (message severity details : string)
| useFallbackShaders (value : bool)
| setToReady.

Record state : Type := {
  this : t;
  localStorage : Storage.t;
  calls : list call
}.

(** How a method ends: it returns, or an exception leaves it, in the state
    reached by then. *)
Inductive completion : Type :=
| Returns (s : state)
| Throws (s : state).

Definition assign (s : state) (g : t) : state :=
  {| this := g; localStorage := localStorage s; calls := calls s |}.

Definition store (key value : string) (s : state) : state :=
  {| this := this s;
     localStorage := Storage.setItem key value (localStorage s);
     calls := calls s |}.

Definition does (c : call) (s : state) : state :=
  {| this := this s; localStorage := localStorage s;
     calls := calls s ++ [c] |}.

Definition assign_antialiasing (s : state) (v : option bool) : state :=
  let g := this s in
  assign s
    {| _antialiasing := v; _filtering := _filtering g;
       _maxLoadedLOD := _maxLoadedLOD g; _lodContext := _lodContext g;
       _shaderComplexity := _shaderComplexity g;
       _shadowMapping := _shadowMapping g; _shadowQuality := _shadowQuality g;
       _shadowRanges := _shadowRanges g; _shadowDistance := _shadowDistance g;
       _shadowDepthRatio := _shadowDepthRatio g |}.

Definition assign_filtering (s : state) (v : option string) : state :=
  let g := this s in
  assign s
    {| _antialiasing := _antialiasing g; _filtering := v;
       _maxLoadedLOD := _maxLoadedLOD g; _lodContext := _lodContext g;
       _shaderComplexity := _shaderComplexity g;
       _shadowMapping := _shadowMapping g; _shadowQuality := _shadowQuality g;
       _shadowRanges := _shadowRanges g; _shadowDistance := _shadowDistance g;
       _shadowDepthRatio := _shadowDepthRatio g |}.

Definition assign_maxLoadedLOD (s : state) (v : numeric) : state :=
  let g := this s in
  assign s
    {| _antialiasing := _antialiasing g; _filtering := _filtering g;
       _maxLoadedLOD := v; _lodContext := _lodContext g;
       _shaderComplexity := _shaderComplexity g;
       _shadowMapping := _shadowMapping g; _shadowQuality := _shadowQuality g;
       _shadowRanges := _shadowRanges g; _shadowDistance := _shadowDistance g;
       _shadowDepthRatio := _shadowDepthRatio g |}.

Definition assign_lodContext (s : state) (v : option LODContext) : state :=
  let g := this s in
  assign s
    {| _antialiasing := _antialiasing g; _filtering := _filtering g;
       _maxLoadedLOD := _maxLoadedLOD g; _lodContext := v;
       _shaderComplexity := _shaderComplexity g;
       _shadowMapping := _shadowMapping g; _shadowQuality := _shadowQuality g;
       _shadowRanges := _shadowRanges g; _shadowDistance := _shadowDistance g;
       _shadowDepthRatio := _shadowDepthRatio g |}.

Definition assign_shaderComplexity (s : state) (v : option string) : state :=
  let g := this s in
  assign s
    {| _antialiasing := _antialiasing g; _filtering := _filtering g;
       _maxLoadedLOD := _maxLoadedLOD g; _lodContext := _lodContext g;
       _shaderComplexity := v;
       _shadowMapping := _shadowMapping g; _shadowQuality := _shadowQuality g;
       _shadowRanges := _shadowRanges g; _shadowDistance := _shadowDistance g;
       _shadowDepthRatio := _shadowDepthRatio g |}.

Definition assign_shadowMapping (s : state) (v : option bool) : state :=
  let g := this s in
  assign s
    {| _antialiasing := _antialiasing g; _filtering := _filtering g;
       _maxLoadedLOD := _maxLoadedLOD g; _lodContext := _lodContext g;
       _shaderComplexity := _shaderComplexity g;
       _shadowMapping := v; _shadowQuality := _shadowQuality g;
       _shadowRanges := _shadowRanges g; _shadowDistance := _shadowDistance g;
       _shadowDepthRatio := _shadowDepthRatio g |}.

Definition assign_shadowQuality (s : state) (v : numeric) : state :=
  let g := this s in
  assign s
    {| _antialiasing := _antialiasing g; _filtering := _filtering g;
       _maxLoadedLOD := _maxLoadedLOD g; _lodContext := _lodContext g;
       _shaderComplexity := _shaderComplexity g;
       _shadowMapping := _shadowMapping g; _shadowQuality := v;
       _shadowRanges := _shadowRanges g; _shadowDistance := _shadowDistance g;
       _shadowDepthRatio := _shadowDepthRatio g |}.

Definition assign_shadowDistance (s : state) (v : numeric) : state :=
  let g := this s in
  assign s
    {| _antialiasing := _antialiasing g; _filtering := _filtering g;
       _maxLoadedLOD := _maxLoadedLOD g; _lodContext := _lodContext g;
       _shaderComplexity := _shaderComplexity g;
       _shadowMapping := _shadowMapping g; _shadowQuality := _shadowQuality g;
       _shadowRanges := _shadowRanges g; _shadowDistance := v;
       _shadowDepthRatio := _shadowDepthRatio g |}.

(** The keys of the settings in the local storage. *)
Definition antialiasingKey : string := "interstellarArmada_graphics_antialiasing".
Definition filteringKey : string := "interstellarArmada_graphics_filtering".
Definition maxLODKey : string := "interstellarArmada_graphics_maxLOD".
Definition shaderComplexityKey : string :=
  "interstellarArmada_graphics_shaderComplexity".
Definition shadowMappingKey : string := "interstellarArmada_graphics_shadowMapping".
Definition shadowQualityKey : string := "interstellarArmada_graphics_shadowQuality".
Definition shadowDistanceKey : string :=
  "interstellarArmada_graphics_shadowDistance".

Definition getAntialiasing (s : state) : option bool := _antialiasing (this s).
Definition getFiltering (s : state) : option string := _filtering (this s).
Definition getMaxLoadedLOD (s : state) : numeric := _maxLoadedLOD (this s).
Definition getLODContext (s : state) : option LODContext := _lodContext (this s).
Definition getShaderComplexity (s : state) : option string :=
  _shaderComplexity (this s).
Definition getShadowMapping (s : state) : option bool := _shadowMapping (this s).
Definition getShadowQuality (s : state) : numeric := _shadowQuality (this s).
Definition getShadowDistance (s : state) : numeric :=
  _shadowDistance (this s).

(** [setAntialiasing(value)], for a boolean value. *)
Definition setAntialiasing (value : bool) (s : state) : state :=
  store antialiasingKey (Storage.Boolean_toString value)
    (assign_antialiasing s (Some value)).

(** The cases of the [switch] in [setFiltering]. *)
Definition supportedFiltering (value : string) : bool :=
  String.eqb value "bilinear" || String.eqb value "trilinear"
  || String.eqb value "anisotropic".

(** [setFiltering(value)], for a string. *)
Definition setFiltering (value : string) (s : state) : state :=
  if supportedFiltering value then
    store filteringKey value (assign_filtering s (Some value))
  else
    store filteringKey "bilinear"
      (assign_filtering
         (does
            (showError
               ("Attempting to set texture filtering to: '" ++ value
                ++ "', which is not a supported option.")
               "minor" "Filtering has been instead set to bilinear.") s)
         (Some "bilinear")).

(** The cases of the [switch] in [setShaderComplexity]. *)
Definition supportedShaderComplexity (value : string) : bool :=
  String.eqb value "normal" || String.eqb value "simple".

(** [setShaderComplexity(value)], for a string. *)
Definition setShaderComplexity (value : string) (s : state) : state :=
  if supportedShaderComplexity value then
    store shaderComplexityKey value
      (does (useFallbackShaders (String.eqb value "simple"))
         (assign_shaderComplexity s (Some value)))
  else
    store shaderComplexityKey "normal"
      (does (useFallbackShaders (String.eqb "normal" "simple"))
         (assign_shaderComplexity
            (does
               (showError
                  ("Attempting to set complexity to: '" ++ value
                   ++ "', which is not a supported option.")
                  "minor" "Shader complexity has been instead set to normal.")
               s)
            (Some "normal"))).

(** [setShadowMapping(value)], for a boolean value. *)
Definition setShadowMapping (value : bool) (s : state) : state :=
  store shadowMappingKey (Storage.Boolean_toString value)
    (assign_shadowMapping s (Some value)).

Section WithBuiltins.
Context {B : JsBuiltins}.

(** [setMaxLOD(value)]: the write to [this._lodContext.maxEnabledLOD] throws
    a TypeError when the LOD context is null, after [_maxLoadedLOD] has been
    assigned. *)
Definition setMaxLOD (value : numeric) (s : state) : completion :=
  let s := assign_maxLoadedLOD s value in
  match _lodContext (this s) with
  | None => Throws s
  | Some _ =>
      Returns
        (store maxLODKey (Storage.numeric_toString value)
           (assign_lodContext s (Some {| maxEnabledLOD := value |})))
  end.

Definition setShadowQuality (value : numeric) (s : state) : state :=
  store shadowQualityKey (Storage.numeric_toString value)
    (assign_shadowQuality s value).

Definition setShadowDistance (value : numeric) (s : state) : state :=
  store shadowDistanceKey (Storage.numeric_toString value)
    (assign_shadowDistance s value).

(** The part of [loadFromLocalStorage] after the call of [setMaxLOD]. *)
Definition loadRest (s : state) : state :=
  let s :=
    match Storage.getItem shaderComplexityKey (localStorage s) with
    | Some v => setShaderComplexity v s
    | None => s
    end in
  let s :=
    match Storage.getItem shadowMappingKey (localStorage s) with
    | Some v => assign_shadowMapping s (Some (String.eqb v "true"))
    | None => s
    end in
  let s :=
    match Storage.getItem shadowQualityKey (localStorage s) with
    | Some v => assign_shadowQuality s (number (parseInt10 v))
    | None => s
    end in
  let s :=
    match Storage.getItem shadowDistanceKey (localStorage s) with
    | Some v => assign_shadowDistance s (number (parseInt10 v))
    | None => s
    end in
  does setToReady s.

(** [loadFromLocalStorage()]. *)
Definition loadFromLocalStorage (s : state) : completion :=
  let s :=
    match Storage.getItem antialiasingKey (localStorage s) with
    | Some v => assign_antialiasing s (Some (String.eqb v "true"))
    | None => s
    end in
  let s :=
    match Storage.getItem filteringKey (localStorage s) with
    | Some v => assign_filtering s (Some v)
    | None => s
    end in
  match Storage.getItem maxLODKey (localStorage s) with
  | Some v =>
      match setMaxLOD (number (parseInt10 v)) s with
      | Returns s => Returns (loadRest s)
      | Throws s => Throws s
      end
  | None => Returns (loadRest s)
  end.

End WithBuiltins.

End GraphicsContext.

(** ** The graphics settings screen (the second [GraphicsScreen] of
    js/armada/graphics.js)

    The selectors are components of another module: what is modelled is
    what the handlers do with the values the selectors return, and the
    values they hand to the selectors. *)

Module GraphicsScreen.

Local Open Scope string_scope.

(** What the seven selectors return: [getSelectedValue()], and
    [getSelectedIndex()] for the level of detail. *)
Record selection : Type := {
  antialiasing : string;
  filtering : string;
  lod : float;
  shaderComplexity : string;
  shadowMapping : string;
  shadowQuality : string;
  shadowDistance : string
}.

(** [mapping[v]] in the argument of [setShadowQuality].  [None]: [v] is
    not a key of the object literal, and the answer is what
    [Object.prototype] has under that name, [undefined] for most names. *)
Definition shadowQualityOf (v : string) : option float :=
  if String.eqb v "low" then Some 1024
  else if String.eqb v "medium" then Some 2048
  else if String.eqb v "high" then Some 4096
  else None.

(** [mapping[v]] in the argument of [setShadowDistance]; [None] as above. *)
Definition shadowDistanceOf (v : string) : option float :=
  if String.eqb v "very close" then Some 2
  else if String.eqb v "close" then Some 3
  else if String.eqb v "medium" then Some 4
  else if String.eqb v "far" then Some 5
  else if String.eqb v "very far" then Some 6
  else None.

Section WithBuiltins.
Context {B : JsBuiltins}.

(** The [onclick] handler of the back button, up to the change of screen
    that ends it.  [None]: a name that is not a key of its mapping. *)
Definition backButton_onclick (sel : selection) (s : GraphicsContext.state)
  : option GraphicsContext.completion :=
  match shadowQualityOf (shadowQuality sel),
        shadowDistanceOf (shadowDistance sel) with
  | Some quality, Some distance =>
      let s :=
        GraphicsContext.setAntialiasing (String.eqb (antialiasing sel) "on") s in
      let s := GraphicsContext.setFiltering (filtering sel) s in
      match GraphicsContext.setMaxLOD (number (lod sel)) s with
      | GraphicsContext.Throws s => Some (GraphicsContext.Throws s)
      | GraphicsContext.Returns s =>
          let s :=
            GraphicsContext.setShaderComplexity (shaderComplexity sel) s in
          let s :=
            GraphicsContext.setShadowMapping
              (String.eqb (shadowMapping sel) "on") s in
          let s := GraphicsContext.setShadowQuality (number quality) s in
          let s := GraphicsContext.setShadowDistance (number distance) s in
          Some (GraphicsContext.Returns s)
      end
  | _, _ => None
  end.

End WithBuiltins.

(** What the function given to [executeWhenReady] in [updateValues] hands
    to the selectors. *)
Record shown : Type := {
  shownAntialiasing : string;
  shownFiltering : option string;
  shownLod : numeric;
  shownShaderComplexity : option string;
  shownShadowMapping : string;
  shownShadowQuality : string;
  shownShadowDistance : string
}.

(** [v === x] for a number [x]. *)
Definition strictlyEqual (v : numeric) (x : float) : bool :=
  match v with
  | number y => (y =? x)%float
  | _ => false
  end.

Definition shadowQualityName (v : numeric) : string :=
  if strictlyEqual v 1024 then "low"
  else if strictlyEqual v 2048 then "medium"
  else if strictlyEqual v 4096 then "high"
  else "medium".

Definition shadowDistanceName (v : numeric) : string :=
  if strictlyEqual v 2 then "very close"
  else if strictlyEqual v 3 then "close"
  else if strictlyEqual v 4 then "medium"
  else if strictlyEqual v 5 then "far"
  else if strictlyEqual v 6 then "very far"
  else "medium".

(** [x === true] for a field that is null or a boolean. *)
Definition isTrue (v : option bool) : bool :=
  match v with
  | Some true => true
  | _ => false
  end.

Definition updateValues (s : GraphicsContext.state) : shown :=
  {| shownAntialiasing :=
       if isTrue (GraphicsContext.getAntialiasing s) then "on" else "off";
     shownFiltering := GraphicsContext.getFiltering s;
     shownLod := GraphicsContext.getMaxLoadedLOD s;
     shownShaderComplexity := GraphicsContext.getShaderComplexity s;
     shownShadowMapping :=
       if isTrue (GraphicsContext.getShadowMapping s) then "on" else "off";
     shownShadowQuality := shadowQualityName (GraphicsContext.getShadowQuality s);
     shownShadowDistance :=
       shadowDistanceName (GraphicsContext.getShadowDistance s) |}.

End GraphicsScreen.

(** ** The ship selection of the database screen (js/armada/graphics.js)

    [_itemIndex] is null or a number.  The methods only subtract and add 1,
    take a remainder and assign an array length less 1, so a number that is
    whole stays whole or becomes NaN: the whole numbers are integers (exact
    in a Number below 2^53, far above any array length), and the two zeros
    are one, which no operation here tells apart. *)

Module DatabaseScreen.

Inductive index : Type :=
| Null
| Whole (z : Z)
| NaN.

(** [ToNumber]: null counts as 0. *)
Definition toNumber (i : index) : index :=
  match i with
  | Null => Whole 0
  | other => other
  end.

(** [i - 1], [i + 1], [i === -1] and [i % n] for an array length [n]; the
    remainder has the sign of [i], and is NaN for the length 0. *)
Definition minusOne (i : index) : index :=
  match toNumber i with
  | Whole z => Whole (z - 1)
  | other => other
  end.

Definition plusOne (i : index) : index :=
  match toNumber i with
  | Whole z => Whole (z + 1)
  | other => other
  end.

Definition isMinusOne (i : index) : bool :=
  match i with
  | Whole z => Z.eqb z (-1)
  | _ => false
  end.

Definition remainder (i : index) (n : nat) : index :=
  match i, n with
  | Whole z, S _ => Whole (Z.rem z (Z.of_nat n))
  | _, _ => NaN
  end.

Section WithClasses.
Context {spacecraftClass : Type}.

(** [selectPreviousShip()] and [selectNextShip()], for the array that
    [getSpacecraftClassesInArray()] returns; both go on to call
    [loadShip()]. *)
Definition selectPreviousShip (classes : list spacecraftClass) (i : index)
  : index :=
  let i := minusOne i in
  if isMinusOne i then Whole (Z.of_nat (List.length classes) - 1) else i.

Definition selectNextShip (classes : list spacecraftClass) (i : index)
  : index :=
  remainder (plusOne i) (List.length classes).

(** [getSpacecraftClassesInArray()[this._itemIndex]] in [loadShip()];
    [None] is [undefined], whose [fullName] the next statement reads. *)
Definition shipClass (classes : list spacecraftClass) (i : index)
  : option spacecraftClass :=
  match i with
  | Whole z => if (z <? 0)%Z then None else nth_error classes (Z.to_nat z)
  | _ => None
  end.

End WithClasses.

End DatabaseScreen.

(** ** Users of the graphics context *)

Module GraphicsUse.

(** The state of a completion, however the method ended. *)
Definition stateOf (c : GraphicsContext.completion) : GraphicsContext.state :=
  match c with
  | GraphicsContext.Returns s => s
  | GraphicsContext.Throws s => s
  end.

(** The page loaded again: the context [g] that [loadFromXMLTag] has made,
    over the local storage that [s] has left. *)
Definition reloaded (g : GraphicsContext.t) (s : GraphicsContext.state)
  : GraphicsContext.state :=
  {| GraphicsContext.this := g;
     GraphicsContext.localStorage := GraphicsContext.localStorage s;
     GraphicsContext.calls := [] |}.

(** The calls of the setters and of [loadFromLocalStorage]. *)
Inductive method : Type :=
| setAntialiasing (value : bool)
| setFiltering (value : string)
| setMaxLOD (value : numeric)
| setShaderComplexity (value : string)
| setShadowMapping (value : bool)
| setShadowQuality (value : numeric)
| setShadowDistance (value : numeric)
| loadFromLocalStorage.

Section WithBuiltins.
Context {B : JsBuiltins}.

Definition perform (m : method) (s : GraphicsContext.state)
  : GraphicsContext.completion :=
  match m with
  | setAntialiasing value =>
      GraphicsContext.Returns (GraphicsContext.setAntialiasing value s)
  | setFiltering value =>
      GraphicsContext.Returns (GraphicsContext.setFiltering value s)
  | setMaxLOD value => GraphicsContext.setMaxLOD value s
  | setShaderComplexity value =>
      GraphicsContext.Returns (GraphicsContext.setShaderComplexity value s)
  | setShadowMapping value =>
      GraphicsContext.Returns (GraphicsContext.setShadowMapping value s)
  | setShadowQuality value =>
      GraphicsContext.Returns (GraphicsContext.setShadowQuality value s)
  | setShadowDistance value =>
      GraphicsContext.Returns (GraphicsContext.setShadowDistance value s)
  | loadFromLocalStorage => GraphicsContext.loadFromLocalStorage s
  end.

(** A sequence of calls; an exception ends it. *)
Fixpoint performAll (ms : list method) (s : GraphicsContext.state)
  : GraphicsContext.completion :=
  match ms with
  | [] => GraphicsContext.Returns s
  | m :: rest =>
      match perform m s with
      | GraphicsContext.Returns s' => performAll rest s'
      | GraphicsContext.Throws s' => GraphicsContext.Throws s'
      end
  end.

End WithBuiltins.

(** The statements of [loadFromLocalStorage], one setting each. *)
Section Statements.
Context {B : JsBuiltins}.

Definition loadAntialiasing (s : GraphicsContext.state)
  : GraphicsContext.state :=
  match Storage.getItem GraphicsContext.antialiasingKey
          (GraphicsContext.localStorage s) with
  | Some v => GraphicsContext.assign_antialiasing s (Some (String.eqb v "true"))
  | None => s
  end.

Definition loadFiltering (s : GraphicsContext.state) : GraphicsContext.state :=
  match Storage.getItem GraphicsContext.filteringKey
          (GraphicsContext.localStorage s) with
  | Some v => GraphicsContext.assign_filtering s (Some v)
  | None => s
  end.

Definition loadMaxLOD (s : GraphicsContext.state) : GraphicsContext.completion :=
  match Storage.getItem GraphicsContext.maxLODKey
          (GraphicsContext.localStorage s) with
  | Some v => GraphicsContext.setMaxLOD (number (parseInt10 v)) s
  | None => GraphicsContext.Returns s
  end.

Definition loadShaderComplexity (s : GraphicsContext.state)
  : GraphicsContext.state :=
  match Storage.getItem GraphicsContext.shaderComplexityKey
          (GraphicsContext.localStorage s) with
  | Some v => GraphicsContext.setShaderComplexity v s
  | None => s
  end.

Definition loadShadowMapping (s : GraphicsContext.state)
  : GraphicsContext.state :=
  match Storage.getItem GraphicsContext.shadowMappingKey
          (GraphicsContext.localStorage s) with
  | Some v => GraphicsContext.assign_shadowMapping s (Some (String.eqb v "true"))
  | None => s
  end.

Definition loadShadowQuality (s : GraphicsContext.state)
  : GraphicsContext.state :=
  match Storage.getItem GraphicsContext.shadowQualityKey
          (GraphicsContext.localStorage s) with
  | Some v => GraphicsContext.assign_shadowQuality s (number (parseInt10 v))
  | None => s
  end.

Definition loadShadowDistance (s : GraphicsContext.state)
  : GraphicsContext.state :=
  match Storage.getItem GraphicsContext.shadowDistanceKey
          (GraphicsContext.localStorage s) with
  | Some v => GraphicsContext.assign_shadowDistance s (number (parseInt10 v))
  | None => s
  end.

(** What the third and the fourth statement leave in the local storage, what
    the fourth makes of the stored complexity, and the calls it adds. *)
Definition storedMaxLOD (st : Storage.t) : Storage.t :=
  match Storage.getItem GraphicsContext.maxLODKey st with
  | Some v =>
      Storage.setItem GraphicsContext.maxLODKey
        (Storage.numeric_toString (number (parseInt10 v))) st
  | None => st
  end.

Definition checkedComplexity (v : string) : string :=
  if GraphicsContext.supportedShaderComplexity v then v else "normal".

Definition storedComplexity (st : Storage.t) : Storage.t :=
  match Storage.getItem GraphicsContext.shaderComplexityKey st with
  | Some v =>
      Storage.setItem GraphicsContext.shaderComplexityKey
        (checkedComplexity v) st
  | None => st
  end.

Definition complexityCalls (st : Storage.t) (cs : list GraphicsContext.call)
  : list GraphicsContext.call :=
  match Storage.getItem GraphicsContext.shaderComplexityKey st with
  | Some v =>
      if GraphicsContext.supportedShaderComplexity v then
        cs ++ [GraphicsContext.useFallbackShaders (String.eqb v "simple")]
      else
        (cs
         ++ [GraphicsContext.showError
               ("Attempting to set complexity to: '" ++ v
                ++ "', which is not a supported option.")%string
               "minor" "Shader complexity has been instead set to normal."])
        ++ [GraphicsContext.useFallbackShaders false]
  | None => cs
  end.

End Statements.

(** The argument of the last call of [useFallbackShaders] among [calls]. *)
Definition lastFallback (calls : list GraphicsContext.call) : option bool :=
  fold_left
    (fun last c =>
       match c with
       | GraphicsContext.useFallbackShaders value => Some value
       | _ => last
       end)
    calls None.

(** The errors shown among [calls]. *)
Definition errors (calls : list GraphicsContext.call)
  : list GraphicsContext.call :=
  filter
    (fun c =>
       match c with
       | GraphicsContext.showError _ _ _ => true
       | _ => false
       end)
    calls.

(** The shader complexity is in order: null, or a supported value that the
    local storage holds as well and that the resource manager has been told
    last. *)
Definition complexityInOrder (s : GraphicsContext.state) : Prop :=
  match GraphicsContext.getShaderComplexity s with
  | None => True
  | Some c =>
      (c = "normal" \/ c = "simple")%string /\
      lastFallback (GraphicsContext.calls s) = Some (String.eqb c "simple") /\
      Storage.getItem GraphicsContext.shaderComplexityKey
        (GraphicsContext.localStorage s) = Some c
  end.

(** What a method that does not set the complexity leaves as it is. *)
Definition sameComplexity (s s' : GraphicsContext.state) : Prop :=
  GraphicsContext.getShaderComplexity s' = GraphicsContext.getShaderComplexity s /\
  lastFallback (GraphicsContext.calls s') = lastFallback (GraphicsContext.calls s) /\
  Storage.getItem GraphicsContext.shaderComplexityKey
    (GraphicsContext.localStorage s')
  = Storage.getItem GraphicsContext.shaderComplexityKey
      (GraphicsContext.localStorage s).

End GraphicsUse.

(** ** More objects to run the code on *)

Module Examples.

Local Open Scope string_scope.

(** [parseInt(s, 10)] and the conversion to a string on the whole numbers from
    0 to 2^53 written in decimal digits, which is all the settings below
    need; NaN and ["NaN"] stand for every other answer. *)
Definition digitsOf (s : string) : option Z :=
  match s with
  | EmptyString => None
  | _ => option_map Z.of_uint (DecimalString.NilEmpty.uint_of_string s)
  end.

Definition wholeOf (x : float) : option Z :=
  match Prim2SF x with
  | S754_zero _ => Some 0%Z
  | S754_finite false m e =>
      if (0 <=? e)%Z then Some (Z.pos m * 2 ^ e)%Z
      else if (Z.pos m mod 2 ^ (- e) =? 0)%Z then Some (Z.pos m / 2 ^ (- e))%Z
      else None
  | _ => None
  end.

#[local] Instance decimal : JsBuiltins := {
  parseInt10 s :=
    match digitsOf s with
    | Some z =>
        if (z <? 2 ^ 53)%Z then PrimFloat.of_uint63 (Uint63.of_Z z) else nan
    | None => nan
    end;
  Number_toString x :=
    match wholeOf x with
    | Some z =>
        if (z <? 2 ^ 53)%Z then
          DecimalString.NilZero.string_of_uint (N.to_uint (Z.to_N z))
        else "NaN"
    | None => "NaN"
    end
}.

(** The context after [loadFromXMLTag] has set defaults and an LOD context
    whose highest enabled level is 4. *)
Definition defaults : GraphicsContext.t :=
  {| GraphicsContext._antialiasing := Some false;
     GraphicsContext._filtering := Some "bilinear";
     GraphicsContext._maxLoadedLOD := number 4;
     GraphicsContext._lodContext :=
       Some {| GraphicsContext.maxEnabledLOD := number 4 |};
     GraphicsContext._shaderComplexity := Some "normal";
     GraphicsContext._shadowMapping := Some false;
     GraphicsContext._shadowQuality := number 2048;
     GraphicsContext._shadowRanges := Some [40; 125; 250; 500; 1000; 2000];
     GraphicsContext._shadowDistance := number 3;
     GraphicsContext._shadowDepthRatio := number 1.5 |}.

Definition start : GraphicsContext.state :=
  {| GraphicsContext.this := defaults;
     GraphicsContext.localStorage := [];
     GraphicsContext.calls := [] |}.

(** A choice on the settings screen. *)
Definition chosen : GraphicsScreen.selection :=
  {| GraphicsScreen.antialiasing := "on";
     GraphicsScreen.filtering := "anisotropic";
     GraphicsScreen.lod := 2;
     GraphicsScreen.shaderComplexity := "simple";
     GraphicsScreen.shadowMapping := "on";
     GraphicsScreen.shadowQuality := "high";
     GraphicsScreen.shadowDistance := "very far" |}.

(** The state after the back button has been pressed on [chosen]. *)
Definition saved : GraphicsContext.state :=
  match GraphicsScreen.backButton_onclick chosen start with
  | Some c => GraphicsUse.stateOf c
  | None => start
  end.

(** A storage that a user has edited by hand. *)
Definition edited : Storage.t :=
  [(GraphicsContext.filteringKey, "sharpest");
   (GraphicsContext.shaderComplexityKey, "extreme")].

(** A new context over the edited storage, and the context with the
    defaults over it. *)
Definition fresh : GraphicsContext.state :=
  {| GraphicsContext.this := GraphicsContext.new;
     GraphicsContext.localStorage := edited;
     GraphicsContext.calls := [] |}.

Definition tampered : GraphicsContext.state :=
  {| GraphicsContext.this := defaults;
     GraphicsContext.localStorage := edited;
     GraphicsContext.calls := [] |}.

(** The names of three spacecraft classes, for the classes themselves. *)
Definition ships : list string := ["fighter"; "bomber"; "corvette"].

End Examples.
(** * Properties *)

(** ** JavaScript numbers *)

Section Numbers.

Lemma SFcompare_flip (x y : spec_float) :
  SFcompare y x = option_map CompOpp (SFcompare x y).
Proof.
  destruct x as [sx | sx | | sx mx ex], y as [sy | sy | | sy my ey];
    simpl; try reflexivity;
    try (destruct sx; reflexivity); try (destruct sy; reflexivity);
    try (destruct sx, sy; reflexivity).
  change (Pos.compare_cont Eq my mx) with (Pos.compare my mx).
  change (Pos.compare_cont Eq mx my) with (Pos.compare mx my).
  rewrite (Z.compare_antisym ex ey), (Pos.compare_antisym mx my).
  destruct sx, sy; simpl; try reflexivity;
    destruct (ex ?= ey)%Z; simpl; try reflexivity;
    destruct (mx ?= my)%positive; reflexivity.
Qed.

(** [a <= b] excludes [b < a]. *)
Lemma leb_not_gt (a b : float) : (a <=? b) = true -> (b <? a) = false.
Proof.
  rewrite leb_spec, ltb_spec. unfold SFleb, SFltb.
  rewrite (SFcompare_flip (Prim2SF a) (Prim2SF b)).
  destruct (SFcompare (Prim2SF a) (Prim2SF b)) as [[ | | ] | ];
    simpl; congruence.
Qed.

Lemma SFcompare_refl (x : spec_float) :
  x <> S754_nan -> SFcompare x x = Some Eq.
Proof.
  destruct x as [s | s | | s m e]; simpl; try congruence; intros _.
  - destruct s; reflexivity.
  - change (Pos.compare_cont Eq m m) with (Pos.compare m m).
    rewrite Z.compare_refl, Pos.compare_refl. destruct s; reflexivity.
Qed.

(** A number that compares with another is not NaN. *)
Lemma leb_not_nan (a b : float) :
  (a <=? b) = true -> Js.is_nan a = false /\ Js.is_nan b = false.
Proof.
  unfold Js.is_nan. rewrite leb_spec, !FloatAxioms.eqb_spec. unfold SFleb, SFeqb.
  intros H.
  assert (Prim2SF a <> S754_nan /\ Prim2SF b <> S754_nan) as [Ha Hb].
  { destruct (Prim2SF a), (Prim2SF b); simpl in H;
      split; congruence. }
  rewrite (SFcompare_refl _ Ha), (SFcompare_refl _ Hb). split; reflexivity.
Qed.

(** A number that is at least some number above zero is not the negative
    zero. *)
Lemma above_positive_not_negzero (a d : float) :
  (0 <? a) = true -> (a <=? d) = true -> Js.is_negzero d = false.
Proof.
  unfold Js.is_negzero.
  rewrite ltb_spec, leb_spec, classify_spec.
  change (Prim2SF 0) with (S754_zero false).
  unfold SFltb, SFleb, SF64classify, SFclassify.
  destruct (Prim2SF d) as [s | s | | s m e];
    try (destruct s); try reflexivity;
    try (destruct (Z.pos (digits2_pos m) =? prec)%Z; reflexivity).
  destruct (Prim2SF a) as [s' | s' | | s' m' e']; simpl;
    try discriminate; destruct s'; simpl; discriminate.
Qed.

(** [Math.min] of a remaining duration and of a positive step that it
    covers is the step. *)
Lemma Math_min_of_covered_step (d dt : float) :
  (0 <? dt) = true -> (dt <=? d) = true -> Js.Math_min d dt = dt.
Proof.
  intros Hpos Hle. unfold Js.Math_min.
  destruct (leb_not_nan dt d Hle) as [Ndt Nd]. rewrite Nd, Ndt. simpl.
  destruct (dt <? d); [reflexivity | ].
  rewrite (leb_not_gt dt d Hle), (above_positive_not_negzero dt d Hpos Hle).
  reflexivity.
Qed.

(** [dt <= 0] excludes [dt > 0]. *)
Lemma nonpositive_not_gt (dt : float) : (dt <=? 0) = true -> Js.gt dt 0 = false.
Proof. unfold Js.gt. apply leb_not_gt. Qed.

End Numbers.

(** ** Force and Torque *)

Section ForceAndTorque.
Context {M : MatricesJs}.

Lemma Force_getExertionDuration_active (f : Force.t) (dt : float) :
  Js.gt (Force._duration f) 0.1 = true ->
  Force.getExertionDuration f dt =
    (Js.Math_min (Force._duration f) dt,
     {| Force._id := Force._id f; Force._strength := Force._strength f;
        Force._direction := Force._direction f;
        Force._duration := Force._duration f - dt |}).
Proof. intros H. unfold Force.getExertionDuration. rewrite H. reflexivity. Qed.

Lemma Force_getExertionDuration_expired (f : Force.t) (dt : float) :
  Js.gt (Force._duration f) 0.1 = false ->
  Force.getExertionDuration f dt = (0, f).
Proof. intros H. unfold Force.getExertionDuration. rewrite H. reflexivity. Qed.

Lemma Torque_getExertionDuration_active (q : Torque.t) (dt : float) :
  Js.gt (Torque._duration q) 0.1 = true ->
  Torque.getExertionDuration q dt =
    (Js.Math_min (Torque._duration q) dt,
     {| Torque._id := Torque._id q; Torque._strength := Torque._strength q;
        Torque._axis := Torque._axis q;
        Torque._duration := Torque._duration q - dt |}).
Proof. intros H. unfold Torque.getExertionDuration. rewrite H. reflexivity. Qed.

Lemma Torque_getExertionDuration_expired (q : Torque.t) (dt : float) :
  Js.gt (Torque._duration q) 0.1 = false ->
  Torque.getExertionDuration q dt = (0, q).
Proof. intros H. unfold Torque.getExertionDuration. rewrite H. reflexivity. Qed.

(** C1, as amended.  For every force, every torque and every [dt]:
    when the remaining duration is not above 0.1 ms, [getExertionDuration]
    returns 0 and leaves the force (torque) as it was, the remaining
    duration included; when it is above 0.1 ms, the call returns
    [Math.min(duration, dt)], lowers the remaining duration by [dt] and
    leaves the other fields alone. *)
Theorem getExertionDuration_by_remaining_duration
  (f : Force.t) (q : Torque.t) (dt : float) :
  (Js.gt (Force._duration f) 0.1 = false ->
     fst (Force.getExertionDuration f dt) = 0 /\
     snd (Force.getExertionDuration f dt) = f)
  /\
  (Js.gt (Force._duration f) 0.1 = true ->
     fst (Force.getExertionDuration f dt) = Js.Math_min (Force._duration f) dt /\
     Force._duration (snd (Force.getExertionDuration f dt)) = Force._duration f - dt /\
     Force._id (snd (Force.getExertionDuration f dt)) = Force._id f /\
     Force._strength (snd (Force.getExertionDuration f dt)) = Force._strength f /\
     Force._direction (snd (Force.getExertionDuration f dt)) = Force._direction f)
  /\
  (Js.gt (Torque._duration q) 0.1 = false ->
     fst (Torque.getExertionDuration q dt) = 0 /\
     snd (Torque.getExertionDuration q dt) = q)
  /\
  (Js.gt (Torque._duration q) 0.1 = true ->
     fst (Torque.getExertionDuration q dt) = Js.Math_min (Torque._duration q) dt /\
     Torque._duration (snd (Torque.getExertionDuration q dt)) = Torque._duration q - dt /\
     Torque._id (snd (Torque.getExertionDuration q dt)) = Torque._id q /\
     Torque._strength (snd (Torque.getExertionDuration q dt)) = Torque._strength q /\
     Torque._axis (snd (Torque.getExertionDuration q dt)) = Torque._axis q).
Proof.
  split; [ | split; [ | split]]; intros H.
  - rewrite Force_getExertionDuration_expired by exact H. split; reflexivity.
  - rewrite Force_getExertionDuration_active by exact H. repeat split.
  - rewrite Torque_getExertionDuration_expired by exact H. split; reflexivity.
  - rewrite Torque_getExertionDuration_active by exact H. repeat split.
Qed.

(** A step that a force in effect covers is exerted in full. *)
Lemma Force_exertion_of_covered_step (f : Force.t) (dt : float) :
  Js.gt (Force._duration f) 0.1 = true ->
  (0 <? dt) = true -> (dt <=? Force._duration f) = true ->
  fst (Force.getExertionDuration f dt) = dt.
Proof.
  intros Hact Hpos Hle. rewrite Force_getExertionDuration_active by exact Hact.
  simpl. now apply Math_min_of_covered_step.
Qed.

(** The constructors and [Force.renew] store the normalized vector;
    [Torque.renew] stores the vector it is given. *)
Lemma Force_new_direction id strength direction duration :
  Force._direction (Force.new id strength direction duration)
  = Vec_normal3 direction.
Proof. reflexivity. Qed.

Lemma Force_renew_direction f strength direction duration :
  Force._direction (Force.renew f strength direction duration)
  = Vec_normal3 direction.
Proof. reflexivity. Qed.

Lemma Torque_new_axis id strength axis duration :
  Torque._axis (Torque.new id strength axis duration) = Vec_normal3 axis.
Proof. reflexivity. Qed.

Lemma Torque_renew_axis q strength axis duration :
  Torque._axis (Torque.renew q strength axis duration) = axis.
Proof. reflexivity. Qed.

(** Renewing a force gives the force that the constructor would build. *)
Lemma Force_renew_is_new f strength direction duration :
  Force.renew f strength direction duration
  = Force.new (Force._id f) strength direction duration.
Proof. reflexivity. Qed.

End ForceAndTorque.

(** Two numbers that [==] tells apart are different. *)
Lemma float_neq (x y : float) : (x =? y) = false -> Js.is_nan x = false -> x <> y.
Proof.
  intros Hne Hnan Heq. subst y. unfold Js.is_nan in Hnan.
  rewrite Hne in Hnan. discriminate.
Qed.

(** C1, as stated, fails.  With 0.05 ms left, a call with [dt] = 10 returns
    0 but does not lower the remaining duration by 10; with exactly 0.1 ms
    left, which is not below 0.1, the call returns 0 and not
    [Math.min(0.1, 10)]. *)
Lemma getExertionDuration_not_as_stated :
  ~ (fst (Force.getExertionDuration Scenario.spentForce 10) = 0 /\
     Force._duration (snd (Force.getExertionDuration Scenario.spentForce 10))
     = Force._duration Scenario.spentForce - 10)
  /\
  ~ (fst (Force.getExertionDuration Scenario.borderForce 10)
     = (if Force._duration Scenario.borderForce <? 0.1 then 0
        else Js.Math_min (Force._duration Scenario.borderForce) 10))
  /\
  ~ (fst (Torque.getExertionDuration Scenario.spentTorque 10) = 0 /\
     Torque._duration (snd (Torque.getExertionDuration Scenario.spentTorque 10))
     = Torque._duration Scenario.spentTorque - 10).
Proof.
  split; [ | split].
  - intros [_ H]. revert H. apply float_neq; reflexivity.
  - apply float_neq; reflexivity.
  - intros [_ H]. revert H. apply float_neq; reflexivity.
Qed.

(** The spec's force-expiry example: a force with 50 ms left exerts 50 ms of
    a 100 ms step, is left with -50 ms, and exerts nothing afterwards. *)
Example force_expiry :
  let f := {| Force._id := "thrust"%string; Force._strength := 1;
              Force._direction := [1; 0; 0]; Force._duration := 50 |} in
  fst (Force.getExertionDuration f 100) = 50 /\
  Force._duration (snd (Force.getExertionDuration f 100)) = -50 /\
  fst (Force.getExertionDuration (snd (Force.getExertionDuration f 100)) 100) = 0.
Proof. repeat split. Qed.

(** C2 on the code.  [new Torque("spin", 1, [0, 0, 2], 100)] stores the unit
    axis (0, 0, 1); after [renew(1, [0, 0, 2], 100)] the stored axis is
    (0, 0, 2), of length 2, whereas the same calls on a Force leave the unit
    vector. *)
Theorem Torque_renew_axis_not_unit :
  Torque._axis Scenario.spin = [0; 0; 1] /\
  Torque._axis Scenario.spinRenewed = [0; 0; 2] /\
  Matrices.length3 (Torque._axis Scenario.spinRenewed) = 2 /\
  Force._direction Scenario.thrustRenewed = [0; 0; 1].
Proof. repeat split. Qed.

(** ** The forces and torques of an object *)

Section ForceObjects.
Context {M : MatricesJs}.

Lemma write_same (h : Shared.heap) (r : Shared.ref) (f : Force.t) :
  Shared.force (Shared.write h r f) r = f.
Proof. cbn. rewrite Nat.eqb_refl. reflexivity. Qed.

Lemma write_other (h : Shared.heap) (r r' : Shared.ref) (f : Force.t) :
  r' <> r -> Shared.force (Shared.write h r f) r' = Shared.force h r'.
Proof.
  intros H. cbn. apply Nat.eqb_neq in H. rewrite H. reflexivity.
Qed.

Lemma newForce_other (h : Shared.heap) (id : string) (strength : float)
  (direction : list float) (duration : float) (r' : Shared.ref) :
  r' <> Shared.next h ->
  Shared.force (snd (Shared.newForce h id strength direction duration)) r'
  = Shared.force h r'.
Proof.
  intros H. cbn. apply Nat.eqb_neq in H. rewrite H. reflexivity.
Qed.

Lemma allocated_not_next (h : Shared.heap) (s : Shared.t) (r : Shared.ref) :
  Shared.allocated h s -> In r (Shared._forces s) -> r <> Shared.next h.
Proof.
  intros Hallocated Hin ->.
  exact (Nat.lt_irrefl _ (proj1 (Forall_forall _ _) Hallocated _ Hin)).
Qed.

Variables (forceID : string) (strength : float) (direction : list float)
  (duration : float).

Lemma renewFirstForce_found (h : Shared.heap) (before : list Shared.ref)
  (r : Shared.ref) (after : list Shared.ref) :
  Forall (fun r' => Force.getID (Shared.force h r') <> forceID) before ->
  Force.getID (Shared.force h r) = forceID ->
  Shared.renewFirstForce forceID strength direction duration h
    (before ++ r :: after)
  = Some (Shared.write h r
            (Force.renew (Shared.force h r) strength direction duration)).
Proof.
  intros Hbefore Hr. induction Hbefore as [ | r' before Hr' _ IH]; simpl.
  - apply String.eqb_eq in Hr. rewrite Hr. reflexivity.
  - apply String.eqb_neq in Hr'. rewrite Hr', IH. reflexivity.
Qed.

Lemma renewFirstForce_missing (h : Shared.heap) (forces : list Shared.ref) :
  Forall (fun r' => Force.getID (Shared.force h r') <> forceID) forces ->
  Shared.renewFirstForce forceID strength direction duration h forces = None.
Proof.
  induction 1 as [ | r' forces Hr' _ IH]; simpl; [reflexivity | ].
  apply String.eqb_neq in Hr'. rewrite Hr', IH. reflexivity.
Qed.

(** The entries that hold a force with the ID, when none but the last
    does. *)
Lemma entries_with_ID (h : Shared.heap) (forces : list Shared.ref)
  (r : Shared.ref) :
  Forall (fun r' => Force.getID (Shared.force h r') <> forceID) forces ->
  Force.getID (Shared.force h r) = forceID ->
  filter (fun r' => String.eqb (Force.getID (Shared.force h r')) forceID)
    (forces ++ [r])
  = [r].
Proof.
  intros Hforces Hr. rewrite filter_app. simpl.
  apply String.eqb_eq in Hr. rewrite Hr.
  replace (filter _ forces) with (@nil Shared.ref); [reflexivity | ].
  symmetry. induction Hforces as [ | r' forces Hr' _ IH]; simpl;
    [reflexivity | ].
  apply String.eqb_neq in Hr'. rewrite Hr'. exact IH.
Qed.

End ForceObjects.

Section AddOrRenew.
Context {M : MatricesJs}.

(** C7, with the array as an array of references.
    [addOrRenewForce(id, strength, direction, duration)] on an object whose
    array splits, at the first entry whose force has the ID, into [before],
    the reference [r] and [after]: the object is left as it is, array of
    references and length included, no Force object is made, the Force
    object behind [r] is renewed, and every other Force object is untouched,
    whatever its ID; so an entry reads the renewed force exactly when it
    holds [r], and reads what it read before otherwise.  On an object with
    no force of the ID one new Force object is made and its reference
    appended, and every Force object there was is untouched; and when every
    reference of the array has an object, a second call with the same ID
    leaves the old references followed by that one reference, whose object
    is a Force of the second call's strength, direction and duration, every
    other Force object untouched, and that entry is the only one whose
    force has the ID. *)
Theorem addOrRenewForce_first_match (h : Shared.heap) (s : Shared.t)
  (forceID : string) (strength : float) (direction : list float)
  (duration : float) :
  (forall before r after,
      Shared._forces s = before ++ r :: after ->
      Forall (fun r' => Force.getID (Shared.force h r') <> forceID) before ->
      Force.getID (Shared.force h r) = forceID ->
      let h' := fst (Shared.addOrRenewForce h s forceID strength direction
                       duration) in
      let s' := snd (Shared.addOrRenewForce h s forceID strength direction
                       duration) in
      s' = s /\
      Shared.next h' = Shared.next h /\
      Shared.force h' r
      = Force.renew (Shared.force h r) strength direction duration /\
      (forall r', r' <> r -> Shared.force h' r' = Shared.force h r') /\
      Shared.entries h' s'
      = map (fun r' =>
               if Nat.eqb r' r
               then Force.renew (Shared.force h r) strength direction duration
               else Shared.force h r')
          (Shared._forces s))
  /\
  (Forall (fun r' => Force.getID (Shared.force h r') <> forceID)
     (Shared._forces s) ->
   let h' := fst (Shared.addOrRenewForce h s forceID strength direction
                    duration) in
   let s' := snd (Shared.addOrRenewForce h s forceID strength direction
                    duration) in
   Shared.this s' = Shared.this s /\
   Shared._forces s' = Shared._forces s ++ [Shared.next h] /\
   Shared.next h' = S (Shared.next h) /\
   Shared.force h' (Shared.next h)
   = Force.new forceID strength direction duration /\
   (forall r', r' <> Shared.next h -> Shared.force h' r' = Shared.force h r') /\
   (Shared.allocated h s ->
    forall strength' direction' duration',
      let h'' := fst (Shared.addOrRenewForce h' s' forceID strength'
                        direction' duration') in
      let s'' := snd (Shared.addOrRenewForce h' s' forceID strength'
                        direction' duration') in
      Shared.this s'' = Shared.this s /\
      Shared._forces s'' = Shared._forces s ++ [Shared.next h] /\
      Shared.next h'' = S (Shared.next h) /\
      Shared.force h'' (Shared.next h)
      = Force.new forceID strength' direction' duration' /\
      (forall r', r' <> Shared.next h ->
                  Shared.force h'' r' = Shared.force h r') /\
      Shared.entries h'' s''
      = Shared.entries h s
        ++ [Force.new forceID strength' direction' duration'] /\
      filter (fun r' => String.eqb (Force.getID (Shared.force h'' r')) forceID)
        (Shared._forces s'')
      = [Shared.next h])).
Proof.
  split.
  - intros before r after Hsplit Hbefore Hr.
    unfold Shared.addOrRenewForce.
    rewrite Hsplit, (renewFirstForce_found _ _ _ _ h _ _ _ Hbefore Hr).
    rewrite <- Hsplit. cbn [fst snd].
    split; [reflexivity | ]. split; [reflexivity | ].
    split; [apply write_same | ].
    split; [intros r' Hr'; apply write_other; exact Hr' | ].
    unfold Shared.entries. apply map_ext. intros r'.
    destruct (Nat.eqb_spec r' r) as [-> | Hne];
      [apply write_same | apply write_other; exact Hne].
  - intros Hnone.
    unfold Shared.addOrRenewForce at 1 2.
    rewrite (renewFirstForce_missing _ _ _ _ h _ Hnone).
    cbn [Shared.newForce fst snd Shared.addForce Shared.this Shared._forces
         Shared.next Shared.force].
    split; [reflexivity | ]. split; [reflexivity | ]. split; [reflexivity | ].
    split; [rewrite Nat.eqb_refl; reflexivity | ].
    split.
    { intros r' Hr'. apply Nat.eqb_neq in Hr'. rewrite Hr'. reflexivity. }
    intros Hallocated strength' direction' duration'.
    set (h1 := snd (Shared.newForce h forceID strength direction duration)).
    set (s1 := Shared.addForce s (Shared.next h)).
    change {| Shared.force := _; Shared.next := S (Shared.next h) |} with h1.
    change {| Shared.this := Shared.this s; Shared._forces := _ |} with s1.
    assert (Hold : forall r', r' <> Shared.next h ->
                              Shared.force h1 r' = Shared.force h r')
      by (intros r' Hr'; apply newForce_other; exact Hr').
    assert (Hnew : Shared.force h1 (Shared.next h)
                   = Force.new forceID strength direction duration)
      by (cbn; rewrite Nat.eqb_refl; reflexivity).
    assert (Hbefore : Forall (fun r' => Force.getID (Shared.force h1 r')
                                        <> forceID) (Shared._forces s)).
    { apply Forall_forall. intros r' Hin.
      rewrite Hold.
      - exact (proj1 (Forall_forall _ _) Hnone r' Hin).
      - exact (allocated_not_next h s r' Hallocated Hin). }
    assert (Hid : Force.getID (Shared.force h1 (Shared.next h)) = forceID)
      by (rewrite Hnew; reflexivity).
    unfold Shared.addOrRenewForce.
    change (Shared._forces s1) with (Shared._forces s ++ [Shared.next h]).
    rewrite (renewFirstForce_found _ _ _ _ h1 _ _ [] Hbefore Hid).
    cbn [fst snd]. rewrite Hnew, Force_renew_is_new.
    change (Force._id (Force.new forceID strength direction duration))
      with forceID.
    set (h2 := Shared.write h1 (Shared.next h) _).
    assert (Hold2 : forall r', r' <> Shared.next h ->
                               Shared.force h2 r' = Shared.force h r').
    { intros r' Hr'. subst h2. rewrite write_other by exact Hr'.
      apply Hold. exact Hr'. }
    assert (Hnew2 : Shared.force h2 (Shared.next h)
                    = Force.new forceID strength' direction' duration')
      by (subst h2; apply write_same).
    split; [reflexivity | ]. split; [reflexivity | ]. split; [reflexivity | ].
    split; [exact Hnew2 | ]. split; [exact Hold2 | ].
    split.
    + unfold Shared.entries.
      change (Shared._forces s1) with (Shared._forces s ++ [Shared.next h]).
      rewrite map_app. cbn [map]. rewrite Hnew2. f_equal.
      apply map_ext_in. intros r' Hin. apply Hold2.
      exact (allocated_not_next h s r' Hallocated Hin).
    + change (Shared._forces s1) with (Shared._forces s ++ [Shared.next h]).
      apply entries_with_ID.
      * apply Forall_forall. intros r' Hin. rewrite Hold2.
        -- exact (proj1 (Forall_forall _ _) Hnone r' Hin).
        -- exact (allocated_not_next h s r' Hallocated Hin).
      * rewrite Hnew2. reflexivity.
Qed.

(** The same scan for torques: the first torque with the ID is renewed in
    place, and without one a new Torque is appended. *)
Lemma addOrRenewTorque_first_match (o : PhysicalObject.t) (torqueID : string)
  (strength : float) (axis : list float) (duration : float) :
  (forall before q after,
      PhysicalObject._torques o = before ++ q :: after ->
      Forall (fun g => Torque.getID g <> torqueID) before ->
      Torque.getID q = torqueID ->
      PhysicalObject._torques
        (PhysicalObject.addOrRenewTorque o torqueID strength axis duration)
      = before ++ Torque.renew q strength axis duration :: after)
  /\
  (Forall (fun g => Torque.getID g <> torqueID) (PhysicalObject._torques o) ->
     PhysicalObject._torques
       (PhysicalObject.addOrRenewTorque o torqueID strength axis duration)
     = PhysicalObject._torques o
       ++ [Torque.new torqueID strength axis duration]).
Proof.
  unfold PhysicalObject.addOrRenewTorque. split.
  - intros before q after -> Hbefore Hq.
    assert (PhysicalObject.renewFirstTorque torqueID strength axis duration
              (before ++ q :: after)
            = Some (before ++ Torque.renew q strength axis duration :: after))
      as ->; [ | reflexivity].
    induction Hbefore as [ | g before Hg _ IH]; simpl.
    + apply String.eqb_eq in Hq. rewrite Hq. reflexivity.
    + apply String.eqb_neq in Hg. rewrite Hg, IH. reflexivity.
  - intros Hnone.
    assert (PhysicalObject.renewFirstTorque torqueID strength axis duration
              (PhysicalObject._torques o) = None) as ->; [ | reflexivity].
    induction Hnone as [ | g torques Hg _ IH]; simpl; [reflexivity | ].
    apply String.eqb_neq in Hg. rewrite Hg, IH. reflexivity.
Qed.

End AddOrRenew.

(** ** The cached inverses *)

Section Caches.
Context {M : MatricesJs}.

Lemma freshCaches_new mass positionMatrix orientationMatrix scalingMatrix
  initialVelocityMatrix bodies :
  Caller.freshCaches
    (PhysicalObject.new mass positionMatrix orientationMatrix scalingMatrix
       initialVelocityMatrix bodies).
Proof. split; left; reflexivity. Qed.

Lemma freshCaches_setPositionMatrix o value :
  Caller.freshCaches o ->
  Caller.freshCaches (PhysicalObject.setPositionMatrix o value).
Proof.
  intros [Hrot _]. split; [exact Hrot | left; reflexivity].
Qed.

Lemma freshCaches_setOrientationMatrix o value :
  Caller.freshCaches (PhysicalObject.setOrientationMatrix o value).
Proof. split; left; reflexivity. Qed.

(** With fresh caches, each getter returns the matrix its cache stands
    for. *)
Lemma getRotationMatrixInverse_fresh o :
  Caller.freshCaches o ->
  fst (PhysicalObject.getRotationMatrixInverse o) = Caller.rotationInverse o.
Proof.
  intros [[Hrot | Hrot] _]; unfold PhysicalObject.getRotationMatrixInverse;
    rewrite Hrot; reflexivity.
Qed.

Lemma getModelMatrixInverse_fresh o :
  Caller.freshCaches o ->
  fst (PhysicalObject.getModelMatrixInverse o) = Caller.modelInverse o.
Proof.
  intros [Hrot [Hmodel | Hmodel]]; unfold PhysicalObject.getModelMatrixInverse;
    rewrite Hmodel; [ | reflexivity].
  destruct Hrot as [Hrot | Hrot];
    unfold PhysicalObject.getRotationMatrixInverse; rewrite Hrot; reflexivity.
Qed.

Lemma freshCaches_getRotationMatrixInverse o :
  Caller.freshCaches o ->
  Caller.freshCaches (snd (PhysicalObject.getRotationMatrixInverse o)).
Proof.
  intros H. pose proof (getRotationMatrixInverse_fresh o H) as Hval.
  destruct H as [_ Hmodel]. split; [right | exact Hmodel].
  unfold PhysicalObject.getRotationMatrixInverse in *. simpl in *.
  rewrite Hval. reflexivity.
Qed.

Lemma freshCaches_getModelMatrixInverse o :
  Caller.freshCaches o ->
  Caller.freshCaches (snd (PhysicalObject.getModelMatrixInverse o)).
Proof.
  intros H. pose proof (getModelMatrixInverse_fresh o H) as Hval.
  pose proof (freshCaches_getRotationMatrixInverse o H) as [Hrot' _].
  destruct H as [Hrot Hmodel].
  unfold PhysicalObject.getModelMatrixInverse in *.
  destruct (PhysicalObject._modelMatrixInverse o) as [cached | ] eqn:Hcache.
  - simpl in Hval. subst cached. split; [exact Hrot | right; reflexivity].
  - split; [exact Hrot' | right]. simpl in Hval. simpl. rewrite Hval.
    reflexivity.
Qed.

Lemma freshCaches_perform o c :
  Caller.freshCaches o -> Caller.freshCaches (Caller.perform o c).
Proof.
  destruct c; simpl.
  - apply freshCaches_setPositionMatrix.
  - intros _. apply freshCaches_setOrientationMatrix.
  - apply freshCaches_getRotationMatrixInverse.
  - apply freshCaches_getModelMatrixInverse.
Qed.

Lemma freshCaches_performAll calls : forall o,
  Caller.freshCaches o -> Caller.freshCaches (Caller.performAll o calls).
Proof.
  induction calls as [ | c calls IH]; intros o H; simpl; [exact H | ].
  apply IH, freshCaches_perform, H.
Qed.

(** What a call leaves of the three matrices. *)
Lemma perform_matrices o c :
  PhysicalObject._positionMatrix (Caller.perform o c)
  = Caller.lastPosition [c] (PhysicalObject._positionMatrix o) /\
  PhysicalObject._orientationMatrix (Caller.perform o c)
  = Caller.lastOrientation [c] (PhysicalObject._orientationMatrix o) /\
  PhysicalObject._scalingMatrix (Caller.perform o c)
  = PhysicalObject._scalingMatrix o.
Proof.
  destruct c; cbn [Caller.perform Caller.lastPosition Caller.lastOrientation
                   fold_left].
  - repeat split.
  - repeat split.
  - repeat split.
  - unfold PhysicalObject.getModelMatrixInverse.
    destruct (PhysicalObject._modelMatrixInverse o); repeat split.
Qed.

Lemma performAll_matrices calls : forall o,
  PhysicalObject._positionMatrix (Caller.performAll o calls)
  = Caller.lastPosition calls (PhysicalObject._positionMatrix o) /\
  PhysicalObject._orientationMatrix (Caller.performAll o calls)
  = Caller.lastOrientation calls (PhysicalObject._orientationMatrix o) /\
  PhysicalObject._scalingMatrix (Caller.performAll o calls)
  = PhysicalObject._scalingMatrix o.
Proof.
  induction calls as [ | c calls IH]; intros o; [repeat split | ].
  destruct (perform_matrices o c) as (Hp & Ho & Hs).
  destruct (IH (Caller.perform o c)) as (Hp' & Ho' & Hs').
  change (Caller.performAll o (c :: calls))
    with (Caller.performAll (Caller.perform o c) calls).
  rewrite Hp', Ho', Hs', Hp, Ho, Hs. repeat split.
Qed.

(** C8.  Take an object whose caches are fresh (empty, as the constructor
    leaves them, or holding the inverses of the matrices the object has) and
    make any sequence of calls of [setPositionMatrix], [setOrientationMatrix]
    and the two getters.  Then the position matrix of the object is the
    argument of the last [setPositionMatrix] and its orientation matrix the
    argument of the last [setOrientationMatrix] (the old matrix where there
    was no such call), the scaling matrix is the old one,
    [getModelMatrixInverse()] returns inverse translation times inverse
    rotation times inverse scaling of exactly these three matrices, and
    [getRotationMatrixInverse()] returns the inverse rotation of that
    orientation matrix: whatever the getters cached between the setters,
    neither returns the inverse of an earlier matrix. *)
Theorem cached_inverses_follow_setters
  (o : PhysicalObject.t) (calls : list Caller.call) :
  Caller.freshCaches o ->
  let o' := Caller.performAll o calls in
  let position :=
    Caller.lastPosition calls (PhysicalObject._positionMatrix o) in
  let orientation :=
    Caller.lastOrientation calls (PhysicalObject._orientationMatrix o) in
  fst (PhysicalObject.getModelMatrixInverse o')
  = Mat_mul4
      (Mat_mul4 (Mat_inverseOfTranslation4 position)
         (Mat_inverseOfRotation4 orientation))
      (Mat_inverseOfScaling4 (PhysicalObject._scalingMatrix o))
  /\
  fst (PhysicalObject.getRotationMatrixInverse o')
  = Mat_inverseOfRotation4 orientation
  /\
  PhysicalObject.getPositionMatrix o' = position /\
  PhysicalObject.getOrientationMatrix o' = orientation /\
  PhysicalObject.getScalingMatrix o' = PhysicalObject._scalingMatrix o.
Proof.
  intros Hfresh o' position orientation.
  assert (Hfresh' : Caller.freshCaches o')
    by (apply freshCaches_performAll, Hfresh).
  destruct (performAll_matrices calls o) as (Hp & Ho & Hs).
  fold o' in Hp, Ho, Hs. fold position in Hp. fold orientation in Ho.
  split; [ | split; [ | split; [ | split]]].
  - rewrite (getModelMatrixInverse_fresh o' Hfresh').
    unfold Caller.modelInverse. rewrite Hp, Ho, Hs. reflexivity.
  - rewrite (getRotationMatrixInverse_fresh o' Hfresh').
    unfold Caller.rotationInverse. rewrite Ho. reflexivity.
  - exact Hp.
  - exact Ho.
  - exact Hs.
Qed.

(** The matrices the object holds are those of the latest setter calls. *)
Lemma setOrientationMatrix_then_getModelMatrixInverse o value :
  Caller.freshCaches o ->
  fst (PhysicalObject.getModelMatrixInverse
         (PhysicalObject.setOrientationMatrix o value))
  = Mat_mul4
      (Mat_mul4 (Mat_inverseOfTranslation4 (PhysicalObject._positionMatrix o))
         (Mat_inverseOfRotation4 value))
      (Mat_inverseOfScaling4 (PhysicalObject._scalingMatrix o)).
Proof. reflexivity. Qed.

(** With fresh caches, the point that [checkHit] works on is the argument,
    extended by 1, times the inverse model matrix of the object. *)
Lemma relativePosition_fresh (o : PhysicalObject.t) (positionVector : list float) :
  Caller.freshCaches o ->
  Caller.relativePosition o positionVector
  = Vec_mulVec4Mat4 (positionVector ++ [1]) (Caller.modelInverse o).
Proof.
  intros H. unfold Caller.relativePosition.
  rewrite (getModelMatrixInverse_fresh o H). reflexivity.
Qed.

End Caches.

(** ** Hit checks *)

Section HitChecks.
Context {M : MatricesJs}.

Lemma checkBodies_spec (relativePos : list float) (bodies : list Body.t) :
  fst (fst (PhysicalObject.checkBodies bodies relativePos))
  = existsb (Caller.hits relativePos) bodies /\
  snd (PhysicalObject.checkBodies bodies relativePos)
  = Caller.upToFirst (Caller.hits relativePos) bodies.
Proof.
  induction bodies as [ | b rest [IHr IHc]]; [split; reflexivity | ].
  cbn [PhysicalObject.checkBodies Caller.upToFirst existsb].
  replace (Caller.hits relativePos b) with (fst (Body.checkHit b relativePos))
    by reflexivity.
  destruct (Body.checkHit b relativePos) as [hit b'].
  destruct hit; cbn [fst snd orb]; [split; reflexivity | ].
  destruct (PhysicalObject.checkBodies rest relativePos) as [[r rest'] called].
  cbn [fst snd] in *. subst. split; reflexivity.
Qed.

Lemma getModelMatrixInverse_keeps o :
  PhysicalObject._bodySize (snd (PhysicalObject.getModelMatrixInverse o))
  = PhysicalObject._bodySize o /\
  PhysicalObject._bodies (snd (PhysicalObject.getModelMatrixInverse o))
  = PhysicalObject._bodies o.
Proof.
  unfold PhysicalObject.getModelMatrixInverse.
  destruct (PhysicalObject._modelMatrixInverse o); split; reflexivity.
Qed.

Lemma checkHit_unfold o positionVector :
  PhysicalObject.checkHit o positionVector
  = let o1 := snd (PhysicalObject.getModelMatrixInverse o) in
    let relativePos := Caller.relativePosition o positionVector in
    if PhysicalObject.closeEnough o relativePos then
      {| PhysicalObject.result :=
           fst (fst (PhysicalObject.checkBodies (PhysicalObject._bodies o) relativePos));
         PhysicalObject.positionVector := positionVector ++ [1];
         PhysicalObject.this :=
           PhysicalObject.assign_bodies o1
             (snd (fst (PhysicalObject.checkBodies (PhysicalObject._bodies o) relativePos)));
         PhysicalObject.called :=
           snd (PhysicalObject.checkBodies (PhysicalObject._bodies o) relativePos) |}
    else
      {| PhysicalObject.result := false;
         PhysicalObject.positionVector := positionVector ++ [1];
         PhysicalObject.this := o1;
         PhysicalObject.called := [] |}.
Proof.
  unfold PhysicalObject.checkHit, Caller.relativePosition.
  pose proof (getModelMatrixInverse_keeps o) as [Hsize Hbodies].
  destruct (PhysicalObject.getModelMatrixInverse o) as [inverse o1].
  simpl in *. unfold PhysicalObject.closeEnough. rewrite Hsize, Hbodies.
  match goal with |- context [if ?c then _ else _] => destruct c end;
    [ | reflexivity].
  destruct (PhysicalObject.checkBodies _ _) as [[r bodies] called].
  reflexivity.
Qed.

(** C3, as amended.  For every object and every point, [checkHit]
    transforms the point, extended by 1, by the matrix that
    [getModelMatrixInverse] returns, which is the inverse model matrix
    whenever the caches are fresh.  When one of the first three
    coordinates of the transformed point is, in absolute value, not strictly
    below the cached size, the call returns false and no body's [checkHit]
    is called.  Otherwise the bodies are asked in order up to and including
    the first one whose [checkHit] is true, and the call returns whether
    there is such a body. *)
Theorem checkHit_by_cached_size (o : PhysicalObject.t)
  (positionVector : list float) :
  let relativePos := Caller.relativePosition o positionVector in
  let run := PhysicalObject.checkHit o positionVector in
  (Caller.freshCaches o ->
     relativePos
     = Vec_mulVec4Mat4 (positionVector ++ [1])
         (Mat_mul4
            (Mat_mul4
               (Mat_inverseOfTranslation4 (PhysicalObject._positionMatrix o))
               (Mat_inverseOfRotation4 (PhysicalObject._orientationMatrix o)))
            (Mat_inverseOfScaling4 (PhysicalObject._scalingMatrix o))))
  /\
  (PhysicalObject.closeEnough o relativePos = false <->
     (Js.Math_abs (Js.item relativePos 0) <? PhysicalObject._bodySize o) = false \/
     (Js.Math_abs (Js.item relativePos 1) <? PhysicalObject._bodySize o) = false \/
     (Js.Math_abs (Js.item relativePos 2) <? PhysicalObject._bodySize o) = false)
  /\
  (PhysicalObject.closeEnough o relativePos = false ->
     PhysicalObject.result run = false /\ PhysicalObject.called run = [])
  /\
  (PhysicalObject.closeEnough o relativePos = true ->
     PhysicalObject.result run
     = existsb (Caller.hits relativePos) (PhysicalObject._bodies o) /\
     PhysicalObject.called run
     = Caller.upToFirst (Caller.hits relativePos) (PhysicalObject._bodies o)).
Proof.
  intros relativePos run. subst run. rewrite checkHit_unfold.
  fold relativePos. cbv zeta.
  split; [ | split; [ | split]].
  - intros Hfresh. apply (relativePosition_fresh o positionVector Hfresh).
  - unfold PhysicalObject.closeEnough.
    rewrite !andb_false_iff. tauto.
  - intros H. rewrite H. split; reflexivity.
  - intros H. rewrite H. simpl.
    apply (checkBodies_spec relativePos (PhysicalObject._bodies o)).
Qed.

(** The last body asked is the first that contains the point. *)
Lemma upToFirst_prefix {A : Type} (p : A -> bool) (l : list A) :
  exists rest, l = Caller.upToFirst p l ++ rest /\
    (existsb p l = true ->
     exists front x, Caller.upToFirst p l = front ++ [x] /\ p x = true /\
                     forallb (fun y => negb (p y)) front = true).
Proof.
  induction l as [ | x l (rest & Hrest & IH)]; simpl.
  - exists []. split; [reflexivity | discriminate].
  - destruct (p x) eqn:Hx; simpl.
    + exists l. split; [reflexivity | ]. intros _. exists [], x. auto.
    + exists rest. split; [congruence | ]. intros H.
      destruct (IH H) as (front & y & -> & Hy & Hfront).
      exists (x :: front), y. simpl. rewrite Hx. auto.
Qed.

(** C10.  [checkHit] pushes 1 onto the array it is given: after the call the
    array is the old one followed by 1, one element longer (4 elements for a
    3-vector), and after [n] calls with the same array it is the old one
    followed by [n] ones. *)
Theorem checkHit_pushes_onto_argument (o : PhysicalObject.t)
  (positionVector : list float) :
  PhysicalObject.positionVector (PhysicalObject.checkHit o positionVector)
  = positionVector ++ [1]
  /\
  List.length
    (PhysicalObject.positionVector (PhysicalObject.checkHit o positionVector))
  = S (List.length positionVector)
  /\
  (List.length positionVector = 3%nat ->
   List.length
     (PhysicalObject.positionVector (PhysicalObject.checkHit o positionVector))
   = 4%nat)
  /\
  forall n : nat,
    snd (Caller.checkHitAgain n o positionVector)
    = positionVector ++ repeat 1 n /\
    List.length (snd (Caller.checkHitAgain n o positionVector))
    = (List.length positionVector + n)%nat.
Proof.
  assert (Hpush : forall o' v,
             PhysicalObject.positionVector (PhysicalObject.checkHit o' v)
             = v ++ [1]).
  { intros o' v. rewrite checkHit_unfold. cbv zeta.
    destruct (PhysicalObject.closeEnough _ _); reflexivity. }
  assert (Hagain : forall n o' v,
             snd (Caller.checkHitAgain n o' v) = v ++ repeat 1 n).
  { induction n as [ | n IH]; intros o' v; simpl.
    - rewrite app_nil_r. reflexivity.
    - rewrite IH, Hpush, <- app_assoc. reflexivity. }
  rewrite Hpush, length_app. simpl.
  split; [reflexivity | split; [lia | split; [lia | ]]].
  intros n. rewrite Hagain, length_app, repeat_length. split; reflexivity.
Qed.

End HitChecks.

(** ** simulate *)

Section Simulation.
Context {M : MatricesJs}.

Lemma simulate_not_positive (fuel : nat) (o : PhysicalObject.t) (dt : float) :
  Js.gt dt 0 = false -> PhysicalObject.simulate fuel o dt = Some o.
Proof. intros H. unfold PhysicalObject.simulate. rewrite H. reflexivity. Qed.

(** C9.  For every object and every [dt <= 0], [simulate(dt)] returns at
    once, whatever the bound on the 5 ms loop, and the object after the call
    is the object before it, field by field: matrices, caches, forces and
    torques with their remaining durations, bodies and cached size. *)
Theorem simulate_nonpositive_dt_is_noop (fuel : nat) (o : PhysicalObject.t)
  (dt : float) :
  (dt <=? 0) = true -> PhysicalObject.simulate fuel o dt = Some o.
Proof.
  intros H. apply simulate_not_positive, nonpositive_not_gt, H.
Qed.

(** *** The 5 ms loop *)

Lemma angularLoop_rounds (fuel : nat) : forall (i dt : float) (o : PhysicalObject.t) (n : nat),
  PhysicalObject.angularRounds fuel i dt = Some n ->
  PhysicalObject.angularLoop fuel i dt o
  = Some (Nat.iter n PhysicalObject.angularStep o).
Proof.
  induction fuel as [ | fuel IH]; intros i dt o n; simpl;
    destruct (i + 2 <? dt); try discriminate.
  - intros [= <-]. reflexivity.
  - destruct (PhysicalObject.angularRounds fuel (i + 5) dt) as [m | ] eqn:Hm;
      try discriminate.
    intros [= <-]. rewrite (IH _ _ _ _ Hm), Nat.iter_succ_r. reflexivity.
  - intros [= <-]. reflexivity.
Qed.

(** A loop that ends within some bound ends within every larger one, after
    the same rounds. *)
Lemma angularRounds_more_fuel (fuel : nat) : forall (extra : nat) (i dt : float) (n : nat),
  PhysicalObject.angularRounds fuel i dt = Some n ->
  PhysicalObject.angularRounds (fuel + extra) i dt = Some n.
Proof.
  induction fuel as [ | fuel IH]; intros extra i dt n.
  - destruct extra; simpl; destruct (i + 2 <? dt); try discriminate; auto.
  - simpl. destruct (i + 2 <? dt); [ | auto].
    destruct (PhysicalObject.angularRounds fuel (i + 5) dt) as [m | ] eqn:Hm;
      try discriminate.
    intros [= <-]. rewrite (IH extra _ _ _ Hm). reflexivity.
Qed.

(** For [dt] = 1000 the counter takes the values 0, 5, ..., 995. *)
Lemma angularRounds_1000 (fuel : nat) :
  200 <= fuel -> PhysicalObject.angularRounds fuel 0 1000 = Some 200%nat.
Proof.
  intros H. replace fuel with (200 + (fuel - 200))%nat by lia.
  apply angularRounds_more_fuel. vm_compute. reflexivity.
Qed.

(** What the rounds of the loop write: the orientation matrix, and with it
    the two caches. *)
Lemma angularSteps_fields (o : PhysicalObject.t) (n : nat) :
  let o' := Nat.iter n PhysicalObject.angularStep o in
  PhysicalObject._orientationMatrix o'
  = Nat.iter n
      (fun m => Mat_mul4 m (PhysicalObject._angularVelocityMatrix o))
      (PhysicalObject._orientationMatrix o) /\
  PhysicalObject._mass o' = PhysicalObject._mass o /\
  PhysicalObject._positionMatrix o' = PhysicalObject._positionMatrix o /\
  PhysicalObject._scalingMatrix o' = PhysicalObject._scalingMatrix o /\
  PhysicalObject._velocityMatrix o' = PhysicalObject._velocityMatrix o /\
  PhysicalObject._angularVelocityMatrix o'
  = PhysicalObject._angularVelocityMatrix o /\
  PhysicalObject._forces o' = PhysicalObject._forces o /\
  PhysicalObject._torques o' = PhysicalObject._torques o /\
  PhysicalObject._bodies o' = PhysicalObject._bodies o /\
  PhysicalObject._bodySize o' = PhysicalObject._bodySize o.
Proof.
  induction n as [ | n IH]; [repeat split | ].
  cbv zeta in *. rewrite !Nat.iter_succ.
  destruct IH as (Ho & Hm & Hp & Hs & Hv & Hw & Hf & Hq & Hb & Hz).
  generalize dependent (Nat.iter n PhysicalObject.angularStep o).
  intros o' Ho Hm Hp Hs Hv Hw Hf Hq Hb Hz.
  unfold PhysicalObject.angularStep. simpl.
  rewrite Ho, Hw. repeat split; assumption.
Qed.

(** *** The loops over the forces and the torques *)

Lemma forceBody_expired (dt : float) (st : PhysicalObject.t * mat4) (f : Force.t) :
  Js.gt (Force._duration f) 0.1 = false ->
  PhysicalObject.forceBody dt st f = (f, st).
Proof.
  intros H. destruct st as [o acc]. unfold PhysicalObject.forceBody.
  rewrite (Force_getExertionDuration_expired f dt H). reflexivity.
Qed.

Lemma forcesLoop_expired (dt : float) (forces : list Force.t) :
  Forall (fun f => Js.gt (Force._duration f) 0.1 = false) forces ->
  forall st, PhysicalObject.forcesLoop dt forces st = (forces, st).
Proof.
  induction 1 as [ | f forces Hf _ IH]; intros st; simpl; [reflexivity | ].
  rewrite (forceBody_expired dt st f Hf), IH. reflexivity.
Qed.

Lemma forcesLoop_app (dt : float) (before after : list Force.t) :
  forall st,
    PhysicalObject.forcesLoop dt (before ++ after) st
    = let (before', st1) := PhysicalObject.forcesLoop dt before st in
      let (after', st2) := PhysicalObject.forcesLoop dt after st1 in
      (before' ++ after', st2).
Proof.
  induction before as [ | f before IH]; intros st; simpl.
  - destruct (PhysicalObject.forcesLoop dt after st). reflexivity.
  - destruct (PhysicalObject.forceBody dt st f) as [f' st1]. rewrite IH.
    destruct (PhysicalObject.forcesLoop dt before st1) as [before' st2].
    destruct (PhysicalObject.forcesLoop dt after st2). reflexivity.
Qed.

(** The loop over the torques writes neither position nor velocity. *)
Lemma torquesLoop_keeps (dt : float) (torques : list Torque.t) :
  forall (o : PhysicalObject.t) (acc : mat4),
    let o' := fst (snd (PhysicalObject.torquesLoop dt torques (o, acc))) in
    PhysicalObject._positionMatrix o' = PhysicalObject._positionMatrix o /\
    PhysicalObject._velocityMatrix o' = PhysicalObject._velocityMatrix o /\
    PhysicalObject._mass o' = PhysicalObject._mass o.
Proof.
  induction torques as [ | q torques IH]; intros o acc; [repeat split | ].
  cbv zeta. cbn [PhysicalObject.torquesLoop].
  destruct (PhysicalObject.torqueBody dt (o, acc) q) as [q' [o1 acc1]] eqn:Hbody.
  specialize (IH o1 acc1). cbv zeta in IH.
  destruct (PhysicalObject.torquesLoop dt torques (o1, acc1)) as [qs [o2 acc2]].
  cbn [fst snd] in *.
  assert (PhysicalObject._positionMatrix o1 = PhysicalObject._positionMatrix o /\
          PhysicalObject._velocityMatrix o1 = PhysicalObject._velocityMatrix o /\
          PhysicalObject._mass o1 = PhysicalObject._mass o) as (Hp & Hv & Hm).
  { unfold PhysicalObject.torqueBody in Hbody.
    destruct (Torque.getExertionDuration q dt) as [ms q''].
    destruct (Js.gt (ms / 1000) 0); injection Hbody as _ <- _; repeat split. }
  destruct IH as (IHp & IHv & IHm). rewrite IHp, IHv, IHm. auto.
Qed.

Lemma integrateTorques_keeps (o : PhysicalObject.t) (dt : float) :
  PhysicalObject._positionMatrix (PhysicalObject.integrateTorques o dt)
  = PhysicalObject._positionMatrix o /\
  PhysicalObject._velocityMatrix (PhysicalObject.integrateTorques o dt)
  = PhysicalObject._velocityMatrix o.
Proof.
  unfold PhysicalObject.integrateTorques.
  pose proof (torquesLoop_keeps dt (PhysicalObject._torques o) o Mat_identity4)
    as (Hp & Hv & _).
  cbv zeta in *.
  destruct (PhysicalObject.torquesLoop dt (PhysicalObject._torques o)
              (o, Mat_identity4)) as [qs [o1 acc]].
  cbn [fst snd] in *. split; assumption.
Qed.

Lemma correctInaccuracies_fields (o : PhysicalObject.t) :
  PhysicalObject._positionMatrix (PhysicalObject.correctInaccuracies o)
  = PhysicalObject._positionMatrix o /\
  PhysicalObject._velocityMatrix (PhysicalObject.correctInaccuracies o)
  = Mat_straightened (PhysicalObject._velocityMatrix o) 0.0001 /\
  PhysicalObject._orientationMatrix (PhysicalObject.correctInaccuracies o)
  = Mat_correctedOrthogonal4 (PhysicalObject._orientationMatrix o).
Proof. repeat split. Qed.

End Simulation.

Section SimulationSteps.
Context {M : MatricesJs}.

(** The force block of [simulate] on an object whose only force in effect
    is [f], exerted for a positive time: the position is moved once, the
    velocity is composed with the accumulated matrix, and [f] is aged. *)
Lemma integrateForces_single (o : PhysicalObject.t) (dt : float)
  (before : list Force.t) (f : Force.t) (after : list Force.t) :
  PhysicalObject._forces o = before ++ f :: after ->
  Forall (fun g => Js.gt (Force._duration g) 0.1 = false) before ->
  Forall (fun g => Js.gt (Force._duration g) 0.1 = false) after ->
  Js.gt (fst (Force.getExertionDuration f dt) / 1000) 0 = true ->
  let t := fst (Force.getExertionDuration f dt) / 1000 in
  let f' := snd (Force.getExertionDuration f dt) in
  let a := Force.getAccelerationVector f' (PhysicalObject._mass o) in
  PhysicalObject.integrateForces o dt
  = PhysicalObject.assign_velocityMatrix
      (PhysicalObject.assign_forces
         (PhysicalObject.setPositionMatrix o
            (Mat_mul4 (PhysicalObject._positionMatrix o)
               (Mat_translation4v (Vec_scaled3 a (1 / 2 * t * t)))))
         (before ++ f' :: after))
      (Mat_mul4 (PhysicalObject._velocityMatrix o)
         (Mat_mul4 Mat_identity4 (Mat_translation4v (Vec_scaled3 a t)))).
Proof.
  intros Hforces Hbefore Hafter Ht t f' a.
  unfold PhysicalObject.integrateForces.
  rewrite Hforces, forcesLoop_app, (forcesLoop_expired dt before Hbefore).
  cbn [PhysicalObject.forcesLoop].
  assert (Hbody : PhysicalObject.forceBody dt (o, Mat_identity4) f
            = (f', (PhysicalObject.setPositionMatrix o
                      (Mat_mul4 (PhysicalObject._positionMatrix o)
                         (Mat_translation4v (Vec_scaled3 a (1 / 2 * t * t)))),
                    Mat_mul4 Mat_identity4
                      (Mat_translation4v (Vec_scaled3 a t))))).
  { unfold PhysicalObject.forceBody. subst t f' a.
    destruct (Force.getExertionDuration f dt) as [ms g]. cbn [fst snd] in *.
    rewrite Ht. reflexivity. }
  rewrite Hbody, (forcesLoop_expired dt after Hafter). reflexivity.
Qed.

Lemma integrateForces_none (o : PhysicalObject.t) (dt : float) :
  PhysicalObject._forces o = [] ->
  PhysicalObject.integrateForces o dt
  = PhysicalObject.assign_velocityMatrix (PhysicalObject.assign_forces o [])
      (Mat_mul4 (PhysicalObject._velocityMatrix o) Mat_identity4).
Proof.
  intros H. unfold PhysicalObject.integrateForces. rewrite H. reflexivity.
Qed.

Lemma integrateTorques_none (o : PhysicalObject.t) (dt : float) :
  PhysicalObject._torques o = [] ->
  PhysicalObject.integrateTorques o dt
  = PhysicalObject.assign_angularVelocityMatrix
      (PhysicalObject.assign_torques o [])
      (Mat_mul4 (PhysicalObject._angularVelocityMatrix o) Mat_identity4).
Proof.
  intros H. unfold PhysicalObject.integrateTorques. rewrite H. reflexivity.
Qed.

(** [simulate] returns as soon as the 5 ms loop ends within the bound. *)
Lemma simulate_returns (fuel : nat) (o : PhysicalObject.t) (dt : float)
  (rounds : nat) :
  Js.gt dt 0 = true ->
  PhysicalObject.angularRounds fuel 0 dt = Some rounds ->
  PhysicalObject.simulate fuel o dt
  = Some (PhysicalObject.correctInaccuracies
            (PhysicalObject.integrateTorques
               (Nat.iter rounds PhysicalObject.angularStep
                  (PhysicalObject.integrateForces
                     (PhysicalObject.linearDrift o dt) dt)) dt)).
Proof.
  intros Hdt Hrounds. unfold PhysicalObject.simulate, PhysicalObject.angularDrift.
  rewrite Hdt, (angularLoop_rounds fuel _ _ _ _ Hrounds). reflexivity.
Qed.

(** An object without forces and torques, once the 5 ms loop has made its
    [n] rounds: the loop has multiplied the orientation matrix [n] times by
    the angular velocity matrix, and [simulate] returns. *)
Lemma simulate_without_forces (fuel n : nat) (o : PhysicalObject.t)
  (dt : float) :
  PhysicalObject._forces o = [] ->
  PhysicalObject._torques o = [] ->
  Js.gt dt 0 = true ->
  PhysicalObject.angularRounds fuel 0 dt = Some n ->
  exists o3 o',
    PhysicalObject.angularDrift fuel
      (PhysicalObject.integrateForces (PhysicalObject.linearDrift o dt) dt)
      dt = Some o3 /\
    PhysicalObject._orientationMatrix o3
    = Nat.iter n
        (fun m => Mat_mul4 m (PhysicalObject._angularVelocityMatrix o))
        (PhysicalObject._orientationMatrix o) /\
    PhysicalObject.simulate fuel o dt = Some o' /\
    PhysicalObject._positionMatrix o'
    = Mat_mul4 (PhysicalObject._positionMatrix o)
        (Mat_translation4v
           (Vec_scaled3
              (Mat_translationVector3 (PhysicalObject._velocityMatrix o))
              (dt / 1000))) /\
    PhysicalObject._orientationMatrix o'
    = Mat_correctedOrthogonal4
        (Nat.iter n
           (fun m => Mat_mul4 m (PhysicalObject._angularVelocityMatrix o))
           (PhysicalObject._orientationMatrix o)).
Proof.
  intros Hforces Htorques Hdt Hrounds.
  pose proof (integrateForces_none (PhysicalObject.linearDrift o dt) dt Hforces)
    as Ho2.
  pose proof (simulate_returns fuel o dt n Hdt Hrounds) as Hsim.
  pose proof (angularLoop_rounds fuel 0 dt
                (PhysicalObject.integrateForces
                   (PhysicalObject.linearDrift o dt) dt) n Hrounds) as Hloop.
  destruct (angularSteps_fields
              (PhysicalObject.integrateForces
                 (PhysicalObject.linearDrift o dt) dt) n)
    as (Hori & _ & Hpos & _ & _ & _ & _ & Htor & _).
  revert Hsim Hloop Hori Hpos Htor.
  generalize (Nat.iter n PhysicalObject.angularStep
                (PhysicalObject.integrateForces
                   (PhysicalObject.linearDrift o dt) dt)).
  rewrite Ho2. intros o3 Hsim Hloop Hori Hpos Htor.
  exists o3. eexists.
  split; [exact Hloop | ].
  split; [exact Hori | ].
  split; [exact Hsim | ].
  rewrite (integrateTorques_none o3 dt) by (rewrite Htor; exact Htorques).
  split.
  - transitivity (PhysicalObject._positionMatrix o3); [reflexivity | ].
    rewrite Hpos. reflexivity.
  - transitivity (Mat_correctedOrthogonal4 (PhysicalObject._orientationMatrix o3));
      [reflexivity | ].
    rewrite Hori. reflexivity.
Qed.

Lemma one_second : 1000 / 1000 = 1.
Proof. reflexivity. Qed.

(** C6.  For an object with no forces and no torques, and a bound of at
    least 200 on the rounds of the 5 ms loop: the loop makes exactly 200
    rounds for [dt] = 1000 and leaves the orientation matrix multiplied 200
    times by the angular velocity matrix; [simulate(1000)] returns; in the
    object it leaves, the position matrix is the old one times the
    translation by the velocity vector scaled by 1, and the orientation
    matrix is the outcome of the 200 multiplications, passed through
    [Mat.correctedOrthogonal4] by the closing [_correctMatrices]. *)
Theorem simulate_one_second_of_drift (fuel : nat) (o : PhysicalObject.t) :
  PhysicalObject._forces o = [] ->
  PhysicalObject._torques o = [] ->
  (200 <= fuel)%nat ->
  PhysicalObject.angularRounds fuel 0 1000 = Some 200%nat /\
  exists o3 o',
    PhysicalObject.angularDrift fuel
      (PhysicalObject.integrateForces (PhysicalObject.linearDrift o 1000) 1000)
      1000 = Some o3 /\
    PhysicalObject._orientationMatrix o3
    = Nat.iter 200
        (fun m => Mat_mul4 m (PhysicalObject._angularVelocityMatrix o))
        (PhysicalObject._orientationMatrix o) /\
    PhysicalObject.simulate fuel o 1000 = Some o' /\
    PhysicalObject._positionMatrix o'
    = Mat_mul4 (PhysicalObject._positionMatrix o)
        (Mat_translation4v
           (Vec_scaled3
              (Mat_translationVector3 (PhysicalObject._velocityMatrix o)) 1)) /\
    PhysicalObject._orientationMatrix o'
    = Mat_correctedOrthogonal4
        (Nat.iter 200
           (fun m => Mat_mul4 m (PhysicalObject._angularVelocityMatrix o))
           (PhysicalObject._orientationMatrix o)).
Proof.
  intros Hforces Htorques Hfuel.
  pose proof (angularRounds_1000 fuel Hfuel) as Hrounds.
  split; [exact Hrounds | ].
  pose proof (simulate_without_forces fuel 200 o 1000 Hforces Htorques
                eq_refl Hrounds) as H.
  rewrite one_second in H. exact H.
Qed.

End SimulationSteps.

Section SingleForce.
Context {M : MatricesJs}.

(** C5.  Take an object whose forces are all expired (not above 0.1 ms)
    except one, [f], which is in effect and has at least [dt] left; let
    [dt > 0], let [t = dt / 1000] be positive as well, and let the 5 ms loop
    end within the bound.  With [a = direction * (strength / mass)]:
    the first block of [simulate(dt)] multiplies the position by the
    translation by the old velocity vector times [dt / 1000]; the force block
    multiplies it further by the translation by [a * (1/2 * t * t)] and sets
    the velocity matrix to the old one times the accumulated matrix
    [identity * translation(a * t)]; [simulate(dt)] returns, the position it
    leaves is that position, and the velocity it leaves is that velocity
    passed through [Mat.straightened(.., 0.0001)] by the closing block. *)
Theorem simulate_single_force (fuel rounds : nat) (o : PhysicalObject.t)
  (dt : float) (before : list Force.t) (f : Force.t) (after : list Force.t) :
  PhysicalObject._forces o = before ++ f :: after ->
  Forall (fun g => Js.gt (Force._duration g) 0.1 = false) before ->
  Forall (fun g => Js.gt (Force._duration g) 0.1 = false) after ->
  Js.gt (Force._duration f) 0.1 = true ->
  (dt <=? Force._duration f) = true ->
  Js.gt dt 0 = true ->
  Js.gt (dt / 1000) 0 = true ->
  PhysicalObject.angularRounds fuel 0 dt = Some rounds ->
  let t := dt / 1000 in
  let a := Vec_scaled3 (Force._direction f)
             (Force._strength f / PhysicalObject._mass o) in
  let drifted :=
    Mat_mul4 (PhysicalObject._positionMatrix o)
      (Mat_translation4v
         (Vec_scaled3 (Mat_translationVector3 (PhysicalObject._velocityMatrix o))
            (dt / 1000))) in
  let displaced :=
    Mat_mul4 drifted (Mat_translation4v (Vec_scaled3 a (1 / 2 * t * t))) in
  let composed :=
    Mat_mul4 (PhysicalObject._velocityMatrix o)
      (Mat_mul4 Mat_identity4 (Mat_translation4v (Vec_scaled3 a t))) in
  let o2 := PhysicalObject.integrateForces (PhysicalObject.linearDrift o dt) dt in
  PhysicalObject._positionMatrix (PhysicalObject.linearDrift o dt) = drifted /\
  PhysicalObject._positionMatrix o2 = displaced /\
  PhysicalObject._velocityMatrix o2 = composed /\
  exists o',
    PhysicalObject.simulate fuel o dt = Some o' /\
    PhysicalObject._positionMatrix o' = displaced /\
    PhysicalObject._velocityMatrix o' = Mat_straightened composed 0.0001.
Proof.
  intros Hforces Hbefore Hafter Hactive Hcovers Hdt Ht Hrounds
         t a drifted displaced composed o2.
  pose proof (Force_exertion_of_covered_step f dt Hactive Hdt Hcovers) as Hms.
  assert (Ho2 : o2 = PhysicalObject.assign_velocityMatrix
                  (PhysicalObject.assign_forces
                     (PhysicalObject.setPositionMatrix
                        (PhysicalObject.linearDrift o dt) displaced)
                     (before ++ snd (Force.getExertionDuration f dt) :: after))
                  composed).
  { subst o2.
    rewrite (integrateForces_single (PhysicalObject.linearDrift o dt) dt
               before f after Hforces Hbefore Hafter)
      by (rewrite Hms; exact Ht).
    rewrite Hms. subst displaced composed drifted a t.
    unfold Force.getAccelerationVector.
    rewrite (Force_getExertionDuration_active f dt Hactive). reflexivity. }
  split; [reflexivity | ].
  split; [rewrite Ho2; reflexivity | ].
  split; [rewrite Ho2; reflexivity | ].
  eexists. split; [apply (simulate_returns fuel o dt rounds Hdt Hrounds) | ].
  fold o2.
  destruct (correctInaccuracies_fields
              (PhysicalObject.integrateTorques
                 (Nat.iter rounds PhysicalObject.angularStep o2) dt))
    as (Hp & Hv & _).
  destruct (integrateTorques_keeps
              (Nat.iter rounds PhysicalObject.angularStep o2) dt) as (Hp' & Hv').
  destruct (angularSteps_fields o2 rounds) as (_ & _ & Hp'' & _ & Hv'' & _).
  rewrite Hp, Hv, Hp', Hv', Hp'', Hv'', Ho2. split; reflexivity.
Qed.

End SingleForce.

(** ** The caches through simulate and checkHit *)

Section CachesThroughMethods.
Context {M : MatricesJs}.

Lemma freshCaches_checkHit (o : PhysicalObject.t) (positionVector : list float) :
  Caller.freshCaches o ->
  Caller.freshCaches
    (PhysicalObject.this (PhysicalObject.checkHit o positionVector)).
Proof.
  intros H. rewrite checkHit_unfold. cbv zeta.
  pose proof (freshCaches_getModelMatrixInverse o H) as H1.
  destruct (PhysicalObject.closeEnough _ _); [ | exact H1].
  exact H1.
Qed.

(** A call of [simulate] with [dt > 0] ends in [_correctMatrices], whose
    [setOrientationMatrix] empties both caches. *)
Lemma simulate_empties_caches (fuel : nat) (o o' : PhysicalObject.t) (dt : float) :
  Js.gt dt 0 = true ->
  PhysicalObject.simulate fuel o dt = Some o' ->
  PhysicalObject._rotationMatrixInverse o' = None /\
  PhysicalObject._modelMatrixInverse o' = None.
Proof.
  intros Hdt. unfold PhysicalObject.simulate. rewrite Hdt.
  destruct (PhysicalObject.angularDrift fuel _ dt) as [o3 | ]; [ | discriminate].
  intros [= <-]. split; reflexivity.
Qed.

Lemma freshCaches_simulate (fuel : nat) (o o' : PhysicalObject.t) (dt : float) :
  Caller.freshCaches o ->
  PhysicalObject.simulate fuel o dt = Some o' ->
  Caller.freshCaches o'.
Proof.
  intros H Hsim. destruct (Js.gt dt 0) eqn:Hdt.
  - destruct (simulate_empties_caches fuel o o' dt Hdt Hsim) as [Hr Hm].
    split; left; assumption.
  - rewrite (simulate_not_positive fuel o dt Hdt) in Hsim.
    injection Hsim as <-. exact H.
Qed.

End CachesThroughMethods.

(** ** The code on concrete objects *)

Section Concrete.
#[local] Existing Instance Matrices.implementation.

(** C3, as stated, fails.  For the cube of half size 1 at the origin (cached
    size sqrt 3) and the point (10, 0, 0), the transformed point is
    (10, 0, 0, 1): only its first coordinate exceeds the cached size, yet
    [checkHit] returns false without calling the cube's [checkHit]. *)
Lemma checkHit_rejects_on_one_coordinate :
  let relativePos := Caller.relativePosition Scenario.cubeObject [10; 0; 0] in
  let size := PhysicalObject._bodySize Scenario.cubeObject in
  ~ (PhysicalObject.called (PhysicalObject.checkHit Scenario.cubeObject [10; 0; 0])
     = [] <->
     (size <? Js.Math_abs (Js.item relativePos 0)) &&
     (size <? Js.Math_abs (Js.item relativePos 1)) &&
     (size <? Js.Math_abs (Js.item relativePos 2)) = true).
Proof.
  intros relativePos size [H _].
  assert (Hcalled : PhysicalObject.called
                      (PhysicalObject.checkHit Scenario.cubeObject [10; 0; 0]) = [])
    by (vm_compute; reflexivity).
  specialize (H Hcalled). vm_compute in H. discriminate H.
Qed.

(** The spec's hit-test example: the cube contains its own position, and a
    point 10 units away along an axis is rejected with no body asked. *)
Example hit_test_of_the_cube :
  PhysicalObject.result (PhysicalObject.checkHit Scenario.cubeObject [0; 0; 0])
  = true /\
  PhysicalObject.called (PhysicalObject.checkHit Scenario.cubeObject [0; 0; 0])
  = [Scenario.cube] /\
  PhysicalObject.result (PhysicalObject.checkHit Scenario.cubeObject [0; 0; 10])
  = false /\
  PhysicalObject.called (PhysicalObject.checkHit Scenario.cubeObject [0; 0; 10])
  = [].
Proof. repeat split; vm_compute; reflexivity. Qed.

(** C4 on the code.  For the object made of [turnedBox] the constructor
    caches the size 2.  The corner (+1, -1, +1) of the box lies at about
    (0, 2.414, -1), more than 2.6 from the origin; the point (0, 2.25, 0) is
    inside the box by the box's own [checkHit] and 2.25 from the origin; and
    [checkHit] of the object rejects that point on the cached size, without
    asking the box. *)
Theorem bodySize_below_farthest_corner :
  PhysicalObject._bodySize Scenario.turnedObject = 2 /\
  (2.6 <? Matrices.length3 Scenario.turnedBoxCorner) = true /\
  fst (Body.checkHit Scenario.turnedBox [0; 2.25; 0; 1]) = true /\
  Matrices.length3 [0; 2.25; 0] = 2.25 /\
  PhysicalObject.result
    (PhysicalObject.checkHit Scenario.turnedObject [0; 2.25; 0]) = false /\
  PhysicalObject.called
    (PhysicalObject.checkHit Scenario.turnedObject [0; 2.25; 0]) = [].
Proof. repeat split; vm_compute; reflexivity. Qed.

(** [simulate(-5)] on an object with a force in effect. *)
Lemma simulate_nonpositive_dt_is_noop_witness :
  PhysicalObject.simulate 0 Scenario.pushed (-5) = Some Scenario.pushed.
Proof.
  apply (simulate_nonpositive_dt_is_noop 0 Scenario.pushed (-5)).
  reflexivity.
Defined.

(** One second of drift at (3, 0, 0) m/s from (10, 20, 30). *)
Lemma simulate_one_second_of_drift_witness :
  exists o',
    PhysicalObject.simulate 200 Scenario.drifter 1000 = Some o' /\
    PhysicalObject._positionMatrix o'
    = [1; 0; 0; 0;  0; 1; 0; 0;  0; 0; 1; 0;  13; 20; 30; 1].
Proof.
  destruct (simulate_one_second_of_drift 200 Scenario.drifter
              eq_refl eq_refl (le_n 200))
    as (_ & o3 & o' & _ & _ & Hsimulate & Hposition & _).
  exists o'. split; [exact Hsimulate | ].
  rewrite Hposition. vm_compute. reflexivity.
Defined.

(** A 16 ms step of an object of mass 2 moving at 3 m/s and pushed with
    4 N: it drifts 0.048 m, gains 0.000256 m from the force, and its
    velocity grows by 0.032 m/s. *)
Lemma simulate_single_force_witness :
  exists o',
    PhysicalObject.simulate 3 Scenario.pushed 16 = Some o' /\
    PhysicalObject._positionMatrix o'
    = [1; 0; 0; 0;  0; 1; 0; 0;  0; 0; 1; 0;  10.048256; 20; 30; 1] /\
    PhysicalObject._velocityMatrix o'
    = [1; 0; 0; 0;  0; 1; 0; 0;  0; 0; 1; 0;  3.032; 0; 0; 1].
Proof.
  destruct (simulate_single_force 3 3 Scenario.pushed 16 []
              (Force.new "thrust" 4 [1; 0; 0] 100) []
              eq_refl (Forall_nil _) (Forall_nil _)
              eq_refl eq_refl eq_refl eq_refl eq_refl)
    as (_ & _ & _ & o' & Hsimulate & Hposition & Hvelocity).
  exists o'. split; [exact Hsimulate | ].
  rewrite Hposition, Hvelocity. split; vm_compute; reflexivity.
Defined.

(** C7, as stated, fails.  [f = new Force("thrust", 1, [1, 0, 0], 20)] is
    added twice, so both entries of the array hold [f].
    [addOrRenewForce("thrust", 4, [0, 1, 0], 100)] renews [f] through the
    first entry, and the later entry with the same ID is not left untouched:
    it read a strength of 1 and 20 ms, and reads 4 and 100 ms afterwards. *)
Lemma addOrRenewForce_renews_a_shared_later_entry :
  let run := Shared.addOrRenewForce Scenario.oneThrust Scenario.heldTwice
               "thrust" 4 [0; 1; 0] 100 in
  ~ (nth 1 (Shared.entries (fst run) (snd run)) Scenario.spentForce
     = nth 1 (Shared.entries Scenario.oneThrust Scenario.heldTwice)
         Scenario.spentForce).
Proof.
  intros run H. apply (f_equal Force._duration) in H. revert H.
  apply float_neq; reflexivity.
Qed.

(** The spec's cache-invalidation test, on the cube after a first read of
    its inverse model matrix: the orientation is set to [Scenario.halfTurn],
    the inverse is read again, and the position is set to (5, 0, 0). *)
Lemma cached_inverses_follow_setters_witness :
  PhysicalObject._modelMatrixInverse
    (snd (PhysicalObject.getModelMatrixInverse Scenario.cubeObject)) <> None /\
  fst (PhysicalObject.getModelMatrixInverse
         (Caller.performAll
            (snd (PhysicalObject.getModelMatrixInverse Scenario.cubeObject))
            [Caller.setOrientationMatrix Scenario.halfTurn;
             Caller.getModelMatrixInverse;
             Caller.setPositionMatrix (Matrices.translation4v [5; 0; 0])]))
  = Matrices.mul4
      (Matrices.mul4
         (Matrices.inverseOfTranslation4 (Matrices.translation4v [5; 0; 0]))
         (Matrices.inverseOfRotation4 Scenario.halfTurn))
      (Matrices.inverseOfScaling4 Matrices.identity4).
Proof.
  split; [discriminate | ].
  assert (Hfresh : Caller.freshCaches
                     (snd (PhysicalObject.getModelMatrixInverse
                             Scenario.cubeObject)))
    by (split; right; vm_compute; reflexivity).
  exact (proj1 (cached_inverses_follow_setters _ _ Hfresh)).
Defined.

End Concrete.

(** ** A step in closed form *)

Section ClosedForm.
Context {M : MatricesJs}.

Lemma agedForce_keeps (dt : float) (f : Force.t) :
  Force._id (Effect.agedForce dt f) = Force._id f /\
  Force._strength (Effect.agedForce dt f) = Force._strength f /\
  Force._direction (Effect.agedForce dt f) = Force._direction f.
Proof.
  unfold Effect.agedForce, Force.getExertionDuration.
  destruct (Js.gt (Force._duration f) 0.1); repeat split.
Qed.

Lemma agedTorque_keeps (dt : float) (q : Torque.t) :
  Torque._id (Effect.agedTorque dt q) = Torque._id q /\
  Torque._strength (Effect.agedTorque dt q) = Torque._strength q /\
  Torque._axis (Effect.agedTorque dt q) = Torque._axis q.
Proof.
  unfold Effect.agedTorque, Torque.getExertionDuration.
  destruct (Js.gt (Torque._duration q) 0.1); repeat split.
Qed.

Lemma forceBody_effect (dt : float) (o : PhysicalObject.t) (acc : mat4)
  (f : Force.t) :
  let r := PhysicalObject.forceBody dt (o, acc) f in
  fst r = Effect.agedForce dt f /\
  snd (snd r) = Effect.accelerate dt (PhysicalObject._mass o) acc f /\
  PhysicalObject._positionMatrix (fst (snd r))
  = Effect.displace dt (PhysicalObject._mass o)
      (PhysicalObject._positionMatrix o) f /\
  Effect.sameButPosition o (fst (snd r)).
Proof.
  cbv zeta.
  destruct (agedForce_keeps dt f) as (_ & Hs & Hd).
  unfold PhysicalObject.forceBody, Effect.accelerate, Effect.displace,
    Effect.forceSeconds, Effect.agedForce in *.
  destruct (Force.getExertionDuration f dt) as [ms f']. cbn [fst snd] in *.
  unfold Force.getAccelerationVector. rewrite Hs, Hd.
  destruct (Js.gt (ms / 1000) 0); cbn [fst snd];
    repeat split; reflexivity.
Qed.

Lemma forcesLoop_effect (dt : float) (forces : list Force.t) :
  forall (o : PhysicalObject.t) (acc : mat4),
    let r := PhysicalObject.forcesLoop dt forces (o, acc) in
    fst r = map (Effect.agedForce dt) forces /\
    snd (snd r)
    = fold_left (Effect.accelerate dt (PhysicalObject._mass o)) forces acc /\
    PhysicalObject._positionMatrix (fst (snd r))
    = fold_left (Effect.displace dt (PhysicalObject._mass o)) forces
        (PhysicalObject._positionMatrix o) /\
    Effect.sameButPosition o (fst (snd r)).
Proof.
  induction forces as [ | f forces IH]; intros o acc.
  - cbv zeta. cbn. repeat split; reflexivity.
  - cbv zeta. cbn [PhysicalObject.forcesLoop map fold_left].
    pose proof (forceBody_effect dt o acc f) as Hbody. cbv zeta in Hbody.
    destruct (PhysicalObject.forceBody dt (o, acc) f) as [f' [o1 acc1]].
    cbn [fst snd] in Hbody.
    destruct Hbody as (-> & -> & Hpos & Hsame).
    specialize (IH o1 (Effect.accelerate dt (PhysicalObject._mass o) acc f)).
    cbv zeta in IH.
    destruct (PhysicalObject.forcesLoop dt forces
                (o1, Effect.accelerate dt (PhysicalObject._mass o) acc f))
      as [fs [o2 acc2]].
    cbn [fst snd] in *.
    destruct IH as (-> & -> & Hpos2 & Hsame2).
    destruct Hsame as (Hm & Ho & Hs & Hv & Hw & Hf & Hq & Hb & Hz).
    destruct Hsame2 as (Hm2 & Ho2 & Hs2 & Hv2 & Hw2 & Hf2 & Hq2 & Hb2 & Hz2).
    rewrite Hpos2, Hpos, Hm.
    repeat split; try reflexivity; congruence.
Qed.

Lemma torqueBody_effect (dt : float) (o : PhysicalObject.t) (acc : mat4)
  (q : Torque.t) :
  let r := PhysicalObject.torqueBody dt (o, acc) q in
  fst r = Effect.agedTorque dt q /\
  snd (snd r) = Effect.spinUp dt (PhysicalObject._mass o) acc q /\
  PhysicalObject._orientationMatrix (fst (snd r))
  = Effect.turn dt (PhysicalObject._mass o)
      (PhysicalObject._orientationMatrix o) q /\
  Effect.sameButOrientation o (fst (snd r)).
Proof.
  cbv zeta.
  destruct (agedTorque_keeps dt q) as (_ & Hs & Ha).
  unfold PhysicalObject.torqueBody, Effect.spinUp, Effect.turn,
    Effect.torqueSeconds, Effect.agedTorque in *.
  destruct (Torque.getExertionDuration q dt) as [ms q']. cbn [fst snd] in *.
  unfold Torque.getAngularAccelerationMatrixOverTime. rewrite Hs, Ha.
  destruct (Js.gt (ms / 1000) 0); cbn [fst snd];
    repeat split; reflexivity.
Qed.

Lemma torquesLoop_effect (dt : float) (torques : list Torque.t) :
  forall (o : PhysicalObject.t) (acc : mat4),
    let r := PhysicalObject.torquesLoop dt torques (o, acc) in
    fst r = map (Effect.agedTorque dt) torques /\
    snd (snd r)
    = fold_left (Effect.spinUp dt (PhysicalObject._mass o)) torques acc /\
    PhysicalObject._orientationMatrix (fst (snd r))
    = fold_left (Effect.turn dt (PhysicalObject._mass o)) torques
        (PhysicalObject._orientationMatrix o) /\
    Effect.sameButOrientation o (fst (snd r)).
Proof.
  induction torques as [ | q torques IH]; intros o acc.
  - cbv zeta. cbn. repeat split; reflexivity.
  - cbv zeta. cbn [PhysicalObject.torquesLoop map fold_left].
    pose proof (torqueBody_effect dt o acc q) as Hbody. cbv zeta in Hbody.
    destruct (PhysicalObject.torqueBody dt (o, acc) q) as [q' [o1 acc1]].
    cbn [fst snd] in Hbody.
    destruct Hbody as (-> & -> & Hori & Hsame).
    specialize (IH o1 (Effect.spinUp dt (PhysicalObject._mass o) acc q)).
    cbv zeta in IH.
    destruct (PhysicalObject.torquesLoop dt torques
                (o1, Effect.spinUp dt (PhysicalObject._mass o) acc q))
      as [qs [o2 acc2]].
    cbn [fst snd] in *.
    destruct IH as (-> & -> & Hori2 & Hsame2).
    destruct Hsame as (Hm & Hp & Hs & Hv & Hw & Hf & Hq & Hb & Hz).
    destruct Hsame2 as (Hm2 & Hp2 & Hs2 & Hv2 & Hw2 & Hf2 & Hq2 & Hb2 & Hz2).
    rewrite Hori2, Hori, Hm.
    repeat split; try reflexivity; congruence.
Qed.

Lemma integrateForces_effect (o : PhysicalObject.t) (dt : float) :
  let o' := PhysicalObject.integrateForces o dt in
  PhysicalObject._positionMatrix o'
  = fold_left (Effect.displace dt (PhysicalObject._mass o))
      (PhysicalObject._forces o) (PhysicalObject._positionMatrix o) /\
  PhysicalObject._velocityMatrix o'
  = Mat_mul4 (PhysicalObject._velocityMatrix o)
      (fold_left (Effect.accelerate dt (PhysicalObject._mass o))
         (PhysicalObject._forces o) Mat_identity4) /\
  PhysicalObject._forces o'
  = map (Effect.agedForce dt) (PhysicalObject._forces o) /\
  PhysicalObject._mass o' = PhysicalObject._mass o /\
  PhysicalObject._orientationMatrix o' = PhysicalObject._orientationMatrix o /\
  PhysicalObject._scalingMatrix o' = PhysicalObject._scalingMatrix o /\
  PhysicalObject._angularVelocityMatrix o'
  = PhysicalObject._angularVelocityMatrix o /\
  PhysicalObject._torques o' = PhysicalObject._torques o /\
  PhysicalObject._bodies o' = PhysicalObject._bodies o /\
  PhysicalObject._bodySize o' = PhysicalObject._bodySize o.
Proof.
  cbv zeta. unfold PhysicalObject.integrateForces.
  pose proof (forcesLoop_effect dt (PhysicalObject._forces o) o Mat_identity4)
    as H. cbv zeta in H.
  destruct (PhysicalObject.forcesLoop dt (PhysicalObject._forces o)
              (o, Mat_identity4)) as [fs [o1 acc]].
  cbn [fst snd] in H.
  destruct H as (-> & -> & Hpos & Hm & Ho & Hs & Hv & Hw & Hf & Hq & Hb & Hz).
  cbn. rewrite Hv. repeat split; assumption.
Qed.

Lemma integrateTorques_effect (o : PhysicalObject.t) (dt : float) :
  let o' := PhysicalObject.integrateTorques o dt in
  PhysicalObject._orientationMatrix o'
  = fold_left (Effect.turn dt (PhysicalObject._mass o))
      (PhysicalObject._torques o) (PhysicalObject._orientationMatrix o) /\
  PhysicalObject._angularVelocityMatrix o'
  = Mat_mul4 (PhysicalObject._angularVelocityMatrix o)
      (fold_left (Effect.spinUp dt (PhysicalObject._mass o))
         (PhysicalObject._torques o) Mat_identity4) /\
  PhysicalObject._torques o'
  = map (Effect.agedTorque dt) (PhysicalObject._torques o) /\
  PhysicalObject._mass o' = PhysicalObject._mass o /\
  PhysicalObject._positionMatrix o' = PhysicalObject._positionMatrix o /\
  PhysicalObject._scalingMatrix o' = PhysicalObject._scalingMatrix o /\
  PhysicalObject._velocityMatrix o' = PhysicalObject._velocityMatrix o /\
  PhysicalObject._forces o' = PhysicalObject._forces o /\
  PhysicalObject._bodies o' = PhysicalObject._bodies o /\
  PhysicalObject._bodySize o' = PhysicalObject._bodySize o.
Proof.
  cbv zeta. unfold PhysicalObject.integrateTorques.
  pose proof (torquesLoop_effect dt (PhysicalObject._torques o) o Mat_identity4)
    as H. cbv zeta in H.
  destruct (PhysicalObject.torquesLoop dt (PhysicalObject._torques o)
              (o, Mat_identity4)) as [qs [o1 acc]].
  cbn [fst snd] in H.
  destruct H as (-> & -> & Hori & Hm & Hp & Hs & Hv & Hw & Hf & Hq & Hb & Hz).
  cbn. rewrite Hw. repeat split; assumption.
Qed.

(** Two objects with the same fields are the same object. *)
Lemma object_eq (a b : PhysicalObject.t) :
  PhysicalObject._mass a = PhysicalObject._mass b ->
  PhysicalObject._positionMatrix a = PhysicalObject._positionMatrix b ->
  PhysicalObject._orientationMatrix a = PhysicalObject._orientationMatrix b ->
  PhysicalObject._scalingMatrix a = PhysicalObject._scalingMatrix b ->
  PhysicalObject._rotationMatrixInverse a
  = PhysicalObject._rotationMatrixInverse b ->
  PhysicalObject._modelMatrixInverse a = PhysicalObject._modelMatrixInverse b ->
  PhysicalObject._velocityMatrix a = PhysicalObject._velocityMatrix b ->
  PhysicalObject._angularVelocityMatrix a
  = PhysicalObject._angularVelocityMatrix b ->
  PhysicalObject._forces a = PhysicalObject._forces b ->
  PhysicalObject._torques a = PhysicalObject._torques b ->
  PhysicalObject._bodies a = PhysicalObject._bodies b ->
  PhysicalObject._bodySize a = PhysicalObject._bodySize b ->
  a = b.
Proof. destruct a, b; cbn; intros; subst; reflexivity. Qed.

(** The whole of [simulate(dt)] for [dt > 0], once the 5 ms loop has made
    its rounds: every force and torque acts on its own, in the order of the
    arrays, and is aged; the blocks do not disturb one another. *)
Lemma simulate_stepped (fuel rounds : nat) (o : PhysicalObject.t) (dt : float) :
  Js.gt dt 0 = true ->
  PhysicalObject.angularRounds fuel 0 dt = Some rounds ->
  PhysicalObject.simulate fuel o dt = Some (Effect.stepped rounds o dt).
Proof.
  intros Hdt Hrounds. rewrite (simulate_returns fuel o dt rounds Hdt Hrounds).
  f_equal.
  pose proof (integrateForces_effect (PhysicalObject.linearDrift o dt) dt) as H2.
  cbv zeta in H2.
  destruct H2 as (Hp2 & Hv2 & Hf2 & Hm2 & Ho2 & Hs2 & Hw2 & Hq2 & Hb2 & Hz2).
  pose proof (angularSteps_fields
                (PhysicalObject.integrateForces
                   (PhysicalObject.linearDrift o dt) dt) rounds) as H3.
  cbv zeta in H3.
  destruct H3 as (Ho3 & Hm3 & Hp3 & Hs3 & Hv3 & Hw3 & Hf3 & Hq3 & Hb3 & Hz3).
  pose proof (integrateTorques_effect
                (Nat.iter rounds PhysicalObject.angularStep
                   (PhysicalObject.integrateForces
                      (PhysicalObject.linearDrift o dt) dt)) dt) as H4.
  cbv zeta in H4.
  destruct H4 as (Ho4 & Hw4 & Hq4 & Hm4 & Hp4 & Hs4 & Hv4 & Hf4 & Hb4 & Hz4).
  revert Ho4 Hw4 Hq4 Hm4 Hp4 Hs4 Hv4 Hf4 Hb4 Hz4.
  generalize (PhysicalObject.integrateTorques
                (Nat.iter rounds PhysicalObject.angularStep
                   (PhysicalObject.integrateForces
                      (PhysicalObject.linearDrift o dt) dt)) dt).
  revert Ho3 Hm3 Hp3 Hs3 Hv3 Hw3 Hf3 Hq3 Hb3 Hz3.
  generalize (Nat.iter rounds PhysicalObject.angularStep
                (PhysicalObject.integrateForces
                   (PhysicalObject.linearDrift o dt) dt)).
  revert Hp2 Hv2 Hf2 Hm2 Ho2 Hs2 Hw2 Hq2 Hb2 Hz2.
  generalize (PhysicalObject.integrateForces
                (PhysicalObject.linearDrift o dt) dt).
  intros o2 Hp2 Hv2 Hf2 Hm2 Ho2 Hs2 Hw2 Hq2 Hb2 Hz2
         o3 Ho3 Hm3 Hp3 Hs3 Hv3 Hw3 Hf3 Hq3 Hb3 Hz3
         o4 Ho4 Hw4 Hq4 Hm4 Hp4 Hs4 Hv4 Hf4 Hb4 Hz4.
  cbn in Hp2, Hv2, Hf2, Hm2, Ho2, Hs2, Hw2, Hq2, Hb2, Hz2.
  apply object_eq; cbn;
    rewrite ?Ho4, ?Hw4, ?Hq4, ?Hm4, ?Hp4, ?Hs4, ?Hv4, ?Hf4, ?Hb4, ?Hz4,
            ?Ho3, ?Hm3, ?Hp3, ?Hs3, ?Hv3, ?Hw3, ?Hf3, ?Hq3, ?Hb3, ?Hz3,
            ?Hp2, ?Hv2, ?Hf2, ?Hm2, ?Ho2, ?Hs2, ?Hw2, ?Hq2, ?Hb2, ?Hz2;
    reflexivity.
Qed.

End ClosedForm.

(** ** More on JavaScript numbers *)

Section MoreNumbers.

(** [Math.abs] of any number is not below a number that is at most 0. *)
Lemma abs_not_below (s x : float) :
  (s <=? 0) = true -> (Js.Math_abs x <? s) = false.
Proof.
  unfold Js.Math_abs. rewrite leb_spec, ltb_spec, abs_spec.
  change (Prim2SF 0) with (S754_zero false). unfold SFleb, SFltb.
  destruct (Prim2SF s) as [ss | ss | | ss ms es]; simpl;
    try discriminate; try (destruct ss; discriminate);
    destruct (Prim2SF x) as [sx | sx | | sx mx ex]; simpl; try reflexivity;
    destruct ss; simpl; try reflexivity; discriminate.
Qed.

(** Numbers that compare equal are the same number or are both zeros. *)
Lemma SFcompare_Eq (x y : spec_float) :
  SFcompare x y = Some Eq ->
  x = y \/ (exists s s', x = S754_zero s /\ y = S754_zero s').
Proof.
  destruct x as [sx | sx | | sx mx ex], y as [sy | sy | | sy my ey];
    simpl; intros H; try discriminate H;
    try (destruct sx; discriminate H); try (destruct sy; discriminate H);
    try (right; eauto; fail).
  - destruct sx, sy; try discriminate H; left; reflexivity.
  - change (Pos.compare_cont Eq mx my) with (Pos.compare mx my) in H.
    destruct sx, sy; try discriminate H;
      destruct (ex ?= ey)%Z eqn:He; try discriminate H;
      destruct (mx ?= my)%positive eqn:Hm; try discriminate H;
      left;
      apply Z.compare_eq in He; apply Pos.compare_eq in Hm; subst; reflexivity.
Qed.

(** [Math.min] of a remaining duration above 0.1 and of a step that is at
    least as long is the remaining duration. *)
Lemma Math_min_of_what_is_left (d dt : float) :
  Js.gt d 0.1 = true -> (d <=? dt) = true -> Js.Math_min d dt = d.
Proof.
  intros Hact Hle. unfold Js.Math_min.
  destruct (leb_not_nan d dt Hle) as [Nd Ndt]. rewrite Nd, Ndt. simpl.
  rewrite (leb_not_gt d dt Hle).
  destruct (d <? dt) eqn:Hlt; [reflexivity | ].
  destruct (Js.is_negzero d); [reflexivity | ].
  apply Prim2SF_inj.
  unfold Js.gt in Hact. rewrite ltb_spec in Hact, Hlt. rewrite leb_spec in Hle.
  unfold SFltb, SFleb in *.
  destruct (SFcompare (Prim2SF d) (Prim2SF dt)) as [[ | | ] | ] eqn:Hc;
    try discriminate.
  apply SFcompare_Eq in Hc. destruct Hc as [Heq | (s & s' & Hd & _)].
  - symmetry. exact Heq.
  - rewrite Hd in Hact. vm_compute in Hact. discriminate.
Qed.

(** [Math.max] of a number that is NaN or at least 0 with any number is NaN
    or at least 0. *)
Lemma Math_max_not_negative (a b : float) :
  Js.is_nan a = true \/ (0 <=? a) = true ->
  Js.is_nan (Js.Math_max a b) = true \/ (0 <=? Js.Math_max a b) = true.
Proof.
  intros Ha. unfold Js.Math_max.
  destruct (Js.is_nan a) eqn:Na; [left; reflexivity | ].
  destruct Ha as [Ha | Ha]; [discriminate | ]. simpl.
  destruct (Js.is_nan b) eqn:Nb; [left; reflexivity | ].
  destruct (a <? b) eqn:Hab.
  - right. revert Ha Hab. rewrite !leb_spec, ltb_spec.
    change (Prim2SF 0) with (S754_zero false). unfold SFleb, SFltb.
    destruct (Prim2SF a) as [sa | sa | | sa ma ea],
             (Prim2SF b) as [sb | sb | | sb mb eb];
      simpl; try discriminate; try reflexivity;
      try (destruct sa; simpl; discriminate);
      try (destruct sb; simpl; try discriminate; reflexivity);
      destruct sa, sb; simpl; try discriminate; reflexivity.
  - destruct (b <? a) eqn:Hba; [right; exact Ha | ].
    destruct (Js.is_poszero a); [right; exact Ha | ].
    right. revert Ha Hab Hba. rewrite !leb_spec, !ltb_spec.
    change (Prim2SF 0) with (S754_zero false). unfold SFleb, SFltb.
    rewrite (SFcompare_flip (Prim2SF a) (Prim2SF b)).
    destruct (SFcompare (Prim2SF a) (Prim2SF b)) as [[ | | ] | ] eqn:Hc;
      simpl; try discriminate.
    + apply SFcompare_Eq in Hc.
      destruct Hc as [<- | (s & s' & -> & ->)]; [tauto | reflexivity].
    + revert Na Nb. unfold Js.is_nan.
      rewrite !FloatAxioms.eqb_spec. unfold SFeqb. intros Na Nb.
      destruct (Prim2SF a) as [sa | sa | | sa ma ea],
               (Prim2SF b) as [sb | sb | | sb mb eb];
        simpl in *; try discriminate;
        try (destruct sa; discriminate); try (destruct sb; discriminate);
        try (destruct sa, sb; discriminate).
Qed.

End MoreNumbers.

(** ** simulate as a whole *)

Section WholeStep.
Context {M : MatricesJs}.

Lemma angularLoop_as_rounds (fuel : nat) :
  forall (i dt : float) (o : PhysicalObject.t),
    PhysicalObject.angularLoop fuel i dt o
    = option_map (fun n => Nat.iter n PhysicalObject.angularStep o)
        (PhysicalObject.angularRounds fuel i dt).
Proof.
  induction fuel as [ | fuel IH]; intros i dt o; simpl;
    destruct (i + 2 <? dt); try reflexivity.
  rewrite IH.
  destruct (PhysicalObject.angularRounds fuel (i + 5) dt) as [n | ];
    simpl; [ | reflexivity].
  f_equal. symmetry. exact (Nat.iter_succ_r n _ PhysicalObject.angularStep o).
Qed.

Lemma simulate_form (fuel : nat) (o : PhysicalObject.t) (dt : float) :
  PhysicalObject.simulate fuel o dt
  = if Js.gt dt 0
    then option_map (fun rounds => Effect.stepped rounds o dt)
           (PhysicalObject.angularRounds fuel 0 dt)
    else Some o.
Proof.
  destruct (Js.gt dt 0) eqn:Hdt; [ | apply simulate_not_positive, Hdt].
  destruct (PhysicalObject.angularRounds fuel 0 dt) as [rounds | ] eqn:Hrounds.
  - apply (simulate_stepped fuel rounds o dt Hdt Hrounds).
  - unfold PhysicalObject.simulate, PhysicalObject.angularDrift.
    rewrite Hdt, angularLoop_as_rounds, Hrounds. reflexivity.
Qed.

Lemma linearDrift_frame (o : PhysicalObject.t) (fs : list Force.t)
  (dt : float) :
  PhysicalObject.linearDrift (PhysicalObject.assign_forces o fs) dt
  = PhysicalObject.assign_forces (PhysicalObject.linearDrift o dt) fs.
Proof. destruct o; reflexivity. Qed.

Lemma forceBody_frame (dt : float) (o : PhysicalObject.t) (acc : mat4)
  (fs : list Force.t) (f : Force.t) :
  PhysicalObject.forceBody dt (PhysicalObject.assign_forces o fs, acc) f
  = (fst (PhysicalObject.forceBody dt (o, acc) f),
     (PhysicalObject.assign_forces
        (fst (snd (PhysicalObject.forceBody dt (o, acc) f))) fs,
      snd (snd (PhysicalObject.forceBody dt (o, acc) f)))).
Proof.
  unfold PhysicalObject.forceBody.
  destruct (Force.getExertionDuration f dt) as [ms f'].
  destruct (Js.gt (ms / 1000) 0); destruct o; reflexivity.
Qed.

Lemma forcesLoop_frame (dt : float) (fs : list Force.t)
  (forces : list Force.t) :
  forall (o : PhysicalObject.t) (acc : mat4),
    PhysicalObject.forcesLoop dt forces (PhysicalObject.assign_forces o fs, acc)
    = (fst (PhysicalObject.forcesLoop dt forces (o, acc)),
       (PhysicalObject.assign_forces
          (fst (snd (PhysicalObject.forcesLoop dt forces (o, acc)))) fs,
        snd (snd (PhysicalObject.forcesLoop dt forces (o, acc))))).
Proof.
  induction forces as [ | f forces IH]; intros o acc; [reflexivity | ].
  cbn [PhysicalObject.forcesLoop]. rewrite forceBody_frame.
  destruct (PhysicalObject.forceBody dt (o, acc) f) as [f' [o1 acc1]].
  cbn [fst snd]. rewrite IH.
  destruct (PhysicalObject.forcesLoop dt forces (o1, acc1)) as [fs' [o2 acc2]].
  reflexivity.
Qed.

Lemma angularLoop_frame (fuel : nat) (fs : list Force.t) :
  forall (i dt : float) (o : PhysicalObject.t),
    PhysicalObject.angularLoop fuel i dt (PhysicalObject.assign_forces o fs)
    = option_map (fun o' => PhysicalObject.assign_forces o' fs)
        (PhysicalObject.angularLoop fuel i dt o).
Proof.
  induction fuel as [ | fuel IH]; intros i dt o; simpl;
    destruct (i + 2 <? dt); try reflexivity.
  all: rewrite <- IH; f_equal; destruct o; reflexivity.
Qed.

Lemma torqueBody_frame (dt : float) (o : PhysicalObject.t) (acc : mat4)
  (fs : list Force.t) (q : Torque.t) :
  PhysicalObject.torqueBody dt (PhysicalObject.assign_forces o fs, acc) q
  = (fst (PhysicalObject.torqueBody dt (o, acc) q),
     (PhysicalObject.assign_forces
        (fst (snd (PhysicalObject.torqueBody dt (o, acc) q))) fs,
      snd (snd (PhysicalObject.torqueBody dt (o, acc) q)))).
Proof.
  unfold PhysicalObject.torqueBody.
  destruct (Torque.getExertionDuration q dt) as [ms q'].
  destruct (Js.gt (ms / 1000) 0); destruct o; reflexivity.
Qed.

Lemma torquesLoop_frame (dt : float) (fs : list Force.t)
  (torques : list Torque.t) :
  forall (o : PhysicalObject.t) (acc : mat4),
    PhysicalObject.torquesLoop dt torques
      (PhysicalObject.assign_forces o fs, acc)
    = (fst (PhysicalObject.torquesLoop dt torques (o, acc)),
       (PhysicalObject.assign_forces
          (fst (snd (PhysicalObject.torquesLoop dt torques (o, acc)))) fs,
        snd (snd (PhysicalObject.torquesLoop dt torques (o, acc))))).
Proof.
  induction torques as [ | q torques IH]; intros o acc; [reflexivity | ].
  cbn [PhysicalObject.torquesLoop]. rewrite torqueBody_frame.
  destruct (PhysicalObject.torqueBody dt (o, acc) q) as [q' [o1 acc1]].
  cbn [fst snd]. rewrite IH.
  destruct (PhysicalObject.torquesLoop dt torques (o1, acc1))
    as [qs' [o2 acc2]].
  reflexivity.
Qed.

Lemma integrateTorques_frame (o : PhysicalObject.t) (fs : list Force.t)
  (dt : float) :
  PhysicalObject.integrateTorques (PhysicalObject.assign_forces o fs) dt
  = PhysicalObject.assign_forces (PhysicalObject.integrateTorques o dt) fs.
Proof.
  unfold PhysicalObject.integrateTorques.
  replace (PhysicalObject._torques (PhysicalObject.assign_forces o fs))
    with (PhysicalObject._torques o) by (destruct o; reflexivity).
  rewrite torquesLoop_frame.
  destruct (PhysicalObject.torquesLoop dt (PhysicalObject._torques o)
              (o, Mat_identity4)) as [qs [o1 acc]].
  cbn [fst snd]. destruct o1; reflexivity.
Qed.

Lemma correctInaccuracies_frame (o : PhysicalObject.t) (fs : list Force.t) :
  PhysicalObject.correctInaccuracies (PhysicalObject.assign_forces o fs)
  = PhysicalObject.assign_forces (PhysicalObject.correctInaccuracies o) fs.
Proof. destruct o; reflexivity. Qed.

(** The loop over the references does to the object and to
    [accelerationMatrix] what the loop over Force values does with the
    values of [Shared.asked]. *)
Lemma forcesLoop_asked (dt : float) (forces : list Shared.ref) :
  forall (h : Shared.heap) (st : PhysicalObject.t * mat4),
    snd (Shared.forcesLoop dt forces h st)
    = snd (PhysicalObject.forcesLoop dt (Shared.asked dt h forces) st).
Proof.
  induction forces as [ | r forces IH]; intros h [o acc]; [reflexivity | ].
  cbn [Shared.forcesLoop Shared.asked PhysicalObject.forcesLoop].
  destruct (forceBody_effect dt o acc (Shared.force h r)) as (Hf & _).
  unfold Effect.agedForce in Hf.
  destruct (PhysicalObject.forceBody dt (o, acc) (Shared.force h r))
    as [f' st1].
  cbn [fst] in Hf. subst f'. rewrite IH.
  destruct (PhysicalObject.forcesLoop dt _ st1) as [fs st2]. reflexivity.
Qed.

(** What the loop leaves of the Force objects: the object behind [r] has
    been asked once for every entry that holds [r]. *)
Lemma forcesLoop_heap (dt : float) (forces : list Shared.ref) :
  forall (h : Shared.heap) (st : PhysicalObject.t * mat4) (r : Shared.ref),
    Shared.force (fst (Shared.forcesLoop dt forces h st)) r
    = Nat.iter (count_occ Nat.eq_dec forces r) (Effect.agedForce dt)
        (Shared.force h r) /\
    Shared.next (fst (Shared.forcesLoop dt forces h st)) = Shared.next h.
Proof.
  induction forces as [ | r0 forces IH]; intros h [o acc] r;
    [split; reflexivity | ].
  cbn [Shared.forcesLoop].
  destruct (forceBody_effect dt o acc (Shared.force h r0)) as (Hf & _).
  destruct (PhysicalObject.forceBody dt (o, acc) (Shared.force h r0))
    as [f' st1].
  cbn [fst] in Hf. subst f'.
  destruct (IH (Shared.write h r0 (Effect.agedForce dt (Shared.force h r0)))
              st1 r) as (Hr & Hnext).
  rewrite Hr, Hnext. split; [ | reflexivity].
  cbn [count_occ]. destruct (Nat.eq_dec r0 r) as [-> | Hne].
  - rewrite write_same. symmetry.
    exact (Nat.iter_succ_r _ _ (Effect.agedForce dt) (Shared.force h r)).
  - rewrite write_other by (intros E; apply Hne; symmetry; exact E).
    reflexivity.
Qed.

(** When every entry holds a Force object of its own, the loop finds in each
    entry the value it held before the loop. *)
Lemma asked_own_objects (dt : float) (forces : list Shared.ref) :
  NoDup forces ->
  forall h : Shared.heap, Shared.asked dt h forces = map (Shared.force h) forces.
Proof.
  induction 1 as [ | r forces Hr _ IH]; intros h; [reflexivity | ].
  cbn [Shared.asked map]. rewrite IH. f_equal.
  apply map_ext_in. intros r' Hin. apply write_other.
  intros ->. exact (Hr Hin).
Qed.

(** [Shared.simulate] and [PhysicalObject.simulate]: the step on the
    references does to the other fields what the step on Force values does
    with the values of [Shared.asked] for its array. *)
Lemma simulate_asked (fuel : nat) (h : Shared.heap) (s : Shared.t)
  (dt : float) (fs : list Force.t) :
  option_map
    (fun p => PhysicalObject.assign_forces (Shared.this (snd p)) fs)
    (Shared.simulate fuel h s dt)
  = option_map (fun o => PhysicalObject.assign_forces o fs)
      (PhysicalObject.simulate fuel
         (PhysicalObject.assign_forces (Shared.this s)
            (Shared.asked dt h (Shared._forces s)))
         dt).
Proof.
  unfold Shared.simulate, PhysicalObject.simulate.
  destruct (Js.gt dt 0);
    [ | cbn [option_map snd]; destruct (Shared.this s); reflexivity].
  set (A := Shared.asked dt h (Shared._forces s)).
  rewrite linearDrift_frame.
  set (o1 := PhysicalObject.linearDrift (Shared.this s) dt).
  unfold Shared.integrateForces, PhysicalObject.integrateForces.
  cbn [Shared.this Shared._forces].
  replace (PhysicalObject._forces (PhysicalObject.assign_forces o1 A))
    with A by (destruct o1; reflexivity).
  rewrite forcesLoop_frame.
  pose proof (forcesLoop_asked dt (Shared._forces s) h (o1, Mat_identity4))
    as Hloop.
  fold A in Hloop.
  destruct (Shared.forcesLoop dt (Shared._forces s) h (o1, Mat_identity4))
    as [h' [o1' acc]].
  destruct (PhysicalObject.forcesLoop dt A (o1, Mat_identity4))
    as [F [o1c accc]].
  cbn [fst snd] in *. injection Hloop as <- <-.
  cbn [Shared.this Shared._forces].
  set (o2 := PhysicalObject.assign_velocityMatrix o1' _).
  replace (PhysicalObject.assign_velocityMatrix _ _)
    with (PhysicalObject.assign_forces o2 F)
    by (subst o2; destruct o1'; reflexivity).
  unfold PhysicalObject.angularDrift. rewrite angularLoop_frame.
  destruct (PhysicalObject.angularLoop fuel 0 dt o2) as [o3 | ];
    [ | reflexivity].
  cbn [option_map snd Shared.this].
  rewrite integrateTorques_frame, correctInaccuracies_frame.
  reflexivity.
Qed.

(** What [Shared.simulate] leaves of the array and of the Force objects. *)
Lemma simulate_heap (fuel : nat) (h h' : Shared.heap) (s s' : Shared.t)
  (dt : float) :
  Js.gt dt 0 = true ->
  Shared.simulate fuel h s dt = Some (h', s') ->
  Shared._forces s' = Shared._forces s /\
  Shared.next h' = Shared.next h /\
  forall r,
    Shared.force h' r
    = Nat.iter (Shared.timesHeld s r) (Effect.agedForce dt) (Shared.force h r).
Proof.
  intros Hdt. unfold Shared.simulate, Shared.integrateForces. rewrite Hdt.
  cbn [Shared.this Shared._forces].
  pose proof (forcesLoop_heap dt (Shared._forces s) h
                (PhysicalObject.linearDrift (Shared.this s) dt, Mat_identity4))
    as Hheap.
  destruct (Shared.forcesLoop dt (Shared._forces s) h _) as [h1 [o1 acc]].
  cbn [fst Shared.this Shared._forces] in *.
  destruct (PhysicalObject.angularDrift fuel _ dt); [ | discriminate].
  intros [= <- <-]. cbn [Shared._forces].
  split; [reflexivity | ]. split; [exact (proj2 (Hheap 0%nat)) | ].
  intros r. exact (proj1 (Hheap r)).
Qed.

(** With every entry holding a Force object of its own, the step on the
    references is the step on the Force values. *)
Lemma simulate_view (fuel : nat) (h : Shared.heap) (s : Shared.t)
  (dt : float) :
  NoDup (Shared._forces s) ->
  option_map (fun p => Shared.view (fst p) (snd p))
    (Shared.simulate fuel h s dt)
  = PhysicalObject.simulate fuel (Shared.view h s) dt.
Proof.
  intros Hown.
  destruct (Js.gt dt 0) eqn:Hdt.
  - pose proof (simulate_asked fuel h s dt
                  (map (Effect.agedForce dt) (Shared.entries h s))) as Hasked.
    rewrite (asked_own_objects dt _ Hown) in Hasked.
    fold (Shared.entries h s) in Hasked. fold (Shared.view h s) in Hasked.
    rewrite (simulate_form fuel (Shared.view h s) dt), Hdt in *.
    destruct (Shared.simulate fuel h s dt) as [[h' s'] | ] eqn:Hrun.
    + destruct (simulate_heap fuel h h' s s' dt Hdt Hrun) as (Hrefs & _ & Hheap).
      destruct (PhysicalObject.angularRounds fuel 0 dt) as [rounds | ];
        [ | discriminate].
      cbn [option_map fst snd] in *. f_equal.
      pose proof (f_equal (fun x => match x with
                                    | Some y => y
                                    | None => Shared.view h s
                                    end) Hasked) as Hobject.
      cbv beta iota in Hobject.
      assert (Hentries : Shared.entries h' s'
                         = map (Effect.agedForce dt) (Shared.entries h s)).
      { unfold Shared.entries. rewrite Hrefs, map_map.
        apply map_ext_in. intros r Hin. rewrite Hheap.
        unfold Shared.timesHeld.
        rewrite (proj1 (NoDup_count_occ' Nat.eq_dec (Shared._forces s)) Hown
                   r Hin).
        reflexivity. }
      unfold Shared.view at 1. rewrite Hentries, Hobject.
      reflexivity.
    + destruct (PhysicalObject.angularRounds fuel 0 dt); [discriminate | ].
      reflexivity.
  - unfold Shared.simulate, PhysicalObject.simulate. rewrite Hdt. reflexivity.
Qed.

(** X1.  [simulate(dt)] in closed form, for every object whose array of
    forces holds each Force object once, every [dt] and bound.  For [dt > 0]
    the call returns exactly when the 5 ms loop ends, and then leaves the
    object [Effect.stepped]: the position is the old one times the drift
    translation times one translation per exerted force, in the order of the
    array; the velocity is the old one times the product of the forces'
    velocity translations, straightened; the orientation is the old one
    times the angular velocity matrix once per round, times one rotation per
    exerted torque, corrected; the angular velocity is the old one times the
    product of the torques' rotations, straightened and corrected; every
    force and torque is aged once; both caches are empty; mass, scaling,
    bodies and cached size are the old ones.  Otherwise the object is
    returned as it is.  (An array that holds one Force object twice is
    outside this form: see [simulate_ages_durations].) *)
Theorem simulate_closed_form (fuel : nat) (h : Shared.heap) (s : Shared.t)
  (dt : float) :
  NoDup (Shared._forces s) ->
  option_map (fun p => Shared.view (fst p) (snd p))
    (Shared.simulate fuel h s dt)
  = if Js.gt dt 0
    then option_map (fun rounds => Effect.stepped rounds (Shared.view h s) dt)
           (PhysicalObject.angularRounds fuel 0 dt)
    else Some (Shared.view h s).
Proof.
  intros Hown. rewrite (simulate_view fuel h s dt Hown).
  destruct (Js.gt dt 0) eqn:Hdt;
    [ | apply simulate_not_positive, Hdt].
  destruct (PhysicalObject.angularRounds fuel 0 dt) as [rounds | ] eqn:Hrounds.
  - apply (simulate_stepped fuel rounds (Shared.view h s) dt Hdt Hrounds).
  - unfold PhysicalObject.simulate, PhysicalObject.angularDrift.
    rewrite Hdt, angularLoop_as_rounds, Hrounds. reflexivity.
Qed.

Lemma map_agedForce (dt : float) (forces : list Force.t) :
  map Force._id (map (Effect.agedForce dt) forces) = map Force._id forces /\
  map Force._strength (map (Effect.agedForce dt) forces)
  = map Force._strength forces /\
  map Force._direction (map (Effect.agedForce dt) forces)
  = map Force._direction forces.
Proof.
  rewrite !map_map. repeat split; apply map_ext; intros f;
    apply (agedForce_keeps dt f).
Qed.

Lemma map_agedTorque (dt : float) (torques : list Torque.t) :
  map Torque._id (map (Effect.agedTorque dt) torques) = map Torque._id torques /\
  map Torque._strength (map (Effect.agedTorque dt) torques)
  = map Torque._strength torques /\
  map Torque._axis (map (Effect.agedTorque dt) torques)
  = map Torque._axis torques.
Proof.
  rewrite !map_map. repeat split; apply map_ext; intros q;
    apply (agedTorque_keeps dt q).
Qed.

(** What a returning call leaves, whatever [dt]: the old object or a
    stepped one. *)
Lemma simulate_cases (fuel : nat) (o o' : PhysicalObject.t) (dt : float) :
  PhysicalObject.simulate fuel o dt = Some o' ->
  (Js.gt dt 0 = false /\ o' = o) \/
  (Js.gt dt 0 = true /\ exists rounds,
      PhysicalObject.angularRounds fuel 0 dt = Some rounds /\
      o' = Effect.stepped rounds o dt).
Proof.
  rewrite simulate_form. destruct (Js.gt dt 0).
  - destruct (PhysicalObject.angularRounds fuel 0 dt) as [rounds | ];
      [ | discriminate].
    intros [= <-]. right. split; [reflexivity | ]. exists rounds. auto.
  - intros [= <-]. left. auto.
Qed.

(** X2.  Whenever [simulate(dt)] returns, for any [dt]: mass, scaling
    matrix, bodies and cached size are the old ones, and the arrays of forces
    and torques hold the same entries in the same order as far as ID,
    strength and direction (axis) go.  No force or torque is added, removed
    or moved, an expired one included. *)
Theorem simulate_keeps_structure (fuel : nat) (o o' : PhysicalObject.t)
  (dt : float) :
  PhysicalObject.simulate fuel o dt = Some o' ->
  PhysicalObject._mass o' = PhysicalObject._mass o /\
  PhysicalObject._scalingMatrix o' = PhysicalObject._scalingMatrix o /\
  PhysicalObject._bodies o' = PhysicalObject._bodies o /\
  PhysicalObject._bodySize o' = PhysicalObject._bodySize o /\
  List.length (PhysicalObject._forces o')
  = List.length (PhysicalObject._forces o) /\
  map Force._id (PhysicalObject._forces o')
  = map Force._id (PhysicalObject._forces o) /\
  map Force._strength (PhysicalObject._forces o')
  = map Force._strength (PhysicalObject._forces o) /\
  map Force._direction (PhysicalObject._forces o')
  = map Force._direction (PhysicalObject._forces o) /\
  List.length (PhysicalObject._torques o')
  = List.length (PhysicalObject._torques o) /\
  map Torque._id (PhysicalObject._torques o')
  = map Torque._id (PhysicalObject._torques o) /\
  map Torque._strength (PhysicalObject._torques o')
  = map Torque._strength (PhysicalObject._torques o) /\
  map Torque._axis (PhysicalObject._torques o')
  = map Torque._axis (PhysicalObject._torques o).
Proof.
  intros H.
  destruct (simulate_cases fuel o o' dt H)
    as [[_ ->] | [_ (rounds & _ & ->)]]; [repeat split | ].
  destruct (map_agedForce dt (PhysicalObject._forces o)) as (Hi & Hs & Hd).
  destruct (map_agedTorque dt (PhysicalObject._torques o)) as (Hi' & Hs' & Ha').
  cbn. rewrite !length_map. repeat split; assumption.
Qed.

Lemma simulate_ages_torques (fuel : nat) (o o' : PhysicalObject.t)
  (dt : float) :
  Js.gt dt 0 = true ->
  PhysicalObject.simulate fuel o dt = Some o' ->
  map Torque._duration (PhysicalObject._torques o')
  = map (fun q => if Js.gt (Torque._duration q) 0.1
                  then Torque._duration q - dt else Torque._duration q)
      (PhysicalObject._torques o).
Proof.
  intros Hdt H.
  destruct (simulate_cases fuel o o' dt H)
    as [[Hno _] | [_ (rounds & _ & ->)]]; [congruence | ].
  cbn. rewrite !map_map. apply map_ext.
  intros q. unfold Effect.agedTorque, Torque.getExertionDuration, Js.gt.
  destruct (0.1 <? Torque._duration q); reflexivity.
Qed.

Lemma duration_asked (dt : float) (n : nat) (f : Force.t) :
  Force._duration (Nat.iter n (Effect.agedForce dt) f)
  = Nat.iter n (Shared.aged dt) (Force._duration f).
Proof.
  induction n as [ | n IH]; [reflexivity | ].
  cbn [Nat.iter nat_rect]. fold (Nat.iter n (Effect.agedForce dt) f).
  fold (Nat.iter n (Shared.aged dt) (Force._duration f)).
  rewrite <- IH.
  unfold Effect.agedForce, Force.getExertionDuration, Shared.aged.
  destruct (Js.gt (Force._duration (Nat.iter n _ f)) 0.1); reflexivity.
Qed.

(** X3.  Whenever [simulate(dt)] with [dt > 0] returns, the array holds the
    references it held, and every Force object has been asked for its
    exertion once per entry that holds it: its remaining duration is the old
    one after as many rounds of "minus [dt] if above 0.1 ms" as there are
    such entries.  So a force held by one entry has the old duration minus
    [dt] if that was above 0.1 ms and the old duration otherwise, a Force
    object pushed twice can lose [dt] twice in one step, and a Force object
    that is not in the array keeps its duration.  The remaining duration of
    every torque that was above 0.1 ms is the old one minus [dt], and that
    of every other torque is the old one. *)
Theorem simulate_ages_durations (fuel : nat) (h h' : Shared.heap)
  (s s' : Shared.t) (dt : float) :
  Js.gt dt 0 = true ->
  Shared.simulate fuel h s dt = Some (h', s') ->
  Shared._forces s' = Shared._forces s /\
  (forall r,
      Force._duration (Shared.force h' r)
      = Nat.iter (Shared.timesHeld s r) (Shared.aged dt)
          (Force._duration (Shared.force h r))) /\
  map Torque._duration (PhysicalObject._torques (Shared.this s'))
  = map (fun q => if Js.gt (Torque._duration q) 0.1
                  then Torque._duration q - dt else Torque._duration q)
      (PhysicalObject._torques (Shared.this s)).
Proof.
  intros Hdt Hrun.
  destruct (simulate_heap fuel h h' s s' dt Hdt Hrun) as (Hrefs & _ & Hheap).
  split; [exact Hrefs | ]. split.
  - intros r. rewrite Hheap. apply duration_asked.
  - pose proof (simulate_asked fuel h s dt []) as Hasked.
    rewrite Hrun in Hasked. cbn [option_map snd] in Hasked.
    destruct (PhysicalObject.simulate fuel
                (PhysicalObject.assign_forces (Shared.this s)
                   (Shared.asked dt h (Shared._forces s))) dt)
      as [o' | ] eqn:Hcopy; [ | discriminate].
    pose proof (simulate_ages_torques fuel _ o' dt Hdt Hcopy) as Htorques.
    cbn [option_map] in Hasked.
    pose proof (f_equal (fun x => match x with
                                  | Some y => PhysicalObject._torques y
                                  | None => []
                                  end) Hasked) as Hsame.
    cbv beta iota in Hsame.
    replace (PhysicalObject._torques (Shared.this s'))
      with (PhysicalObject._torques o')
      by (symmetry; destruct (Shared.this s'), o'; exact Hsame).
    rewrite Htorques. destruct (Shared.this s); reflexivity.
Qed.

End WholeStep.

(** ** Expired forces, short steps, partial exertion *)

Section EdgesOfAStep.
Context {M : MatricesJs}.

Lemma expired_force_effect (dt mass : float) (m : mat4) (f : Force.t) :
  Js.gt (Force._duration f) 0.1 = false ->
  Effect.displace dt mass m f = m /\ Effect.accelerate dt mass m f = m /\
  Effect.agedForce dt f = f.
Proof.
  intros H.
  unfold Effect.displace, Effect.accelerate, Effect.forceSeconds,
    Effect.agedForce.
  rewrite (Force_getExertionDuration_expired f dt H). repeat split.
Qed.

Lemma expired_torque_effect (dt mass : float) (m : mat4) (q : Torque.t) :
  Js.gt (Torque._duration q) 0.1 = false ->
  Effect.turn dt mass m q = m /\ Effect.spinUp dt mass m q = m /\
  Effect.agedTorque dt q = q.
Proof.
  intros H.
  unfold Effect.turn, Effect.spinUp, Effect.torqueSeconds, Effect.agedTorque.
  rewrite (Torque_getExertionDuration_expired q dt H). repeat split.
Qed.

Lemma expired_forces_effect (dt mass : float) (forces : list Force.t) :
  Forall (fun f => Js.gt (Force._duration f) 0.1 = false) forces ->
  forall m,
    fold_left (Effect.displace dt mass) forces m = m /\
    fold_left (Effect.accelerate dt mass) forces m = m /\
    map (Effect.agedForce dt) forces = forces.
Proof.
  induction 1 as [ | f forces Hf _ IH]; intros m; [repeat split | ].
  destruct (expired_force_effect dt mass m f Hf) as (Hd & Ha & Hg).
  destruct (IH m) as (IHd & IHa & IHg).
  cbn. rewrite Hd, Ha, Hg, IHd, IHa, IHg. repeat split.
Qed.

Lemma expired_torques_effect (dt mass : float) (torques : list Torque.t) :
  Forall (fun q => Js.gt (Torque._duration q) 0.1 = false) torques ->
  forall m,
    fold_left (Effect.turn dt mass) torques m = m /\
    fold_left (Effect.spinUp dt mass) torques m = m /\
    map (Effect.agedTorque dt) torques = torques.
Proof.
  induction 1 as [ | q torques Hq _ IH]; intros m; [repeat split | ].
  destruct (expired_torque_effect dt mass m q Hq) as (Hd & Ha & Hg).
  destruct (IH m) as (IHd & IHa & IHg).
  cbn. rewrite Hd, Ha, Hg, IHd, IHa, IHg. repeat split.
Qed.

(** X4.  Expired forces and torques are inert.  For an object all of whose
    forces and torques are expired (not above 0.1 ms), [simulate(dt)] does,
    for every [dt] and bound, what it does to the same object with both
    arrays emptied, and leaves the two arrays as they were. *)
Theorem expired_forces_and_torques_are_inert (fuel : nat)
  (o : PhysicalObject.t) (dt : float) :
  Forall (fun f => Js.gt (Force._duration f) 0.1 = false)
    (PhysicalObject._forces o) ->
  Forall (fun q => Js.gt (Torque._duration q) 0.1 = false)
    (PhysicalObject._torques o) ->
  PhysicalObject.simulate fuel o dt
  = option_map
      (fun o' =>
         PhysicalObject.assign_torques
           (PhysicalObject.assign_forces o' (PhysicalObject._forces o))
           (PhysicalObject._torques o))
      (PhysicalObject.simulate fuel
         (PhysicalObject.assign_torques (PhysicalObject.assign_forces o []) [])
         dt).
Proof.
  intros Hforces Htorques. rewrite !simulate_form.
  destruct (Js.gt dt 0); [ | destruct o; reflexivity].
  destruct (PhysicalObject.angularRounds fuel 0 dt) as [rounds | ];
    [ | reflexivity].
  cbn [option_map]. f_equal. unfold Effect.stepped.
  pose proof (expired_forces_effect dt (PhysicalObject._mass o) _ Hforces)
    as HF.
  pose proof (expired_torques_effect dt (PhysicalObject._mass o) _ Htorques)
    as HT.
  apply object_eq; cbn; try reflexivity.
  - apply (HF _).
  - f_equal. apply (HT _).
  - f_equal. f_equal. apply (HF _).
  - f_equal. f_equal. f_equal. apply (HT _).
  - apply (HF Mat_identity4).
  - apply (HT Mat_identity4).
Qed.

Lemma two_is_two : 0 + 2 = 2.
Proof. reflexivity. Qed.

(** X5.  A step of at most 2 ms makes no round of the 5 ms loop: for
    [0 < dt <= 2], [simulate(dt)] returns whatever the bound, and the
    orientation it leaves is the old one times the rotations of the exerted
    torques, corrected; the angular velocity matrix has not turned it. *)
Theorem short_step_skips_angular_drift (fuel : nat) (o : PhysicalObject.t)
  (dt : float) :
  Js.gt dt 0 = true ->
  (dt <=? 2) = true ->
  PhysicalObject.angularRounds fuel 0 dt = Some O /\
  PhysicalObject.angularDrift fuel o dt = Some o /\
  exists o',
    PhysicalObject.simulate fuel o dt = Some o' /\
    PhysicalObject._orientationMatrix o'
    = Mat_correctedOrthogonal4
        (fold_left (Effect.turn dt (PhysicalObject._mass o))
           (PhysicalObject._torques o) (PhysicalObject._orientationMatrix o)).
Proof.
  intros Hdt Hshort.
  assert (Htest : (2 <? dt) = false) by (apply leb_not_gt, Hshort).
  assert (Hrounds : PhysicalObject.angularRounds fuel 0 dt = Some O)
    by (destruct fuel; simpl; rewrite ?two_is_two, Htest; reflexivity).
  split; [exact Hrounds | ]. split.
  - unfold PhysicalObject.angularDrift.
    destruct fuel; simpl; rewrite ?two_is_two, Htest; reflexivity.
  - exists (Effect.stepped 0 o dt). split; [ | reflexivity].
    rewrite simulate_form, Hdt, Hrounds. reflexivity.
Qed.

(** X6.  A force or torque in effect that has no more left than the step
    is exerted for exactly what it has left: [getExertionDuration(dt)]
    returns the remaining duration. *)
Theorem exertion_is_what_is_left (f : Force.t) (q : Torque.t) (dt : float) :
  Js.gt (Force._duration f) 0.1 = true ->
  (Force._duration f <=? dt) = true ->
  Js.gt (Torque._duration q) 0.1 = true ->
  (Torque._duration q <=? dt) = true ->
  fst (Force.getExertionDuration f dt) = Force._duration f /\
  fst (Torque.getExertionDuration q dt) = Torque._duration q.
Proof.
  intros Hf Hfle Hq Hqle.
  rewrite (Force_getExertionDuration_active f dt Hf),
          (Torque_getExertionDuration_active q dt Hq).
  cbn [fst]. split; apply Math_min_of_what_is_left; assumption.
Qed.

(** X7.  An object whose torques are all expired except one, [q], in effect
    with at least [dt] left: for [dt > 0] with [t = dt / 1000] positive and
    the 5 ms loop ending after [rounds] rounds, [simulate(dt)] leaves the
    orientation that the loop produced times the rotation around the axis of
    [q] by [strength / mass * (1/2 * t * t)], corrected, and the angular
    velocity the old one times [identity * rotation by strength / mass *
    (t / 200)], straightened with 0.00002 and corrected. *)
Theorem simulate_single_torque (fuel rounds : nat) (o : PhysicalObject.t)
  (dt : float) (before : list Torque.t) (q : Torque.t) (after : list Torque.t) :
  PhysicalObject._torques o = before ++ q :: after ->
  Forall (fun g => Js.gt (Torque._duration g) 0.1 = false) before ->
  Forall (fun g => Js.gt (Torque._duration g) 0.1 = false) after ->
  Js.gt (Torque._duration q) 0.1 = true ->
  (dt <=? Torque._duration q) = true ->
  Js.gt dt 0 = true ->
  Js.gt (dt / 1000) 0 = true ->
  PhysicalObject.angularRounds fuel 0 dt = Some rounds ->
  let t := dt / 1000 in
  let k := Torque._strength q / PhysicalObject._mass o in
  exists o',
    PhysicalObject.simulate fuel o dt = Some o' /\
    PhysicalObject._orientationMatrix o'
    = Mat_correctedOrthogonal4
        (Mat_mul4
           (Nat.iter rounds
              (fun m => Mat_mul4 m (PhysicalObject._angularVelocityMatrix o))
              (PhysicalObject._orientationMatrix o))
           (Mat_rotation4 (Torque._axis q) (k * (1 / 2 * t * t)))) /\
    PhysicalObject._angularVelocityMatrix o'
    = Mat_correctedOrthogonal4
        (Mat_straightened
           (Mat_mul4 (PhysicalObject._angularVelocityMatrix o)
              (Mat_mul4 Mat_identity4
                 (Mat_rotation4 (Torque._axis q) (k * (t / 200)))))
           0.00002).
Proof.
  intros Htorques Hbefore Hafter Hactive Hcovers Hdt Ht Hrounds t k.
  exists (Effect.stepped rounds o dt).
  split; [rewrite simulate_form, Hdt, Hrounds; reflexivity | ].
  assert (Hms : fst (Torque.getExertionDuration q dt) = dt).
  { rewrite (Torque_getExertionDuration_active q dt Hactive). cbn [fst].
    apply Math_min_of_covered_step; assumption. }
  assert (Hturn : forall m,
             Effect.turn dt (PhysicalObject._mass o) m q
             = Mat_mul4 m (Mat_rotation4 (Torque._axis q) (k * (1 / 2 * t * t)))).
  { intros m. unfold Effect.turn, Effect.torqueSeconds. rewrite Hms, Ht.
    reflexivity. }
  assert (Hspin : forall m,
             Effect.spinUp dt (PhysicalObject._mass o) m q
             = Mat_mul4 m (Mat_rotation4 (Torque._axis q) (k * (t / 200)))).
  { intros m. unfold Effect.spinUp, Effect.torqueSeconds. rewrite Hms, Ht.
    reflexivity. }
  cbn. rewrite Htorques, !fold_left_app. cbn [fold_left].
  pose proof (expired_torques_effect dt (PhysicalObject._mass o) _ Hbefore)
    as HB.
  pose proof (expired_torques_effect dt (PhysicalObject._mass o) _ Hafter)
    as HA.
  rewrite (proj1 (HB _)), (proj1 (proj2 (HB _))), Hturn, Hspin.
  rewrite (proj1 (HA _)), (proj1 (proj2 (HA _))).
  split; reflexivity.
Qed.

End EdgesOfAStep.

(** ** Hit checks *)

Section MoreHitChecks.
Context {M : MatricesJs}.

(** [Math.abs] of any number is not below a number that is not above 0. *)
Lemma abs_not_below_unless_positive (s x : float) :
  Js.gt s 0 = false -> (Js.Math_abs x <? s) = false.
Proof.
  unfold Js.gt, Js.Math_abs. rewrite !ltb_spec, abs_spec.
  change (Prim2SF 0) with (S754_zero false). unfold SFltb.
  destruct (Prim2SF s) as [ss | ss | | ss ms es]; simpl;
    try (destruct ss; discriminate);
    destruct (Prim2SF x) as [sx | sx | | sx mx ex]; simpl; try reflexivity;
    destruct ss; simpl; try reflexivity; discriminate.
Qed.

(** X8.  An object whose cached size is not above 0 (0, negative or NaN)
    is never hit: for every point, [checkHit] returns false and calls no
    body's [checkHit].  The constructor leaves the size 0 when it is given no
    bodies or an empty array. *)
Theorem object_without_size_is_never_hit (o : PhysicalObject.t)
  (positionVector : list float) :
  Js.gt (PhysicalObject._bodySize o) 0 = false ->
  PhysicalObject.result (PhysicalObject.checkHit o positionVector) = false /\
  PhysicalObject.called (PhysicalObject.checkHit o positionVector) = [] /\
  forall mass positionMatrix orientationMatrix scalingMatrix velocityMatrix,
    PhysicalObject._bodySize
      (PhysicalObject.new mass positionMatrix orientationMatrix scalingMatrix
         velocityMatrix None) = 0 /\
    PhysicalObject._bodySize
      (PhysicalObject.new mass positionMatrix orientationMatrix scalingMatrix
         velocityMatrix (Some [])) = 0.
Proof.
  intros Hsize.
  assert (Hfar : PhysicalObject.closeEnough o
                   (Caller.relativePosition o positionVector) = false).
  { unfold PhysicalObject.closeEnough.
    rewrite (abs_not_below_unless_positive _ _ Hsize). reflexivity. }
  rewrite checkHit_unfold. cbv zeta. rewrite Hfar.
  repeat split.
Qed.

(** The fold of [_calculateBodySize] keeps a size that is NaN or at least
    0 so. *)
Lemma bodySizeStep_not_negative (orientationMatrix : mat4) (size : float)
  (b : Body.t) :
  Js.is_nan size = true \/ (0 <=? size) = true ->
  Js.is_nan (PhysicalObject.bodySizeStep orientationMatrix size b) = true \/
  (0 <=? PhysicalObject.bodySizeStep orientationMatrix size b) = true.
Proof.
  intros H. unfold PhysicalObject.bodySizeStep. cbv zeta.
  repeat apply Math_max_not_negative. exact H.
Qed.

Lemma fold_left_step {A B : Type} (f : A -> B -> A) (b : B) (l : list B)
  (a : A) :
  fold_left f (b :: l) a = fold_left f l (f a b).
Proof. reflexivity. Qed.

Lemma fold_bodySizeStep_not_negative (orientationMatrix : mat4)
  (bodies : list Body.t) :
  forall size,
    Js.is_nan size = true \/ (0 <=? size) = true ->
    Js.is_nan
      (fold_left (PhysicalObject.bodySizeStep orientationMatrix) bodies size)
    = true \/
    (0 <=? fold_left (PhysicalObject.bodySizeStep orientationMatrix) bodies size)
    = true.
Proof.
  induction bodies as [ | b bodies IH]; intros size Hsize; [exact Hsize | ].
  rewrite !fold_left_step. apply IH, bodySizeStep_not_negative, Hsize.
Qed.

Lemma bodySize_assign (o : PhysicalObject.t) (size : float) :
  PhysicalObject._bodySize (PhysicalObject.assign_bodySize o size) = size.
Proof. reflexivity. Qed.

Lemma zero_is_not_negative : (0 <=? 0) = true.
Proof. reflexivity. Qed.

(** X9.  The size that [_calculateBodySize] caches is NaN or at least 0,
    whatever the bodies: the -1 the constructor starts from never stays, and
    no negative size is ever cached. *)
Theorem cached_size_is_not_negative (o : PhysicalObject.t) :
  Js.is_nan (PhysicalObject._bodySize (PhysicalObject._calculateBodySize o))
  = true \/
  (0 <=? PhysicalObject._bodySize (PhysicalObject._calculateBodySize o)) = true.
Proof.
  unfold PhysicalObject._calculateBodySize. rewrite bodySize_assign.
  apply fold_bodySizeStep_not_negative. right. exact zero_is_not_negative.
Qed.

(** *** The caches of the bodies *)

Lemma Body_checkHit_fresh (b : Body.t) (relativePos : list float) :
  Use.freshBody b ->
  fst (Body.checkHit b relativePos) = Use.within relativePos b /\
  Use.freshBody (snd (Body.checkHit b relativePos)) /\
  Use.box (snd (Body.checkHit b relativePos)) = Use.box b.
Proof.
  intros Hfresh.
  assert (Hinverse : fst (Body.getModelMatrixInverse b) = Use.bodyInverse b).
  { unfold Body.getModelMatrixInverse.
    destruct Hfresh as [H | H]; rewrite H; reflexivity. }
  unfold Body.checkHit.
  destruct (Body.getModelMatrixInverse b) as [inverse b'] eqn:Hget.
  cbn [fst snd] in *. subst inverse.
  unfold Body.getModelMatrixInverse in Hget.
  injection Hget as Hm <-.
  repeat split.
  right. cbn. rewrite Hm. reflexivity.
Qed.

Lemma within_box (relativePos : list float) (b b' : Body.t) :
  Use.box b' = Use.box b ->
  Use.within relativePos b' = Use.within relativePos b.
Proof.
  unfold Use.box. intros [= Hp Ho Hw Hh Hd].
  unfold Use.within, Use.bodyInverse, Body.insideBox.
  rewrite Hp, Ho, Hw, Hh, Hd. reflexivity.
Qed.

Lemma existsb_within_boxes (relativePos : list float) (bodies : list Body.t) :
  forall bodies',
    map Use.box bodies' = map Use.box bodies ->
    existsb (Use.within relativePos) bodies'
    = existsb (Use.within relativePos) bodies.
Proof.
  induction bodies as [ | b bodies IH]; intros [ | b' bodies'] H;
    try discriminate; [reflexivity | ].
  cbn [map] in H.
  assert (Hb : Use.box b' = Use.box b) by congruence.
  assert (Hrest : map Use.box bodies' = map Use.box bodies) by congruence.
  cbn [existsb].
  rewrite (within_box relativePos b b' Hb), (IH bodies' Hrest). reflexivity.
Qed.

Lemma checkBodies_fresh (relativePos : list float) (bodies : list Body.t) :
  Forall Use.freshBody bodies ->
  fst (fst (PhysicalObject.checkBodies bodies relativePos))
  = existsb (Use.within relativePos) bodies /\
  Forall Use.freshBody (snd (fst (PhysicalObject.checkBodies bodies relativePos))) /\
  map Use.box (snd (fst (PhysicalObject.checkBodies bodies relativePos)))
  = map Use.box bodies.
Proof.
  induction 1 as [ | b bodies Hb Hbodies IH]; [repeat split; constructor | ].
  cbn [PhysicalObject.checkBodies existsb map].
  destruct (Body_checkHit_fresh b relativePos Hb) as (Hhit & Hfresh & Hbox).
  destruct (Body.checkHit b relativePos) as [hit b']. cbn [fst snd] in *.
  rewrite <- Hhit. destruct hit; cbn [fst snd orb].
  - repeat split; [constructor; assumption | cbn; rewrite Hbox; reflexivity].
  - destruct (PhysicalObject.checkBodies bodies relativePos)
      as [[r rest'] called].
    cbn [fst snd] in *. destruct IH as (-> & IHfresh & IHbox).
    repeat split; [constructor; assumption | ].
    cbn. rewrite Hbox, IHbox. reflexivity.
Qed.

(** With fresh caches in the object and in its bodies, the answer of
    [checkHit] is [Use.isHit], and the call keeps the caches fresh and the
    matrices, the size and the boxes as they are. *)
Lemma checkHit_fresh (o : PhysicalObject.t) (positionVector : list float) :
  Caller.freshCaches o ->
  Forall Use.freshBody (PhysicalObject._bodies o) ->
  let o' := PhysicalObject.this (PhysicalObject.checkHit o positionVector) in
  PhysicalObject.result (PhysicalObject.checkHit o positionVector)
  = Use.isHit o positionVector /\
  Caller.freshCaches o' /\
  Forall Use.freshBody (PhysicalObject._bodies o') /\
  map Use.box (PhysicalObject._bodies o')
  = map Use.box (PhysicalObject._bodies o) /\
  PhysicalObject._positionMatrix o' = PhysicalObject._positionMatrix o /\
  PhysicalObject._orientationMatrix o' = PhysicalObject._orientationMatrix o /\
  PhysicalObject._scalingMatrix o' = PhysicalObject._scalingMatrix o /\
  PhysicalObject._bodySize o' = PhysicalObject._bodySize o.
Proof.
  intros Hfresh Hbodies. cbv zeta.
  pose proof (freshCaches_checkHit o positionVector Hfresh) as Hfresh'.
  revert Hfresh'. unfold Use.isHit.
  rewrite <- (relativePosition_fresh o positionVector Hfresh).
  rewrite checkHit_unfold. cbv zeta.
  destruct (checkBodies_fresh (Caller.relativePosition o positionVector)
              (PhysicalObject._bodies o) Hbodies) as (Hhit & Hfb & Hbox).
  assert (Hkeep : forall o1,
             o1 = snd (PhysicalObject.getModelMatrixInverse o) ->
             PhysicalObject._positionMatrix o1 = PhysicalObject._positionMatrix o /\
             PhysicalObject._orientationMatrix o1
             = PhysicalObject._orientationMatrix o /\
             PhysicalObject._scalingMatrix o1 = PhysicalObject._scalingMatrix o /\
             PhysicalObject._bodySize o1 = PhysicalObject._bodySize o /\
             PhysicalObject._bodies o1 = PhysicalObject._bodies o).
  { intros o1 ->. unfold PhysicalObject.getModelMatrixInverse.
    destruct (PhysicalObject._modelMatrixInverse o); repeat split. }
  destruct (Hkeep _ eq_refl) as (Hp & Ho & Hs & Hz & Hb).
  destruct (PhysicalObject.closeEnough o
              (Caller.relativePosition o positionVector));
    cbn [PhysicalObject.result PhysicalObject.this andb]; intros Hfresh'.
  - rewrite Hhit.
    refine (conj eq_refl (conj Hfresh' (conj _ (conj _ (conj _ (conj _
              (conj _ _)))))));
      cbn [PhysicalObject.assign_bodies PhysicalObject._bodies
           PhysicalObject._positionMatrix PhysicalObject._orientationMatrix
           PhysicalObject._scalingMatrix PhysicalObject._bodySize];
      assumption.
  - rewrite Hb.
    refine (conj eq_refl (conj Hfresh' (conj Hbodies (conj eq_refl
              (conj Hp (conj Ho (conj Hs Hz))))))).
Qed.

(** X10.  Hit checks do not disturb one another.  For an object whose
    caches and whose bodies' caches are fresh (empty, or holding the inverse
    of the current matrices), the answer of [checkHit] is a function of the
    position, orientation and scaling matrices, the cached size and the
    boxes alone, and a [checkHit] made before, for whatever point, does not
    change it. *)
Theorem checkHit_answers_do_not_depend_on_earlier_checks
  (o : PhysicalObject.t) (earlier positionVector : list float) :
  Caller.freshCaches o ->
  Forall Use.freshBody (PhysicalObject._bodies o) ->
  PhysicalObject.result (PhysicalObject.checkHit o positionVector)
  = Use.isHit o positionVector /\
  PhysicalObject.result
    (PhysicalObject.checkHit
       (PhysicalObject.this (PhysicalObject.checkHit o earlier))
       positionVector)
  = PhysicalObject.result (PhysicalObject.checkHit o positionVector).
Proof.
  intros Hfresh Hbodies.
  destruct (checkHit_fresh o positionVector Hfresh Hbodies) as (Hanswer & _).
  destruct (checkHit_fresh o earlier Hfresh Hbodies)
    as (_ & Hfresh1 & Hbodies1 & Hbox & Hp & Ho & Hs & Hz).
  destruct (checkHit_fresh _ positionVector Hfresh1 Hbodies1) as (Hanswer1 & _).
  split; [exact Hanswer | ].
  rewrite Hanswer1, Hanswer. unfold Use.isHit, Caller.modelInverse,
    PhysicalObject.closeEnough.
  rewrite Hp, Ho, Hs, Hz. f_equal.
  apply existsb_within_boxes, Hbox.
Qed.

End MoreHitChecks.

(** ** Every method keeps the caches fresh *)

Section EveryMethod.
Context {M : MatricesJs}.

Lemma wellCached_as_fields (o o' : PhysicalObject.t) :
  Use.wellCached o ->
  PhysicalObject._positionMatrix o' = PhysicalObject._positionMatrix o ->
  PhysicalObject._orientationMatrix o' = PhysicalObject._orientationMatrix o ->
  PhysicalObject._scalingMatrix o' = PhysicalObject._scalingMatrix o ->
  PhysicalObject._rotationMatrixInverse o'
  = PhysicalObject._rotationMatrixInverse o ->
  PhysicalObject._modelMatrixInverse o' = PhysicalObject._modelMatrixInverse o ->
  PhysicalObject._bodies o' = PhysicalObject._bodies o ->
  Use.wellCached o'.
Proof.
  intros [[Hrot Hmodel] Hbodies] Hp Ho Hs Hr Hm Hb.
  unfold Use.wellCached, Caller.freshCaches, Caller.rotationInverse,
    Caller.modelInverse.
  rewrite Hp, Ho, Hs, Hr, Hm, Hb. auto.
Qed.

Lemma addOrRenewForce_fields (o : PhysicalObject.t) forceID strength
  direction duration :
  exists forces,
    PhysicalObject.addOrRenewForce o forceID strength direction duration
    = PhysicalObject.assign_forces o forces.
Proof.
  unfold PhysicalObject.addOrRenewForce, PhysicalObject.addForce.
  destruct (PhysicalObject.renewFirstForce _ _ _ _ _); eauto.
Qed.

Lemma addOrRenewTorque_fields (o : PhysicalObject.t) torqueID strength
  axis duration :
  exists torques,
    PhysicalObject.addOrRenewTorque o torqueID strength axis duration
    = PhysicalObject.assign_torques o torques.
Proof.
  unfold PhysicalObject.addOrRenewTorque, PhysicalObject.addTorque.
  destruct (PhysicalObject.renewFirstTorque _ _ _ _ _); eauto.
Qed.

Lemma wellCached_perform (o o' : PhysicalObject.t) (c : Use.call) :
  Use.wellCached o -> Use.perform o c = Some o' -> Use.wellCached o'.
Proof.
  intros Hwell. pose proof Hwell as [Hfresh Hbodies].
  destruct c; cbn [Use.perform].
  - intros [= <-]. split; [apply freshCaches_setPositionMatrix, Hfresh | exact Hbodies].
  - intros [= <-]. split; [apply freshCaches_setOrientationMatrix | exact Hbodies].
  - intros [= <-].
    split; [apply freshCaches_getRotationMatrixInverse, Hfresh | exact Hbodies].
  - intros [= <-]. split; [apply freshCaches_getModelMatrixInverse, Hfresh | ].
    rewrite (proj2 (getModelMatrixInverse_keeps o)). exact Hbodies.
  - intros [= <-]. apply (wellCached_as_fields o); auto.
  - intros [= <-]. apply (wellCached_as_fields o); auto.
  - intros [= <-].
    destruct (addOrRenewForce_fields o forceID strength direction duration)
      as [forces ->].
    apply (wellCached_as_fields o); auto.
  - intros [= <-].
    destruct (addOrRenewTorque_fields o torqueID strength axis duration)
      as [torques ->].
    apply (wellCached_as_fields o); auto.
  - intros [= <-].
    destruct (checkHit_fresh o positionVector Hfresh Hbodies)
      as (_ & Hfresh' & Hbodies' & _).
    split; assumption.
  - intros Hsim. split; [apply (freshCaches_simulate fuel o o' dt Hfresh Hsim) | ].
    destruct (simulate_cases fuel o o' dt Hsim)
      as [[_ ->] | [_ (rounds & _ & ->)]]; exact Hbodies.
Qed.

Lemma wellCached_performAll (calls : list Use.call) :
  forall o o',
    Use.wellCached o -> Use.performAll o calls = Some o' -> Use.wellCached o'.
Proof.
  induction calls as [ | c calls IH]; intros o o' Hwell; cbn [Use.performAll].
  - intros [= <-]. exact Hwell.
  - destruct (Use.perform o c) as [o1 | ] eqn:Hc; [ | discriminate].
    apply IH, (wellCached_perform o o1 c Hwell Hc).
Qed.

(** X11.  Every method keeps the caches consistent.  Take an object as the
    constructor leaves it, given bodies with fresh caches, and make any
    sequence of calls of [setPositionMatrix], [setOrientationMatrix], the
    two getters, [addForce], [addTorque], [addOrRenewForce],
    [addOrRenewTorque], [checkHit] and [simulate] that returns.  Then the two
    getters return the inverses of the matrices the object holds now, every
    body's cache is still fresh, and [checkHit] answers [Use.isHit]. *)
Theorem every_method_keeps_the_caches_fresh
  (mass : float)
  (positionMatrix orientationMatrix scalingMatrix initialVelocityMatrix : mat4)
  (bodies : list Body.t) (calls : list Use.call) (o' : PhysicalObject.t) :
  Forall Use.freshBody bodies ->
  Use.performAll
    (PhysicalObject.new mass positionMatrix orientationMatrix scalingMatrix
       initialVelocityMatrix (Some bodies)) calls = Some o' ->
  fst (PhysicalObject.getModelMatrixInverse o')
  = Mat_mul4
      (Mat_mul4 (Mat_inverseOfTranslation4 (PhysicalObject._positionMatrix o'))
         (Mat_inverseOfRotation4 (PhysicalObject._orientationMatrix o')))
      (Mat_inverseOfScaling4 (PhysicalObject._scalingMatrix o')) /\
  fst (PhysicalObject.getRotationMatrixInverse o')
  = Mat_inverseOfRotation4 (PhysicalObject._orientationMatrix o') /\
  Forall Use.freshBody (PhysicalObject._bodies o') /\
  forall positionVector,
    PhysicalObject.result (PhysicalObject.checkHit o' positionVector)
    = Use.isHit o' positionVector.
Proof.
  intros Hbodies Hcalls.
  assert (Hstart : Use.wellCached
                     (PhysicalObject.new mass positionMatrix orientationMatrix
                        scalingMatrix initialVelocityMatrix (Some bodies)))
    by (split; [apply freshCaches_new | exact Hbodies]).
  destruct (wellCached_performAll calls _ o' Hstart Hcalls) as [Hfresh Hfb].
  split; [apply (getModelMatrixInverse_fresh o' Hfresh) | ].
  split; [apply (getRotationMatrixInverse_fresh o' Hfresh) | ].
  split; [exact Hfb | ].
  intros positionVector.
  apply (checkHit_fresh o' positionVector Hfresh Hfb).
Qed.

(** X12.  [addOrRenewTorque] on an object with no torque of the ID appends
    one Torque holding the normalized axis; a second call with the same ID
    renews that torque in place, and then it holds the strength, the
    duration and the axis of the second call, the axis as it was passed. *)
Theorem addOrRenewTorque_twice (o : PhysicalObject.t) (torqueID : string)
  (strength : float) (axis : list float) (duration : float)
  (strength' : float) (axis' : list float) (duration' : float) :
  Forall (fun g => Torque.getID g <> torqueID) (PhysicalObject._torques o) ->
  PhysicalObject._torques
    (PhysicalObject.addOrRenewTorque o torqueID strength axis duration)
  = PhysicalObject._torques o
    ++ [{| Torque._id := torqueID; Torque._strength := strength;
           Torque._axis := Vec_normal3 axis; Torque._duration := duration |}]
  /\
  PhysicalObject._torques
    (PhysicalObject.addOrRenewTorque
       (PhysicalObject.addOrRenewTorque o torqueID strength axis duration)
       torqueID strength' axis' duration')
  = PhysicalObject._torques o
    ++ [{| Torque._id := torqueID; Torque._strength := strength';
           Torque._axis := axis'; Torque._duration := duration' |}].
Proof.
  intros Hnone.
  destruct (addOrRenewTorque_first_match o torqueID strength axis duration)
    as [_ Hfirst].
  specialize (Hfirst Hnone). split; [exact Hfirst | ].
  destruct (addOrRenewTorque_first_match
              (PhysicalObject.addOrRenewTorque o torqueID strength axis duration)
              torqueID strength' axis' duration') as [Hsecond _].
  apply (Hsecond (PhysicalObject._torques o)
           (Torque.new torqueID strength axis duration) [] Hfirst Hnone eq_refl).
Qed.

End EveryMethod.

(** ** The properties above on concrete objects *)

Section MoreConcrete.
#[local] Existing Instance Matrices.implementation.

Local Open Scope string_scope.

(** A 16 ms step of [Cases.busy] keeps its two forces and two torques. *)
Lemma simulate_keeps_structure_witness :
  exists o',
    PhysicalObject.simulate 3 Cases.busy 16 = Some o' /\
    PhysicalObject._mass o' = 2 /\
    map Force._id (PhysicalObject._forces o') = ["burst"; "thrust"] /\
    map Torque._id (PhysicalObject._torques o') = ["twist"; "spin"].
Proof.
  assert (H : PhysicalObject.simulate 3 Cases.busy 16
              = Some (Effect.stepped 3 Cases.busy 16))
    by (vm_compute; reflexivity).
  destruct (simulate_keeps_structure 3 Cases.busy _ 16 H)
    as (Hm & _ & _ & _ & _ & Hf & _ & _ & _ & Hq & _).
  exists (Effect.stepped 3 Cases.busy 16).
  split; [exact H | ]. rewrite Hm, Hf, Hq. repeat split.
Defined.

(** A step of 16 ms of [Scenario.heldTwice], whose two entries hold one
    Force object with 20 ms left: the object is asked twice and is left with
    -12 ms. *)
Lemma simulate_ages_durations_witness :
  exists h' s',
    Shared.simulate 3 Scenario.oneThrust Scenario.heldTwice 16 = Some (h', s') /\
    Shared.timesHeld Scenario.heldTwice Scenario.thrust = 2%nat /\
    Force._duration (Shared.force h' Scenario.thrust) = -12.
Proof.
  destruct (Shared.simulate 3 Scenario.oneThrust Scenario.heldTwice 16)
    as [[h' s'] | ] eqn:Hrun; [ | vm_compute in Hrun; discriminate].
  destruct (simulate_ages_durations 3 Scenario.oneThrust h'
              Scenario.heldTwice s' 16 eq_refl Hrun) as (_ & Hduration & _).
  exists h', s'. split; [reflexivity | ]. split; [reflexivity | ].
  rewrite Hduration. vm_compute. reflexivity.
Defined.

(** A step of 16 ms of [Cases.pulled], whose two entries hold two Force
    objects. *)
Lemma simulate_closed_form_witness :
  option_map (fun p => Shared.view (fst p) (snd p))
    (Shared.simulate 3 Cases.twoForces Cases.pulled 16)
  = Some (Effect.stepped 3 (Shared.view Cases.twoForces Cases.pulled) 16).
Proof.
  rewrite (simulate_closed_form 3 Cases.twoForces Cases.pulled 16).
  - reflexivity.
  - repeat constructor; simpl; intuition discriminate.
Defined.

(** One second of [Cases.coasting], whose force and torque are expired. *)
Lemma expired_forces_and_torques_are_inert_witness :
  PhysicalObject.simulate 200 Cases.coasting 1000
  = option_map
      (fun o' =>
         PhysicalObject.assign_torques
           (PhysicalObject.assign_forces o' [Scenario.spentForce])
           [Scenario.spentTorque])
      (PhysicalObject.simulate 200 Scenario.drifter 1000).
Proof.
  apply (expired_forces_and_torques_are_inert 200 Cases.coasting 1000).
  - repeat constructor.
  - repeat constructor.
Defined.

(** A step of 1.5 ms of [Cases.busy] with the bound 0. *)
Lemma short_step_skips_angular_drift_witness :
  PhysicalObject.angularRounds 0 0 1.5 = Some O /\
  exists o', PhysicalObject.simulate 0 Cases.busy 1.5 = Some o'.
Proof.
  destruct (short_step_skips_angular_drift 0 Cases.busy 1.5 eq_refl eq_refl)
    as (Hrounds & _ & o' & Hsimulate & _).
  split; [exact Hrounds | ]. exists o'. exact Hsimulate.
Defined.

(** A force and a torque with 50 ms left, asked about a step of 100 ms. *)
Lemma exertion_is_what_is_left_witness :
  fst (Force.getExertionDuration Cases.fading 100) = 50 /\
  fst (Torque.getExertionDuration Cases.fadingTorque 100) = 50.
Proof.
  apply (exertion_is_what_is_left Cases.fading Cases.fadingTorque 100);
    reflexivity.
Defined.

(** A 16 ms step of [Cases.twisted]. *)
Lemma simulate_single_torque_witness :
  exists o',
    PhysicalObject.simulate 3 Cases.twisted 16 = Some o' /\
    PhysicalObject._orientationMatrix o'
    = Matrices.correctedOrthogonal4
        (Matrices.mul4 Matrices.identity4
           (Matrices.rotation4 [0; 0; 1] (2 / 2 * (1 / 2 * 0.016 * 0.016)))).
Proof.
  destruct (simulate_single_torque 3 3 Cases.twisted 16 []
              (Torque.new "twist" 2 [0; 0; 1] 100) []
              eq_refl (Forall_nil _) (Forall_nil _)
              eq_refl eq_refl eq_refl eq_refl eq_refl)
    as (o' & Hsimulate & Horientation & _).
  exists o'. split; [exact Hsimulate | ].
  rewrite Horientation. vm_compute. reflexivity.
Defined.

(** [Scenario.drifter] has no bodies. *)
Lemma object_without_size_is_never_hit_witness :
  PhysicalObject.result (PhysicalObject.checkHit Scenario.drifter [10; 20; 30])
  = false.
Proof.
  apply (object_without_size_is_never_hit Scenario.drifter [10; 20; 30]).
  reflexivity.
Defined.

(** A check of the cube's centre after a check of a far point. *)
Lemma checkHit_answers_do_not_depend_on_earlier_checks_witness :
  PhysicalObject.result
    (PhysicalObject.checkHit
       (PhysicalObject.this
          (PhysicalObject.checkHit Scenario.cubeObject [10; 0; 0]))
       [0; 0; 0])
  = PhysicalObject.result (PhysicalObject.checkHit Scenario.cubeObject [0; 0; 0]).
Proof.
  apply (checkHit_answers_do_not_depend_on_earlier_checks
           Scenario.cubeObject [10; 0; 0] [0; 0; 0]).
  - split; left; reflexivity.
  - repeat constructor.
Defined.

(** [Cases.session] on the cube: the object has moved to about
    (5.0005, 0, 0), and the inverse model matrix read last moves back by as
    much. *)
Lemma every_method_keeps_the_caches_fresh_witness :
  Use.performAll Scenario.cubeObject Cases.session = Some Cases.afterSession /\
  fst (PhysicalObject.getModelMatrixInverse Cases.afterSession)
  = Matrices.mul4
      (Matrices.mul4
         (Matrices.inverseOfTranslation4
            (PhysicalObject._positionMatrix Cases.afterSession))
         Matrices.identity4)
      Matrices.identity4.
Proof.
  assert (H : Use.performAll Scenario.cubeObject Cases.session
              = Some Cases.afterSession) by (vm_compute; reflexivity).
  assert (Hbodies : Forall Use.freshBody [Scenario.cube])
    by (constructor; [left; reflexivity | constructor]).
  split; [exact H | ].
  destruct (every_method_keeps_the_caches_fresh 1 Mat_identity4
              Mat_identity4 Mat_identity4 Mat_identity4
              [Scenario.cube] Cases.session Cases.afterSession Hbodies H)
    as (Hmodel & _).
  rewrite Hmodel. vm_compute. reflexivity.
Defined.

(** Two calls of [addOrRenewTorque] on [Scenario.drifter]. *)
Lemma addOrRenewTorque_twice_witness :
  PhysicalObject._torques
    (PhysicalObject.addOrRenewTorque
       (PhysicalObject.addOrRenewTorque Scenario.drifter "twist" 2 [0; 0; 2] 100)
       "twist" 3 [0; 2; 0] 40)
  = [{| Torque._id := "twist"; Torque._strength := 3;
        Torque._axis := [0; 2; 0]; Torque._duration := 40 |}].
Proof.
  apply (addOrRenewTorque_twice Scenario.drifter "twist" 2 [0; 0; 2] 100
           3 [0; 2; 0] 40).
  constructor.
Defined.

End MoreConcrete.

(** ** The graphics context *)

Section StorageFacts.

Local Open Scope string_scope.

Lemma getItem_setItem (key key' value : string) (s : Storage.t) :
  Storage.getItem key (Storage.setItem key' value s)
  = if String.eqb key' key then Some value else Storage.getItem key s.
Proof.
  induction s as [ | [k v] rest IH]; cbn [Storage.setItem Storage.getItem].
  - reflexivity.
  - destruct (String.eqb_spec k key') as [Hk | Hk].
    + subst k. cbn [Storage.getItem].
      destruct (String.eqb key' key); reflexivity.
    + cbn [Storage.getItem]. destruct (String.eqb_spec k key) as [Hkey | Hkey].
      * subst k. apply String.eqb_neq in Hk.
        rewrite String.eqb_sym in Hk. rewrite Hk. reflexivity.
      * exact IH.
Qed.

Lemma getItem_setItem_same (key value : string) (s : Storage.t) :
  Storage.getItem key (Storage.setItem key value s) = Some value.
Proof. rewrite getItem_setItem, String.eqb_refl. reflexivity. Qed.

Lemma getItem_setItem_other (key key' value : string) (s : Storage.t) :
  String.eqb key' key = false ->
  Storage.getItem key (Storage.setItem key' value s) = Storage.getItem key s.
Proof. intros H. rewrite getItem_setItem, H. reflexivity. Qed.

Lemma supportedFiltering_cases (value : string) :
  GraphicsContext.supportedFiltering value = true ->
  value = "bilinear" \/ value = "trilinear" \/ value = "anisotropic".
Proof.
  unfold GraphicsContext.supportedFiltering. intros H.
  apply orb_true_iff in H. destruct H as [H | H].
  - apply orb_true_iff in H. destruct H as [H | H].
    + left. apply String.eqb_eq. exact H.
    + right. left. apply String.eqb_eq. exact H.
  - right. right. apply String.eqb_eq. exact H.
Qed.

Lemma supportedShaderComplexity_cases (value : string) :
  GraphicsContext.supportedShaderComplexity value = true ->
  value = "normal" \/ value = "simple".
Proof.
  unfold GraphicsContext.supportedShaderComplexity. intros H.
  apply orb_true_iff in H. destruct H as [H | H].
  - left. apply String.eqb_eq. exact H.
  - right. apply String.eqb_eq. exact H.
Qed.

End StorageFacts.

Section GraphicsContextFacts.

Local Open Scope string_scope.

(** X13.  [setFiltering(value)] never leaves an unsupported filtering: the
    field holds "bilinear", "trilinear" or "anisotropic" afterwards, the
    local storage holds the same string, a supported value is taken as it is
    without any call to another module, and for any other value the field
    becomes "bilinear" and exactly one error is shown, of severity
    "minor". *)
Theorem setFiltering_leaves_a_supported_filtering
  (value : string) (s : GraphicsContext.state) :
  exists f : string,
    GraphicsContext.getFiltering (GraphicsContext.setFiltering value s) = Some f /\
    (f = "bilinear" \/ f = "trilinear" \/ f = "anisotropic") /\
    Storage.getItem GraphicsContext.filteringKey
      (GraphicsContext.localStorage (GraphicsContext.setFiltering value s))
    = Some f /\
    (GraphicsContext.supportedFiltering value = true ->
     f = value /\
     GraphicsContext.calls (GraphicsContext.setFiltering value s)
     = GraphicsContext.calls s) /\
    (GraphicsContext.supportedFiltering value = false ->
     f = "bilinear" /\
     exists message details : string,
       GraphicsContext.calls (GraphicsContext.setFiltering value s)
       = (GraphicsContext.calls s
          ++ [GraphicsContext.showError message "minor" details])%list).
Proof.
  unfold GraphicsContext.setFiltering.
  destruct (GraphicsContext.supportedFiltering value) eqn:Hvalue.
  - exists value. split; [reflexivity | ].
    split; [apply supportedFiltering_cases; exact Hvalue | ].
    split; [apply getItem_setItem_same | ].
    split; [intros _; split; reflexivity | discriminate].
  - exists "bilinear". split; [reflexivity | ].
    split; [left; reflexivity | ].
    split; [apply getItem_setItem_same | ].
    split; [discriminate | ].
    intros _. split; [reflexivity | ].
    eexists. eexists. reflexivity.
Qed.

Ltac graphics_simpl :=
  cbn [GraphicsContext.getAntialiasing GraphicsContext.getFiltering
       GraphicsContext.getMaxLoadedLOD GraphicsContext.getLODContext
       GraphicsContext.getShaderComplexity GraphicsContext.getShadowMapping
       GraphicsContext.getShadowQuality GraphicsContext.getShadowDistance
       GraphicsContext.this GraphicsContext.calls GraphicsContext.localStorage
       GraphicsContext.store GraphicsContext.does GraphicsContext.assign
       GraphicsContext.assign_antialiasing GraphicsContext.assign_filtering
       GraphicsContext.assign_maxLoadedLOD GraphicsContext.assign_lodContext
       GraphicsContext.assign_shaderComplexity
       GraphicsContext.assign_shadowMapping GraphicsContext.assign_shadowQuality
       GraphicsContext.assign_shadowDistance
       GraphicsContext.setAntialiasing GraphicsContext.setShadowMapping
       GraphicsContext.setShadowQuality GraphicsContext.setShadowDistance
       GraphicsContext._antialiasing GraphicsContext._filtering
       GraphicsContext._maxLoadedLOD GraphicsContext._lodContext
       GraphicsContext._shaderComplexity GraphicsContext._shadowMapping
       GraphicsContext._shadowQuality GraphicsContext._shadowRanges
       GraphicsContext._shadowDistance GraphicsContext._shadowDepthRatio
       GraphicsUse.stateOf GraphicsUse.reloaded] in *.

Lemma sameComplexity_refl (s : GraphicsContext.state) :
  GraphicsUse.sameComplexity s s.
Proof. repeat split. Qed.

Lemma sameComplexity_trans (s s' s'' : GraphicsContext.state) :
  GraphicsUse.sameComplexity s s' -> GraphicsUse.sameComplexity s' s'' -> GraphicsUse.sameComplexity s s''.
Proof.
  intros (H1 & H2 & H3) (H1' & H2' & H3').
  refine (conj _ (conj _ _)); congruence.
Qed.

Lemma complexityInOrder_preserved (s s' : GraphicsContext.state) :
  GraphicsUse.complexityInOrder s -> GraphicsUse.sameComplexity s s' ->
  GraphicsUse.complexityInOrder s'.
Proof.
  unfold GraphicsUse.complexityInOrder. intros H (H1 & H2 & H3).
  rewrite H1, H2, H3. exact H.
Qed.

Lemma lastFallback_app (calls : list GraphicsContext.call)
  (c : GraphicsContext.call) :
  GraphicsUse.lastFallback (calls ++ [c])%list
  = match c with
    | GraphicsContext.useFallbackShaders value => Some value
    | _ => GraphicsUse.lastFallback calls
    end.
Proof.
  unfold GraphicsUse.lastFallback. rewrite fold_left_app. reflexivity.
Qed.

Lemma setShaderComplexity_inOrder (value : string)
  (s : GraphicsContext.state) :
  GraphicsUse.complexityInOrder (GraphicsContext.setShaderComplexity value s).
Proof.
  unfold GraphicsUse.complexityInOrder, GraphicsContext.setShaderComplexity.
  destruct (GraphicsContext.supportedShaderComplexity value) eqn:Hvalue.
  - graphics_simpl. split; [apply supportedShaderComplexity_cases; exact Hvalue | ].
    split; [apply lastFallback_app | apply getItem_setItem_same].
  - graphics_simpl. split; [left; reflexivity | ].
    split; [rewrite lastFallback_app; reflexivity | apply getItem_setItem_same].
Qed.

Lemma setFiltering_sameComplexity (value : string) (s : GraphicsContext.state) :
  GraphicsUse.sameComplexity s (GraphicsContext.setFiltering value s).
Proof.
  unfold GraphicsUse.sameComplexity, GraphicsContext.setFiltering.
  destruct (GraphicsContext.supportedFiltering value); graphics_simpl.
  - split; [reflexivity | ]. split; [reflexivity | ].
    apply getItem_setItem_other. reflexivity.
  - split; [reflexivity | ]. split; [apply lastFallback_app | ].
    apply getItem_setItem_other. reflexivity.
Qed.

Section WithBuiltins.
Context {B : JsBuiltins}.

Lemma setMaxLOD_sameComplexity (value : numeric) (s : GraphicsContext.state) :
  GraphicsUse.sameComplexity s (GraphicsUse.stateOf (GraphicsContext.setMaxLOD value s)).
Proof.
  unfold GraphicsUse.sameComplexity, GraphicsContext.setMaxLOD. graphics_simpl.
  destruct (GraphicsContext._lodContext (GraphicsContext.this s));
    graphics_simpl.
  - split; [reflexivity | ]. split; [reflexivity | ].
    apply getItem_setItem_other. reflexivity.
  - repeat split.
Qed.

Lemma loadRest_inOrder (s : GraphicsContext.state) :
  GraphicsUse.complexityInOrder s ->
  GraphicsUse.complexityInOrder (GraphicsContext.loadRest s).
Proof.
  intros H. unfold GraphicsContext.loadRest.
  set (s1 := match Storage.getItem GraphicsContext.shaderComplexityKey _ with
             | Some v => GraphicsContext.setShaderComplexity v s
             | None => s
             end).
  assert (H1 : GraphicsUse.complexityInOrder s1).
  { subst s1.
    destruct (Storage.getItem GraphicsContext.shaderComplexityKey
                (GraphicsContext.localStorage s)).
    - apply setShaderComplexity_inOrder.
    - exact H. }
  clearbody s1. clear H s.
  set (s2 := match Storage.getItem GraphicsContext.shadowMappingKey _ with
             | Some v => _
             | None => s1
             end).
  assert (H2 : GraphicsUse.complexityInOrder s2).
  { subst s2.
    destruct (Storage.getItem GraphicsContext.shadowMappingKey
                (GraphicsContext.localStorage s1)); exact H1. }
  clearbody s2. clear H1 s1.
  set (s3 := match Storage.getItem GraphicsContext.shadowQualityKey _ with
             | Some v => _
             | None => s2
             end).
  assert (H3 : GraphicsUse.complexityInOrder s3).
  { subst s3.
    destruct (Storage.getItem GraphicsContext.shadowQualityKey
                (GraphicsContext.localStorage s2)); exact H2. }
  clearbody s3. clear H2 s2.
  set (s4 := match Storage.getItem GraphicsContext.shadowDistanceKey _ with
             | Some v => _
             | None => s3
             end).
  assert (H4 : GraphicsUse.complexityInOrder s4).
  { subst s4.
    destruct (Storage.getItem GraphicsContext.shadowDistanceKey
                (GraphicsContext.localStorage s3)); exact H3. }
  clearbody s4. clear H3 s3.
  apply (complexityInOrder_preserved s4); [exact H4 | ].
  split; [reflexivity | ]. split; [ | reflexivity].
  graphics_simpl. apply lastFallback_app.
Qed.

Lemma loadFromLocalStorage_inOrder (s : GraphicsContext.state) :
  GraphicsUse.complexityInOrder s ->
  GraphicsUse.complexityInOrder
    (GraphicsUse.stateOf (GraphicsContext.loadFromLocalStorage s)).
Proof.
  intros H. unfold GraphicsContext.loadFromLocalStorage.
  set (s1 := match Storage.getItem GraphicsContext.antialiasingKey _ with
             | Some v => _
             | None => s
             end).
  assert (H1 : GraphicsUse.complexityInOrder s1).
  { subst s1.
    destruct (Storage.getItem GraphicsContext.antialiasingKey
                (GraphicsContext.localStorage s)); exact H. }
  clearbody s1. clear H s.
  set (s2 := match Storage.getItem GraphicsContext.filteringKey _ with
             | Some v => _
             | None => s1
             end).
  assert (H2 : GraphicsUse.complexityInOrder s2).
  { subst s2.
    destruct (Storage.getItem GraphicsContext.filteringKey
                (GraphicsContext.localStorage s1)); exact H1. }
  clearbody s2. clear H1 s1.
  destruct (Storage.getItem GraphicsContext.maxLODKey
              (GraphicsContext.localStorage s2)) as [v | ].
  - pose proof (setMaxLOD_sameComplexity (number (parseInt10 v)) s2) as Hsame.
    destruct (GraphicsContext.setMaxLOD (number (parseInt10 v)) s2) as [s3 | s3];
      cbn [GraphicsUse.stateOf] in *.
    + apply loadRest_inOrder.
      apply (complexityInOrder_preserved s2); assumption.
    + apply (complexityInOrder_preserved s2); assumption.
  - cbn [GraphicsUse.stateOf]. apply loadRest_inOrder. exact H2.
Qed.

Lemma perform_inOrder (m : GraphicsUse.method) (s : GraphicsContext.state) :
  GraphicsUse.complexityInOrder s ->
  GraphicsUse.complexityInOrder (GraphicsUse.stateOf (GraphicsUse.perform m s)).
Proof.
  intros H. destruct m; cbn [GraphicsUse.perform GraphicsUse.stateOf].
  - apply (complexityInOrder_preserved s); [exact H | ].
    split; [reflexivity | ]. split; [reflexivity | ].
    apply getItem_setItem_other. reflexivity.
  - apply (complexityInOrder_preserved s); [exact H | ].
    apply setFiltering_sameComplexity.
  - apply (complexityInOrder_preserved s); [exact H | ].
    apply setMaxLOD_sameComplexity.
  - apply setShaderComplexity_inOrder.
  - apply (complexityInOrder_preserved s); [exact H | ].
    split; [reflexivity | ]. split; [reflexivity | ].
    apply getItem_setItem_other. reflexivity.
  - apply (complexityInOrder_preserved s); [exact H | ].
    split; [reflexivity | ]. split; [reflexivity | ].
    apply getItem_setItem_other. reflexivity.
  - apply (complexityInOrder_preserved s); [exact H | ].
    split; [reflexivity | ]. split; [reflexivity | ].
    apply getItem_setItem_other. reflexivity.
  - apply loadFromLocalStorage_inOrder. exact H.
Qed.

Ltac storage_simpl :=
  repeat first [ rewrite getItem_setItem_same
               | rewrite getItem_setItem_other by reflexivity ].

Lemma loadFromLocalStorage_statements (s : GraphicsContext.state) :
  GraphicsContext.loadFromLocalStorage s
  = match GraphicsUse.loadMaxLOD
            (GraphicsUse.loadFiltering (GraphicsUse.loadAntialiasing s)) with
    | GraphicsContext.Returns s' =>
        GraphicsContext.Returns
          (GraphicsContext.does GraphicsContext.setToReady
             (GraphicsUse.loadShadowDistance
                (GraphicsUse.loadShadowQuality
                   (GraphicsUse.loadShadowMapping
                      (GraphicsUse.loadShaderComplexity s')))))
    | GraphicsContext.Throws s' => GraphicsContext.Throws s'
    end.
Proof.
  unfold GraphicsContext.loadFromLocalStorage, GraphicsUse.loadMaxLOD.
  fold (GraphicsUse.loadAntialiasing s).
  fold (GraphicsUse.loadFiltering (GraphicsUse.loadAntialiasing s)).
  destruct (Storage.getItem GraphicsContext.maxLODKey _); reflexivity.
Qed.

(** A state written out field by field. *)
Ltac spell s :=
  let g := fresh "g" in
  destruct s as [g ? ?]; destruct g.

Lemma loadAntialiasing_spelled (a : option bool) (f : option string) (l : numeric)
  (lc : option GraphicsContext.LODContext) (c : option string)
  (m : option bool) (q : numeric) (r : option (list float)) (d dr : numeric)
  (st : Storage.t) (cs : list GraphicsContext.call) :
  GraphicsUse.loadAntialiasing
    {| GraphicsContext.this :=
      {| GraphicsContext._antialiasing := a;
         GraphicsContext._filtering := f;
         GraphicsContext._maxLoadedLOD := l;
         GraphicsContext._lodContext := lc;
         GraphicsContext._shaderComplexity := c;
         GraphicsContext._shadowMapping := m;
         GraphicsContext._shadowQuality := q;
         GraphicsContext._shadowRanges := r;
         GraphicsContext._shadowDistance := d;
         GraphicsContext._shadowDepthRatio := dr |};
    GraphicsContext.localStorage := st;
    GraphicsContext.calls := cs |}
  = {| GraphicsContext.this :=
      {| GraphicsContext._antialiasing := (match Storage.getItem GraphicsContext.antialiasingKey st with
         | Some v => Some (String.eqb v "true")
         | None => a
         end);
         GraphicsContext._filtering := f;
         GraphicsContext._maxLoadedLOD := l;
         GraphicsContext._lodContext := lc;
         GraphicsContext._shaderComplexity := c;
         GraphicsContext._shadowMapping := m;
         GraphicsContext._shadowQuality := q;
         GraphicsContext._shadowRanges := r;
         GraphicsContext._shadowDistance := d;
         GraphicsContext._shadowDepthRatio := dr |};
    GraphicsContext.localStorage := st;
    GraphicsContext.calls := cs |}.
Proof.
  unfold GraphicsUse.loadAntialiasing. graphics_simpl.
  destruct (Storage.getItem GraphicsContext.antialiasingKey st); reflexivity.
Qed.

Lemma loadFiltering_spelled (a : option bool) (f : option string) (l : numeric)
  (lc : option GraphicsContext.LODContext) (c : option string)
  (m : option bool) (q : numeric) (r : option (list float)) (d dr : numeric)
  (st : Storage.t) (cs : list GraphicsContext.call) :
  GraphicsUse.loadFiltering
    {| GraphicsContext.this :=
      {| GraphicsContext._antialiasing := a;
         GraphicsContext._filtering := f;
         GraphicsContext._maxLoadedLOD := l;
         GraphicsContext._lodContext := lc;
         GraphicsContext._shaderComplexity := c;
         GraphicsContext._shadowMapping := m;
         GraphicsContext._shadowQuality := q;
         GraphicsContext._shadowRanges := r;
         GraphicsContext._shadowDistance := d;
         GraphicsContext._shadowDepthRatio := dr |};
    GraphicsContext.localStorage := st;
    GraphicsContext.calls := cs |}
  = {| GraphicsContext.this :=
      {| GraphicsContext._antialiasing := a;
         GraphicsContext._filtering := (match Storage.getItem GraphicsContext.filteringKey st with
         | Some v => Some v
         | None => f
         end);
         GraphicsContext._maxLoadedLOD := l;
         GraphicsContext._lodContext := lc;
         GraphicsContext._shaderComplexity := c;
         GraphicsContext._shadowMapping := m;
         GraphicsContext._shadowQuality := q;
         GraphicsContext._shadowRanges := r;
         GraphicsContext._shadowDistance := d;
         GraphicsContext._shadowDepthRatio := dr |};
    GraphicsContext.localStorage := st;
    GraphicsContext.calls := cs |}.
Proof.
  unfold GraphicsUse.loadFiltering. graphics_simpl.
  destruct (Storage.getItem GraphicsContext.filteringKey st); reflexivity.
Qed.

Lemma loadShadowMapping_spelled (a : option bool) (f : option string) (l : numeric)
  (lc : option GraphicsContext.LODContext) (c : option string)
  (m : option bool) (q : numeric) (r : option (list float)) (d dr : numeric)
  (st : Storage.t) (cs : list GraphicsContext.call) :
  GraphicsUse.loadShadowMapping
    {| GraphicsContext.this :=
      {| GraphicsContext._antialiasing := a;
         GraphicsContext._filtering := f;
         GraphicsContext._maxLoadedLOD := l;
         GraphicsContext._lodContext := lc;
         GraphicsContext._shaderComplexity := c;
         GraphicsContext._shadowMapping := m;
         GraphicsContext._shadowQuality := q;
         GraphicsContext._shadowRanges := r;
         GraphicsContext._shadowDistance := d;
         GraphicsContext._shadowDepthRatio := dr |};
    GraphicsContext.localStorage := st;
    GraphicsContext.calls := cs |}
  = {| GraphicsContext.this :=
      {| GraphicsContext._antialiasing := a;
         GraphicsContext._filtering := f;
         GraphicsContext._maxLoadedLOD := l;
         GraphicsContext._lodContext := lc;
         GraphicsContext._shaderComplexity := c;
         GraphicsContext._shadowMapping := (match Storage.getItem GraphicsContext.shadowMappingKey st with
         | Some v => Some (String.eqb v "true")
         | None => m
         end);
         GraphicsContext._shadowQuality := q;
         GraphicsContext._shadowRanges := r;
         GraphicsContext._shadowDistance := d;
         GraphicsContext._shadowDepthRatio := dr |};
    GraphicsContext.localStorage := st;
    GraphicsContext.calls := cs |}.
Proof.
  unfold GraphicsUse.loadShadowMapping. graphics_simpl.
  destruct (Storage.getItem GraphicsContext.shadowMappingKey st); reflexivity.
Qed.

Lemma loadShadowQuality_spelled (a : option bool) (f : option string) (l : numeric)
  (lc : option GraphicsContext.LODContext) (c : option string)
  (m : option bool) (q : numeric) (r : option (list float)) (d dr : numeric)
  (st : Storage.t) (cs : list GraphicsContext.call) :
  GraphicsUse.loadShadowQuality
    {| GraphicsContext.this :=
      {| GraphicsContext._antialiasing := a;
         GraphicsContext._filtering := f;
         GraphicsContext._maxLoadedLOD := l;
         GraphicsContext._lodContext := lc;
         GraphicsContext._shaderComplexity := c;
         GraphicsContext._shadowMapping := m;
         GraphicsContext._shadowQuality := q;
         GraphicsContext._shadowRanges := r;
         GraphicsContext._shadowDistance := d;
         GraphicsContext._shadowDepthRatio := dr |};
    GraphicsContext.localStorage := st;
    GraphicsContext.calls := cs |}
  = {| GraphicsContext.this :=
      {| GraphicsContext._antialiasing := a;
         GraphicsContext._filtering := f;
         GraphicsContext._maxLoadedLOD := l;
         GraphicsContext._lodContext := lc;
         GraphicsContext._shaderComplexity := c;
         GraphicsContext._shadowMapping := m;
         GraphicsContext._shadowQuality := (match Storage.getItem GraphicsContext.shadowQualityKey st with
         | Some v => number (parseInt10 v)
         | None => q
         end);
         GraphicsContext._shadowRanges := r;
         GraphicsContext._shadowDistance := d;
         GraphicsContext._shadowDepthRatio := dr |};
    GraphicsContext.localStorage := st;
    GraphicsContext.calls := cs |}.
Proof.
  unfold GraphicsUse.loadShadowQuality. graphics_simpl.
  destruct (Storage.getItem GraphicsContext.shadowQualityKey st); reflexivity.
Qed.

Lemma loadShadowDistance_spelled (a : option bool) (f : option string) (l : numeric)
  (lc : option GraphicsContext.LODContext) (c : option string)
  (m : option bool) (q : numeric) (r : option (list float)) (d dr : numeric)
  (st : Storage.t) (cs : list GraphicsContext.call) :
  GraphicsUse.loadShadowDistance
    {| GraphicsContext.this :=
      {| GraphicsContext._antialiasing := a;
         GraphicsContext._filtering := f;
         GraphicsContext._maxLoadedLOD := l;
         GraphicsContext._lodContext := lc;
         GraphicsContext._shaderComplexity := c;
         GraphicsContext._shadowMapping := m;
         GraphicsContext._shadowQuality := q;
         GraphicsContext._shadowRanges := r;
         GraphicsContext._shadowDistance := d;
         GraphicsContext._shadowDepthRatio := dr |};
    GraphicsContext.localStorage := st;
    GraphicsContext.calls := cs |}
  = {| GraphicsContext.this :=
      {| GraphicsContext._antialiasing := a;
         GraphicsContext._filtering := f;
         GraphicsContext._maxLoadedLOD := l;
         GraphicsContext._lodContext := lc;
         GraphicsContext._shaderComplexity := c;
         GraphicsContext._shadowMapping := m;
         GraphicsContext._shadowQuality := q;
         GraphicsContext._shadowRanges := r;
         GraphicsContext._shadowDistance := (match Storage.getItem GraphicsContext.shadowDistanceKey st with
         | Some v => number (parseInt10 v)
         | None => d
         end);
         GraphicsContext._shadowDepthRatio := dr |};
    GraphicsContext.localStorage := st;
    GraphicsContext.calls := cs |}.
Proof.
  unfold GraphicsUse.loadShadowDistance. graphics_simpl.
  destruct (Storage.getItem GraphicsContext.shadowDistanceKey st); reflexivity.
Qed.

Lemma loadMaxLOD_spelled (a : option bool) (f : option string) (l : numeric)
  (lc : GraphicsContext.LODContext) (c : option string)
  (m : option bool) (q : numeric) (r : option (list float)) (d dr : numeric)
  (st : Storage.t) (cs : list GraphicsContext.call) :
  GraphicsUse.loadMaxLOD
    {| GraphicsContext.this :=
      {| GraphicsContext._antialiasing := a;
         GraphicsContext._filtering := f;
         GraphicsContext._maxLoadedLOD := l;
         GraphicsContext._lodContext := Some lc;
         GraphicsContext._shaderComplexity := c;
         GraphicsContext._shadowMapping := m;
         GraphicsContext._shadowQuality := q;
         GraphicsContext._shadowRanges := r;
         GraphicsContext._shadowDistance := d;
         GraphicsContext._shadowDepthRatio := dr |};
    GraphicsContext.localStorage := st;
    GraphicsContext.calls := cs |}
  = GraphicsContext.Returns
      {| GraphicsContext.this :=
        {| GraphicsContext._antialiasing := a;
           GraphicsContext._filtering := f;
           GraphicsContext._maxLoadedLOD := (match Storage.getItem GraphicsContext.maxLODKey st with
         | Some v => number (parseInt10 v)
         | None => l
         end);
           GraphicsContext._lodContext := (match Storage.getItem GraphicsContext.maxLODKey st with
         | Some v => Some {| GraphicsContext.maxEnabledLOD := number (parseInt10 v) |}
         | None => Some lc
         end);
           GraphicsContext._shaderComplexity := c;
           GraphicsContext._shadowMapping := m;
           GraphicsContext._shadowQuality := q;
           GraphicsContext._shadowRanges := r;
           GraphicsContext._shadowDistance := d;
           GraphicsContext._shadowDepthRatio := dr |};
      GraphicsContext.localStorage := (GraphicsUse.storedMaxLOD st);
      GraphicsContext.calls := cs |}.
Proof.
  unfold GraphicsUse.loadMaxLOD, GraphicsUse.storedMaxLOD,
    GraphicsContext.setMaxLOD.
  graphics_simpl.
  destruct (Storage.getItem GraphicsContext.maxLODKey st); reflexivity.
Qed.

Lemma loadMaxLOD_nothing_stored (a : option bool) (f : option string) (l : numeric)
  (lc : option GraphicsContext.LODContext) (c : option string)
  (m : option bool) (q : numeric) (r : option (list float)) (d dr : numeric)
  (st : Storage.t) (cs : list GraphicsContext.call) :
  Storage.getItem GraphicsContext.maxLODKey st = None ->
  GraphicsUse.loadMaxLOD
    {| GraphicsContext.this :=
      {| GraphicsContext._antialiasing := a;
         GraphicsContext._filtering := f;
         GraphicsContext._maxLoadedLOD := l;
         GraphicsContext._lodContext := lc;
         GraphicsContext._shaderComplexity := c;
         GraphicsContext._shadowMapping := m;
         GraphicsContext._shadowQuality := q;
         GraphicsContext._shadowRanges := r;
         GraphicsContext._shadowDistance := d;
         GraphicsContext._shadowDepthRatio := dr |};
    GraphicsContext.localStorage := st;
    GraphicsContext.calls := cs |}
  = GraphicsContext.Returns
      {| GraphicsContext.this :=
        {| GraphicsContext._antialiasing := a;
           GraphicsContext._filtering := f;
           GraphicsContext._maxLoadedLOD := l;
           GraphicsContext._lodContext := lc;
           GraphicsContext._shaderComplexity := c;
           GraphicsContext._shadowMapping := m;
           GraphicsContext._shadowQuality := q;
           GraphicsContext._shadowRanges := r;
           GraphicsContext._shadowDistance := d;
           GraphicsContext._shadowDepthRatio := dr |};
      GraphicsContext.localStorage := st;
      GraphicsContext.calls := cs |}.
Proof.
  intros H. unfold GraphicsUse.loadMaxLOD. graphics_simpl. rewrite H.
  reflexivity.
Qed.

Lemma loadShaderComplexity_spelled (a : option bool) (f : option string) (l : numeric)
  (lc : option GraphicsContext.LODContext) (c : option string)
  (m : option bool) (q : numeric) (r : option (list float)) (d dr : numeric)
  (st : Storage.t) (cs : list GraphicsContext.call) :
  GraphicsUse.loadShaderComplexity
    {| GraphicsContext.this :=
      {| GraphicsContext._antialiasing := a;
         GraphicsContext._filtering := f;
         GraphicsContext._maxLoadedLOD := l;
         GraphicsContext._lodContext := lc;
         GraphicsContext._shaderComplexity := c;
         GraphicsContext._shadowMapping := m;
         GraphicsContext._shadowQuality := q;
         GraphicsContext._shadowRanges := r;
         GraphicsContext._shadowDistance := d;
         GraphicsContext._shadowDepthRatio := dr |};
    GraphicsContext.localStorage := st;
    GraphicsContext.calls := cs |}
  = {| GraphicsContext.this :=
      {| GraphicsContext._antialiasing := a;
         GraphicsContext._filtering := f;
         GraphicsContext._maxLoadedLOD := l;
         GraphicsContext._lodContext := lc;
         GraphicsContext._shaderComplexity := (match Storage.getItem GraphicsContext.shaderComplexityKey st with
         | Some v => Some (GraphicsUse.checkedComplexity v)
         | None => c
         end);
         GraphicsContext._shadowMapping := m;
         GraphicsContext._shadowQuality := q;
         GraphicsContext._shadowRanges := r;
         GraphicsContext._shadowDistance := d;
         GraphicsContext._shadowDepthRatio := dr |};
    GraphicsContext.localStorage := (GraphicsUse.storedComplexity st);
    GraphicsContext.calls := (GraphicsUse.complexityCalls st cs) |}.
Proof.
  unfold GraphicsUse.loadShaderComplexity, GraphicsUse.storedComplexity,
    GraphicsUse.complexityCalls, GraphicsUse.checkedComplexity,
    GraphicsContext.setShaderComplexity.
  graphics_simpl.
  destruct (Storage.getItem GraphicsContext.shaderComplexityKey st) as [v | ];
    [ | reflexivity].
  destruct (GraphicsContext.supportedShaderComplexity v); reflexivity.
Qed.

Lemma getItem_storedMaxLOD (key : string) (st : Storage.t) :
  String.eqb GraphicsContext.maxLODKey key = false ->
  Storage.getItem key (GraphicsUse.storedMaxLOD st) = Storage.getItem key st.
Proof.
  intros H. unfold GraphicsUse.storedMaxLOD.
  destruct (Storage.getItem GraphicsContext.maxLODKey st);
    [apply getItem_setItem_other; exact H | reflexivity].
Qed.

Lemma getItem_storedComplexity (key : string) (st : Storage.t) :
  String.eqb GraphicsContext.shaderComplexityKey key = false ->
  Storage.getItem key (GraphicsUse.storedComplexity st) = Storage.getItem key st.
Proof.
  intros H. unfold GraphicsUse.storedComplexity.
  destruct (Storage.getItem GraphicsContext.shaderComplexityKey st);
    [apply getItem_setItem_other; exact H | reflexivity].
Qed.

Ltac stored_simpl :=
  repeat first [ rewrite getItem_storedComplexity by reflexivity
               | rewrite getItem_storedMaxLOD by reflexivity ].

(** What [loadFromLocalStorage] leaves in each setting when it returns:
    every setting is read from its own key, whatever the other keys hold. *)
Lemma loadFromLocalStorage_settings (s : GraphicsContext.state) :
  GraphicsContext._lodContext (GraphicsContext.this s) <> None \/
  Storage.getItem GraphicsContext.maxLODKey (GraphicsContext.localStorage s)
  = None ->
  exists s',
    GraphicsContext.loadFromLocalStorage s = GraphicsContext.Returns s' /\
    GraphicsContext.getAntialiasing s'
    = match Storage.getItem GraphicsContext.antialiasingKey
              (GraphicsContext.localStorage s) with
      | Some v => Some (String.eqb v "true")
      | None => GraphicsContext.getAntialiasing s
      end /\
    GraphicsContext.getFiltering s'
    = match Storage.getItem GraphicsContext.filteringKey
              (GraphicsContext.localStorage s) with
      | Some v => Some v
      | None => GraphicsContext.getFiltering s
      end /\
    GraphicsContext.getMaxLoadedLOD s'
    = match Storage.getItem GraphicsContext.maxLODKey
              (GraphicsContext.localStorage s) with
      | Some v => number (parseInt10 v)
      | None => GraphicsContext.getMaxLoadedLOD s
      end /\
    GraphicsContext.getShaderComplexity s'
    = match Storage.getItem GraphicsContext.shaderComplexityKey
              (GraphicsContext.localStorage s) with
      | Some v => Some (GraphicsUse.checkedComplexity v)
      | None => GraphicsContext.getShaderComplexity s
      end /\
    GraphicsContext.getShadowMapping s'
    = match Storage.getItem GraphicsContext.shadowMappingKey
              (GraphicsContext.localStorage s) with
      | Some v => Some (String.eqb v "true")
      | None => GraphicsContext.getShadowMapping s
      end /\
    GraphicsContext.getShadowQuality s'
    = match Storage.getItem GraphicsContext.shadowQualityKey
              (GraphicsContext.localStorage s) with
      | Some v => number (parseInt10 v)
      | None => GraphicsContext.getShadowQuality s
      end /\
    GraphicsContext.getShadowDistance s'
    = match Storage.getItem GraphicsContext.shadowDistanceKey
              (GraphicsContext.localStorage s) with
      | Some v => number (parseInt10 v)
      | None => GraphicsContext.getShadowDistance s
      end /\
    Storage.getItem GraphicsContext.filteringKey
      (GraphicsContext.localStorage s')
    = Storage.getItem GraphicsContext.filteringKey
        (GraphicsContext.localStorage s) /\
    GraphicsContext.calls s'
    = (GraphicsUse.complexityCalls (GraphicsContext.localStorage s)
         (GraphicsContext.calls s) ++ [GraphicsContext.setToReady])%list.
Proof.
  intros Hlod. destruct s as [g st cs]. destruct g as [a f l lc c m q r d dr].
  graphics_simpl.
  rewrite loadFromLocalStorage_statements.
  rewrite loadAntialiasing_spelled, loadFiltering_spelled.
  destruct lc as [lc | ].
  - rewrite loadMaxLOD_spelled, loadShaderComplexity_spelled,
      loadShadowMapping_spelled, loadShadowQuality_spelled,
      loadShadowDistance_spelled.
    eexists. split; [reflexivity | ]. graphics_simpl. stored_simpl.
    unfold GraphicsUse.complexityCalls. stored_simpl.
    repeat split.
  - destruct Hlod as [Hlod | Hlod]; [exfalso; apply Hlod; reflexivity | ].
    rewrite (loadMaxLOD_nothing_stored _ _ _ _ _ _ _ _ _ _ _ _ Hlod).
    rewrite loadShaderComplexity_spelled,
      loadShadowMapping_spelled, loadShadowQuality_spelled,
      loadShadowDistance_spelled.
    eexists. split; [reflexivity | ]. graphics_simpl. stored_simpl.
    rewrite Hlod. repeat split.
Qed.

(** X14.  Whatever setters and calls of [loadFromLocalStorage] are made, in
    any order and whether or not one of them throws, the shader complexity
    stays in order once it is: null, or "normal" or "simple", with the same
    string in the local storage, and with the last call of
    [useFallbackShaders] having been given whether it is "simple". *)
Theorem shader_complexity_stays_in_order
  (ms : list GraphicsUse.method) (s : GraphicsContext.state) :
  GraphicsUse.complexityInOrder s ->
  GraphicsUse.complexityInOrder
    (GraphicsUse.stateOf (GraphicsUse.performAll ms s)).
Proof.
  revert s. induction ms as [ | m rest IH]; intros s H.
  - exact H.
  - cbn [GraphicsUse.performAll].
    pose proof (perform_inOrder m s H) as Hm.
    destruct (GraphicsUse.perform m s) as [s' | s'];
      cbn [GraphicsUse.stateOf] in Hm.
    + apply IH. exact Hm.
    + exact Hm.
Qed.

(** X15.  [loadFromLocalStorage()] checks the stored shader complexity but
    not the stored filtering: when it returns, the filtering is the stored
    string whatever it is, and stays stored; the shader complexity is the
    stored string only if that is "normal" or "simple", and "normal"
    otherwise; and the only calls made are the error for an unsupported
    complexity, [useFallbackShaders] and [setToReady]. *)
Theorem loadFromLocalStorage_checks_the_complexity_only
  (s : GraphicsContext.state) (v c : string) :
  GraphicsContext._lodContext (GraphicsContext.this s) <> None \/
  Storage.getItem GraphicsContext.maxLODKey (GraphicsContext.localStorage s)
  = None ->
  Storage.getItem GraphicsContext.filteringKey (GraphicsContext.localStorage s)
  = Some v ->
  Storage.getItem GraphicsContext.shaderComplexityKey
    (GraphicsContext.localStorage s) = Some c ->
  exists s',
    GraphicsContext.loadFromLocalStorage s = GraphicsContext.Returns s' /\
    GraphicsContext.getFiltering s' = Some v /\
    Storage.getItem GraphicsContext.filteringKey
      (GraphicsContext.localStorage s') = Some v /\
    GraphicsContext.getShaderComplexity s'
    = Some (if GraphicsContext.supportedShaderComplexity c then c
            else "normal") /\
    GraphicsContext.calls s'
    = (GraphicsContext.calls s
       ++ (if GraphicsContext.supportedShaderComplexity c then []
           else [GraphicsContext.showError
                   ("Attempting to set complexity to: '" ++ c
                    ++ "', which is not a supported option.")%string
                   "minor"
                   "Shader complexity has been instead set to normal."])
       ++ [GraphicsContext.useFallbackShaders
             (String.eqb
                (if GraphicsContext.supportedShaderComplexity c then c
                 else "normal") "simple");
           GraphicsContext.setToReady])%list.
Proof.
  intros Hlod Hv Hc.
  destruct (loadFromLocalStorage_settings s Hlod)
    as (s' & Hload & _ & Hf & _ & Hs & _ & _ & _ & Hstored & Hcalls).
  exists s'. split; [exact Hload | ].
  rewrite Hv in Hf, Hstored. rewrite Hc in Hs.
  split; [exact Hf | ]. split; [exact Hstored | ].
  split; [exact Hs | ].
  rewrite Hcalls. unfold GraphicsUse.complexityCalls. rewrite Hc.
  destruct (GraphicsContext.supportedShaderComplexity c).
  - cbn [app]. rewrite <- app_assoc. reflexivity.
  - rewrite <- !app_assoc. reflexivity.
Qed.

(** X16.  [loadFromLocalStorage()] on a context whose LOD context is null
    throws when a maximum level of detail is stored.  By then antialiasing
    and filtering have been loaded and [_maxLoadedLOD] has been assigned the
    stored number; nothing after that happens: shader complexity, shadow
    mapping, shadow quality and shadow distance are not loaded, the local
    storage is as it was, and no call is made, so the context is never set
    to ready. *)
Theorem loadFromLocalStorage_throws_without_LOD_context
  (s : GraphicsContext.state) (v : string) :
  GraphicsContext._lodContext (GraphicsContext.this s) = None ->
  Storage.getItem GraphicsContext.maxLODKey (GraphicsContext.localStorage s)
  = Some v ->
  exists s',
    GraphicsContext.loadFromLocalStorage s = GraphicsContext.Throws s' /\
    GraphicsContext.getAntialiasing s'
    = match Storage.getItem GraphicsContext.antialiasingKey
              (GraphicsContext.localStorage s) with
      | Some a => Some (String.eqb a "true")
      | None => GraphicsContext.getAntialiasing s
      end /\
    GraphicsContext.getFiltering s'
    = match Storage.getItem GraphicsContext.filteringKey
              (GraphicsContext.localStorage s) with
      | Some f => Some f
      | None => GraphicsContext.getFiltering s
      end /\
    GraphicsContext.getMaxLoadedLOD s' = number (parseInt10 v) /\
    GraphicsContext.getLODContext s' = None /\
    GraphicsContext.getShaderComplexity s'
    = GraphicsContext.getShaderComplexity s /\
    GraphicsContext.getShadowMapping s' = GraphicsContext.getShadowMapping s /\
    GraphicsContext.getShadowQuality s' = GraphicsContext.getShadowQuality s /\
    GraphicsContext.getShadowDistance s'
    = GraphicsContext.getShadowDistance s /\
    GraphicsContext.localStorage s' = GraphicsContext.localStorage s /\
    GraphicsContext.calls s' = GraphicsContext.calls s.
Proof.
  intros Hc Hl. destruct s as [g st cs]. destruct g as [a f l lc c m q r d dr].
  graphics_simpl. subst lc.
  rewrite loadFromLocalStorage_statements.
  rewrite loadAntialiasing_spelled, loadFiltering_spelled.
  unfold GraphicsUse.loadMaxLOD, GraphicsContext.setMaxLOD. graphics_simpl.
  rewrite Hl. graphics_simpl.
  eexists. split; [reflexivity | ]. graphics_simpl. repeat split.
Qed.

Lemma Boolean_toString_back (b : bool) :
  String.eqb (Storage.Boolean_toString b) "true" = b.
Proof. destruct b; reflexivity. Qed.

Lemma on_or_off (v : string) :
  v = "on" \/ v = "off" ->
  (if GraphicsScreen.isTrue (Some (String.eqb v "on")) then "on" else "off")
  = v.
Proof. intros [H | H]; subst v; reflexivity. Qed.

Lemma shadowQualityName_of (v : string) (x : float) :
  GraphicsScreen.shadowQualityOf v = Some x ->
  GraphicsScreen.shadowQualityName (number x) = v.
Proof.
  unfold GraphicsScreen.shadowQualityOf.
  destruct (String.eqb_spec v "low") as [H | _];
    [intros E; injection E as <-; subst v; reflexivity | ].
  destruct (String.eqb_spec v "medium") as [H | _];
    [intros E; injection E as <-; subst v; reflexivity | ].
  destruct (String.eqb_spec v "high") as [H | _];
    [intros E; injection E as <-; subst v; reflexivity | ].
  discriminate.
Qed.

Lemma shadowDistanceName_of (v : string) (x : float) :
  GraphicsScreen.shadowDistanceOf v = Some x ->
  GraphicsScreen.shadowDistanceName (number x) = v.
Proof.
  unfold GraphicsScreen.shadowDistanceOf.
  destruct (String.eqb_spec v "very close") as [H | _];
    [intros E; injection E as <-; subst v; reflexivity | ].
  destruct (String.eqb_spec v "close") as [H | _];
    [intros E; injection E as <-; subst v; reflexivity | ].
  destruct (String.eqb_spec v "medium") as [H | _];
    [intros E; injection E as <-; subst v; reflexivity | ].
  destruct (String.eqb_spec v "far") as [H | _];
    [intros E; injection E as <-; subst v; reflexivity | ].
  destruct (String.eqb_spec v "very far") as [H | _];
    [intros E; injection E as <-; subst v; reflexivity | ].
  discriminate.
Qed.

(** What the back button leaves in the local storage. *)
Lemma backButton_onclick_stored (sel : GraphicsScreen.selection)
  (s s1 : GraphicsContext.state) (quality distance : float) :
  GraphicsContext.supportedFiltering (GraphicsScreen.filtering sel) = true ->
  GraphicsContext.supportedShaderComplexity
    (GraphicsScreen.shaderComplexity sel) = true ->
  GraphicsScreen.shadowQualityOf (GraphicsScreen.shadowQuality sel)
  = Some quality ->
  GraphicsScreen.shadowDistanceOf (GraphicsScreen.shadowDistance sel)
  = Some distance ->
  GraphicsScreen.backButton_onclick sel s = Some (GraphicsContext.Returns s1) ->
  let st := GraphicsContext.localStorage s1 in
  Storage.getItem GraphicsContext.antialiasingKey st
  = Some (Storage.Boolean_toString
            (String.eqb (GraphicsScreen.antialiasing sel) "on")) /\
  Storage.getItem GraphicsContext.filteringKey st
  = Some (GraphicsScreen.filtering sel) /\
  Storage.getItem GraphicsContext.maxLODKey st
  = Some (Number_toString (GraphicsScreen.lod sel)) /\
  Storage.getItem GraphicsContext.shaderComplexityKey st
  = Some (GraphicsScreen.shaderComplexity sel) /\
  Storage.getItem GraphicsContext.shadowMappingKey st
  = Some (Storage.Boolean_toString
            (String.eqb (GraphicsScreen.shadowMapping sel) "on")) /\
  Storage.getItem GraphicsContext.shadowQualityKey st
  = Some (Number_toString quality) /\
  Storage.getItem GraphicsContext.shadowDistanceKey st
  = Some (Number_toString distance).
Proof.
  intros Hf Hc Hq Hd. unfold GraphicsScreen.backButton_onclick.
  rewrite Hq, Hd.
  unfold GraphicsContext.setMaxLOD, GraphicsContext.setFiltering,
    GraphicsContext.setShaderComplexity.
  rewrite Hf, Hc. graphics_simpl.
  destruct (GraphicsContext._lodContext (GraphicsContext.this s));
    [ | discriminate].
  intros E. injection E as <-. graphics_simpl.
  cbn [Storage.numeric_toString]. storage_simpl. repeat split.
Qed.

(** X17.  The settings chosen on the settings screen are the ones it shows
    after the page has been loaded again.  The back button is pressed on a
    selection whose on/off values are "on" or "off", whose filtering and
    shader complexity are supported and whose shadow quality and distance
    are names of the mappings, and the handler returns; the level of detail
    and the two mapped numbers are numbers that [parseInt] reads back from
    their strings.  Then [loadFromLocalStorage()] on any context that has an
    LOD context, over the local storage left behind, returns, and
    [updateValues] hands each selector the value that was selected. *)
Theorem chosen_settings_are_shown_after_a_reload
  (sel : GraphicsScreen.selection) (s s1 : GraphicsContext.state)
  (g : GraphicsContext.t) (quality distance : float) :
  GraphicsScreen.antialiasing sel = "on" \/
  GraphicsScreen.antialiasing sel = "off" ->
  GraphicsScreen.shadowMapping sel = "on" \/
  GraphicsScreen.shadowMapping sel = "off" ->
  GraphicsContext.supportedFiltering (GraphicsScreen.filtering sel) = true ->
  GraphicsContext.supportedShaderComplexity
    (GraphicsScreen.shaderComplexity sel) = true ->
  GraphicsScreen.shadowQualityOf (GraphicsScreen.shadowQuality sel)
  = Some quality ->
  GraphicsScreen.shadowDistanceOf (GraphicsScreen.shadowDistance sel)
  = Some distance ->
  parseInt10 (Number_toString (GraphicsScreen.lod sel))
  = GraphicsScreen.lod sel ->
  parseInt10 (Number_toString quality) = quality ->
  parseInt10 (Number_toString distance) = distance ->
  GraphicsScreen.backButton_onclick sel s = Some (GraphicsContext.Returns s1) ->
  GraphicsContext._lodContext g <> None ->
  exists s2,
    GraphicsContext.loadFromLocalStorage (GraphicsUse.reloaded g s1)
    = GraphicsContext.Returns s2 /\
    GraphicsScreen.updateValues s2
    = {| GraphicsScreen.shownAntialiasing := GraphicsScreen.antialiasing sel;
         GraphicsScreen.shownFiltering := Some (GraphicsScreen.filtering sel);
         GraphicsScreen.shownLod := number (GraphicsScreen.lod sel);
         GraphicsScreen.shownShaderComplexity :=
           Some (GraphicsScreen.shaderComplexity sel);
         GraphicsScreen.shownShadowMapping := GraphicsScreen.shadowMapping sel;
         GraphicsScreen.shownShadowQuality := GraphicsScreen.shadowQuality sel;
         GraphicsScreen.shownShadowDistance :=
           GraphicsScreen.shadowDistance sel |}.
Proof.
  intros Ha Hm Hf Hc Hq Hd Hlod Hquality Hdistance Hclick Hg.
  destruct (backButton_onclick_stored sel s s1 quality distance
              Hf Hc Hq Hd Hclick)
    as (Sa & Sf & Sl & Sc & Sm & Sq & Sd).
  destruct (loadFromLocalStorage_settings (GraphicsUse.reloaded g s1)
              (or_introl Hg))
    as (s2 & Hload & La & Lf & Ll & Lc & Lm & Lq & Ld & _).
  graphics_simpl.
  rewrite Sa in La. rewrite Sf in Lf. rewrite Sl in Ll. rewrite Sc in Lc.
  rewrite Sm in Lm. rewrite Sq in Lq. rewrite Sd in Ld.
  rewrite Boolean_toString_back in La, Lm.
  rewrite Hlod in Ll. rewrite Hquality in Lq. rewrite Hdistance in Ld.
  unfold GraphicsUse.checkedComplexity in Lc. rewrite Hc in Lc.
  exists s2. split; [exact Hload | ].
  unfold GraphicsScreen.updateValues.
  rewrite La, Lf, Ll, Lc, Lm, Lq, Ld.
  rewrite (on_or_off _ Ha), (on_or_off _ Hm).
  rewrite (shadowQualityName_of _ _ Hq), (shadowDistanceName_of _ _ Hd).
  reflexivity.
Qed.

End WithBuiltins.

End GraphicsContextFacts.

(** ** The ship selection of the database screen *)

Section DatabaseScreenFacts.
Context {spacecraftClass : Type}.

Local Open Scope Z_scope.

Lemma selectNextShip_in_range (classes : list spacecraftClass) (i : Z) :
  0 <= i < Z.of_nat (List.length classes) ->
  DatabaseScreen.selectNextShip classes (DatabaseScreen.Whole i)
  = DatabaseScreen.Whole ((i + 1) mod Z.of_nat (List.length classes)).
Proof.
  intros Hi. unfold DatabaseScreen.selectNextShip, DatabaseScreen.plusOne,
    DatabaseScreen.remainder, DatabaseScreen.toNumber.
  destruct (List.length classes) as [ | n] eqn:Hn; [cbn in Hi; lia | ].
  rewrite Z.rem_mod_nonneg by lia. reflexivity.
Qed.

Lemma selectPreviousShip_in_range (classes : list spacecraftClass) (i : Z) :
  0 <= i < Z.of_nat (List.length classes) ->
  DatabaseScreen.selectPreviousShip classes (DatabaseScreen.Whole i)
  = DatabaseScreen.Whole ((i - 1) mod Z.of_nat (List.length classes)).
Proof.
  intros Hi. unfold DatabaseScreen.selectPreviousShip, DatabaseScreen.minusOne,
    DatabaseScreen.isMinusOne, DatabaseScreen.toNumber.
  destruct (Z.eqb_spec (i - 1) (-1)) as [H | H].
  - f_equal. replace (i - 1) with (-1) by lia.
    apply Z.mod_unique with (q := -1); lia.
  - f_equal. symmetry. apply Z.mod_small. lia.
Qed.

Lemma shipClass_in_range (classes : list spacecraftClass) (i : Z) :
  0 <= i < Z.of_nat (List.length classes) ->
  exists c, DatabaseScreen.shipClass classes (DatabaseScreen.Whole i) = Some c.
Proof.
  intros Hi. unfold DatabaseScreen.shipClass.
  destruct (Z.ltb_spec i 0) as [H | _]; [lia | ].
  destruct (nth_error classes (Z.to_nat i)) as [c | ] eqn:Hc.
  - exists c. reflexivity.
  - apply nth_error_None in Hc. lia.
Qed.

(** X18.  The ship selection loops around and stays on the list: for an
    index of the array of spacecraft classes, [selectNextShip()] and
    [selectPreviousShip()] each give an index at which [loadShip()] finds a
    class, and each undoes the other. *)
Theorem next_and_previous_ship_undo_each_other
  (classes : list spacecraftClass) (i : Z) :
  0 <= i < Z.of_nat (List.length classes) ->
  DatabaseScreen.selectNextShip classes
    (DatabaseScreen.selectPreviousShip classes (DatabaseScreen.Whole i))
  = DatabaseScreen.Whole i /\
  DatabaseScreen.selectPreviousShip classes
    (DatabaseScreen.selectNextShip classes (DatabaseScreen.Whole i))
  = DatabaseScreen.Whole i /\
  (exists c,
     DatabaseScreen.shipClass classes
       (DatabaseScreen.selectNextShip classes (DatabaseScreen.Whole i))
     = Some c) /\
  (exists c,
     DatabaseScreen.shipClass classes
       (DatabaseScreen.selectPreviousShip classes (DatabaseScreen.Whole i))
     = Some c).
Proof.
  intros Hi.
  assert (Hn : 0 < Z.of_nat (List.length classes)) by lia.
  pose proof (Z.mod_pos_bound (i + 1) _ Hn) as Hnext.
  pose proof (Z.mod_pos_bound (i - 1) _ Hn) as Hprevious.
  rewrite (selectNextShip_in_range classes i Hi).
  rewrite (selectPreviousShip_in_range classes i Hi).
  rewrite (selectNextShip_in_range classes _ Hprevious).
  rewrite (selectPreviousShip_in_range classes _ Hnext).
  split; [ | split; [ | split]].
  - f_equal. rewrite Zplus_mod_idemp_l.
    replace (i - 1 + 1) with i by lia. apply Z.mod_small. exact Hi.
  - f_equal. rewrite Zminus_mod_idemp_l.
    replace (i + 1 - 1) with i by lia. apply Z.mod_small. exact Hi.
  - apply shipClass_in_range. exact Hnext.
  - apply shipClass_in_range. exact Hprevious.
Qed.

Lemma selectNextShip_times (classes : list spacecraftClass) (i : Z) (k : nat) :
  0 <= i < Z.of_nat (List.length classes) ->
  Nat.iter k (DatabaseScreen.selectNextShip classes) (DatabaseScreen.Whole i)
  = DatabaseScreen.Whole ((i + Z.of_nat k) mod Z.of_nat (List.length classes)).
Proof.
  intros Hi. assert (Hn : 0 < Z.of_nat (List.length classes)) by lia.
  induction k as [ | k IH].
  - cbn [Nat.iter nat_rect]. f_equal. rewrite Z.add_0_r.
    symmetry. apply Z.mod_small. exact Hi.
  - rewrite Nat.iter_succ, IH.
    rewrite selectNextShip_in_range by (apply Z.mod_pos_bound; exact Hn).
    f_equal. rewrite Zplus_mod_idemp_l. f_equal. lia.
Qed.

Lemma selectPreviousShip_times (classes : list spacecraftClass) (i : Z)
  (k : nat) :
  0 <= i < Z.of_nat (List.length classes) ->
  Nat.iter k (DatabaseScreen.selectPreviousShip classes)
    (DatabaseScreen.Whole i)
  = DatabaseScreen.Whole ((i - Z.of_nat k) mod Z.of_nat (List.length classes)).
Proof.
  intros Hi. assert (Hn : 0 < Z.of_nat (List.length classes)) by lia.
  induction k as [ | k IH].
  - cbn [Nat.iter nat_rect]. f_equal. rewrite Z.sub_0_r.
    symmetry. apply Z.mod_small. exact Hi.
  - rewrite Nat.iter_succ, IH.
    rewrite selectPreviousShip_in_range by (apply Z.mod_pos_bound; exact Hn).
    f_equal. rewrite Zminus_mod_idemp_l. f_equal. lia.
Qed.

(** X19.  Going through the whole list comes back to where it started: from
    an index of the array of spacecraft classes, as many calls of
    [selectNextShip()] as there are classes give that index again, and so do
    as many calls of [selectPreviousShip()]; fewer calls of [selectNextShip()]
    than that, and more than none, give another index. *)
Theorem selecting_through_all_ships_comes_back
  (classes : list spacecraftClass) (i : Z) :
  0 <= i < Z.of_nat (List.length classes) ->
  Nat.iter (List.length classes) (DatabaseScreen.selectNextShip classes)
    (DatabaseScreen.Whole i)
  = DatabaseScreen.Whole i /\
  Nat.iter (List.length classes) (DatabaseScreen.selectPreviousShip classes)
    (DatabaseScreen.Whole i)
  = DatabaseScreen.Whole i /\
  forall k : nat,
    (0 < k < List.length classes)%nat ->
    Nat.iter k (DatabaseScreen.selectNextShip classes) (DatabaseScreen.Whole i)
    <> DatabaseScreen.Whole i.
Proof.
  intros Hi. split; [ | split].
  - rewrite (selectNextShip_times classes i _ Hi).
    f_equal. symmetry. apply Z.mod_unique with (q := 1); lia.
  - rewrite (selectPreviousShip_times classes i _ Hi).
    f_equal. symmetry. apply Z.mod_unique with (q := -1); lia.
  - intros k Hk. rewrite (selectNextShip_times classes i k Hi).
    intros E. injection E as E.
    destruct (Z.ltb_spec (i + Z.of_nat k) (Z.of_nat (List.length classes)))
      as [Hlt | Hge].
    + rewrite Z.mod_small in E by lia. lia.
    + assert (Hmod : (i + Z.of_nat k) mod Z.of_nat (List.length classes)
                     = i + Z.of_nat k - Z.of_nat (List.length classes)).
      { symmetry. apply Z.mod_unique with (q := 1); lia. }
      lia.
Qed.

End DatabaseScreenFacts.

(** ** The properties above on concrete objects *)

Section GraphicsExamples.
#[local] Existing Instance Examples.decimal.

Local Open Scope string_scope.

(** A new context that loads the edited storage and is then given a
    filtering. *)
Lemma shader_complexity_stays_in_order_witness :
  GraphicsUse.complexityInOrder Examples.fresh /\
  GraphicsUse.complexityInOrder
    (GraphicsUse.stateOf
       (GraphicsUse.performAll
          [GraphicsUse.loadFromLocalStorage; GraphicsUse.setFiltering "sharpest"]
          Examples.fresh)).
Proof.
  split; [exact I | ].
  apply (shader_complexity_stays_in_order
           [GraphicsUse.loadFromLocalStorage; GraphicsUse.setFiltering "sharpest"]
           Examples.fresh).
  exact I.
Defined.

(** The edited storage loaded into the context with the defaults. *)
Lemma loadFromLocalStorage_checks_the_complexity_only_witness :
  exists s',
    GraphicsContext.loadFromLocalStorage Examples.tampered
    = GraphicsContext.Returns s' /\
    GraphicsContext.getFiltering s' = Some "sharpest" /\
    GraphicsContext.getShaderComplexity s' = Some "normal".
Proof.
  destruct (loadFromLocalStorage_checks_the_complexity_only Examples.tampered
              "sharpest" "extreme" (or_intror eq_refl) eq_refl eq_refl)
    as (s' & Hload & Hf & _ & Hc & _).
  exists s'. split; [exact Hload | ]. split; [exact Hf | exact Hc].
Defined.

(** The saved settings loaded into a new context. *)
Lemma loadFromLocalStorage_throws_without_LOD_context_witness :
  exists s',
    GraphicsContext.loadFromLocalStorage
      (GraphicsUse.reloaded GraphicsContext.new Examples.saved)
    = GraphicsContext.Throws s' /\
    GraphicsContext.getMaxLoadedLOD s' = number 2 /\
    GraphicsContext.getShaderComplexity s' = None /\
    GraphicsContext.calls s' = [].
Proof.
  destruct (loadFromLocalStorage_throws_without_LOD_context
              (GraphicsUse.reloaded GraphicsContext.new Examples.saved) "2"
              eq_refl eq_refl)
    as (s' & Hload & _ & _ & Hl & _ & Hc & _ & _ & _ & _ & Hcalls).
  exists s'. split; [exact Hload | ].
  split; [exact Hl | ]. split; [exact Hc | exact Hcalls].
Defined.

(** [Examples.chosen], saved from [Examples.start] and loaded into the context
    with the defaults. *)
Lemma chosen_settings_are_shown_after_a_reload_witness :
  exists s2,
    GraphicsContext.loadFromLocalStorage
      (GraphicsUse.reloaded Examples.defaults Examples.saved)
    = GraphicsContext.Returns s2 /\
    GraphicsScreen.shownFiltering (GraphicsScreen.updateValues s2)
    = Some "anisotropic" /\
    GraphicsScreen.shownShadowQuality (GraphicsScreen.updateValues s2) = "high".
Proof.
  assert (Hclick : GraphicsScreen.backButton_onclick Examples.chosen
                     Examples.start
                   = Some (GraphicsContext.Returns Examples.saved))
    by (vm_compute; reflexivity).
  assert (Hg : GraphicsContext._lodContext Examples.defaults <> None)
    by discriminate.
  assert (Hlod : parseInt10 (Number_toString
                               (GraphicsScreen.lod Examples.chosen))
                 = GraphicsScreen.lod Examples.chosen)
    by (vm_compute; reflexivity).
  assert (Hquality : parseInt10 (Number_toString 4096) = 4096%float)
    by (vm_compute; reflexivity).
  assert (Hdistance : parseInt10 (Number_toString 6) = 6%float)
    by (vm_compute; reflexivity).
  destruct (chosen_settings_are_shown_after_a_reload Examples.chosen
              Examples.start Examples.saved Examples.defaults 4096 6
              (or_introl eq_refl) (or_introl eq_refl) eq_refl eq_refl
              eq_refl eq_refl Hlod Hquality Hdistance Hclick Hg)
    as (s2 & Hload & Hshown).
  exists s2. split; [exact Hload | ]. rewrite Hshown. split; reflexivity.
Defined.

(** Three ships and the first of them. *)
Lemma next_and_previous_ship_undo_each_other_witness :
  DatabaseScreen.selectNextShip Examples.ships
    (DatabaseScreen.selectPreviousShip Examples.ships (DatabaseScreen.Whole 0))
  = DatabaseScreen.Whole 0 /\
  DatabaseScreen.selectPreviousShip Examples.ships (DatabaseScreen.Whole 0)
  = DatabaseScreen.Whole 2.
Proof.
  split; [ | reflexivity].
  apply (next_and_previous_ship_undo_each_other Examples.ships 0).
  cbn. lia.
Defined.

(** Three ships and the second of them. *)
Lemma selecting_through_all_ships_comes_back_witness :
  Nat.iter 3 (DatabaseScreen.selectNextShip Examples.ships)
    (DatabaseScreen.Whole 1)
  = DatabaseScreen.Whole 1.
Proof.
  apply (selecting_through_all_ships_comes_back Examples.ships 1).
  cbn. lia.
Defined.

End GraphicsExamples.
